(** * Linode cloud driver (salt/cloud/clouds/linode.py): a shallow embedding

    The driver is Python code that talks to a remote API.  The embedding
    keeps the shape of the source:

    - Python objects are a small [value] type (JSON data, plus the two
      non-JSON objects that the v4 transport can hand back: an exception
      object and a raw response);
    - every function that performs I/O runs in the monad [M], which threads
      the process state (the trace of outbound events and the module global
      [LASTCALL]) and propagates raised exceptions;
    - the remote side is a parameter: a function from the trace so far and
      the request to a reply;
    - [while True] loops take a fuel argument, and running out of fuel is a
      distinct outcome, never confused with a result of the code.

    Python 3 semantics is assumed where Python 2 and 3 differ.  Calls of the
    logger are left out, except where evaluating their arguments can
    raise. *)

From Stdlib Require Import ZArith List String Ascii Bool Lia Permutation.
From Stdlib Require Import DecimalString.
From stdpp Require Import base option list strings gmap.

#[local] Set Warnings "-register-all".
#[local] Open Scope string_scope.
#[local] Open Scope list_scope.
#[local] Open Scope Z_scope.

(** ** Python values *)

Inductive exn_class :=
| SaltCloudSystemExit
| SaltCloudException
| SaltCloudNotFound
| SaltCloudConfigError
| TypeError
| KeyError
| IndexError
| AttributeError
| ValueError
| ZeroDivisionError.

(** [text] is a string built by [str.format]; it is kept unrendered, as the
    template and its arguments.  Such strings are only ever sent out (request
    paths, log and exception messages), the code never inspects them. *)
Inductive value :=
| VNone
| VBool (b : bool)
| VInt (z : Z)
| VStr (s : string)
| VList (l : list value)
| VDict (d : list (string * value))
| VExc (c : exn_class) (args : list text)
| VResponse (status : Z) (body : option value)
with text :=
| Val (v : value)
| Format (template : string) (args : list text).

Definition Lit (s : string) : text := Val (VStr s).

(** A raised exception: its class and constructor arguments. *)
Record exn := Exn { exn_class_of : exn_class; exn_args : list text }.

(** The result of running a piece of code. *)
Inductive outcome (A : Type) :=
| Ret (a : A)
| Raise (e : exn)
| OutOfFuel.
Arguments Ret {A} a.
Arguments Raise {A} e.
Arguments OutOfFuel {A}.

Definition raise_msg {A} (c : exn_class) (msg : string) : outcome A :=
  Raise (Exn c [Lit msg]).

Definition obind {A B} (o : outcome A) (k : A -> outcome B) : outcome B :=
  match o with
  | Ret a => k a
  | Raise e => Raise e
  | OutOfFuel => OutOfFuel
  end.

(** Truth value of an object ([bool(x)]). *)
Definition truthy (v : value) : bool :=
  match v with
  | VNone => false
  | VBool b => b
  | VInt z => negb (z =? 0)
  | VStr s => negb (String.eqb s "")
  | VList l => match l with [] => false | _ => true end
  | VDict d => match d with [] => false | _ => true end
  | VExc _ _ => true
  | VResponse st _ => negb ((400 <=? st) && (st <? 600))
  end.

(** [dict] lookup by key on the association list of a JSON object. *)
Fixpoint assoc (k : string) (d : list (string * value)) : option value :=
  match d with
  | [] => None
  | (k', v) :: d' => if String.eqb k k' then Some v else assoc k d'
  end.

Definition has_key (k : string) (d : list (string * value)) : bool :=
  match assoc k d with
  | Some _ => true
  | None => false
  end.

(** [a == b].  [True == 1] and [False == 0] hold, as in Python; exception
    and response objects compare by identity, and two of them are never the
    same object here. *)
Fixpoint py_eq (a b : value) {struct a} : bool :=
  match a, b with
  | VNone, VNone => true
  | VBool x, VBool y => Bool.eqb x y
  | VBool x, VInt y => (if x then 1 else 0) =? y
  | VInt x, VBool y => x =? (if y then 1 else 0)
  | VInt x, VInt y => x =? y
  | VStr x, VStr y => String.eqb x y
  | VList l, VList l' =>
      (fix go (l l' : list value) : bool :=
         match l, l' with
         | [], [] => true
         | x :: l, y :: l' => py_eq x y && go l l'
         | _, _ => false
         end) l l'
  | VDict d, VDict d' =>
      (Nat.eqb (length d) (length d')) &&
      (fix go (d : list (string * value)) : bool :=
         match d with
         | [] => true
         | (k, v) :: d =>
             match assoc k d' with
             | Some v' => py_eq v v' && go d
             | None => false
             end
         end) d
  | _, _ => false
  end.

(** [d.get(k, default)]; only a dict has the method. *)
Definition py_get (v : value) (k : string) (default : value) : outcome value :=
  match v with
  | VDict d => Ret (match assoc k d with Some x => x | None => default end)
  | _ => raise_msg AttributeError "object has no attribute 'get'"
  end.

(** [v[k]] with a string key. *)
Definition py_item (v : value) (k : string) : outcome value :=
  match v with
  | VDict d =>
      match assoc k d with
      | Some x => Ret x
      | None => Raise (Exn KeyError [Lit k])
      end
  | VList _ | VStr _ =>
      raise_msg TypeError "indices must be integers or slices, not str"
  | _ => raise_msg TypeError "object is not subscriptable"
  end.

(** [v[0]]. *)
Definition py_first (v : value) : outcome value :=
  match v with
  | VList (x :: _) => Ret x
  | VList [] => raise_msg IndexError "list index out of range"
  | VStr (String c _) => Ret (VStr (String c ""))
  | VStr "" => raise_msg IndexError "string index out of range"
  | VDict d =>
      (* a JSON object has string keys only, so the key 0 is never there *)
      Raise (Exn KeyError [Val (VInt 0)])
  | _ => raise_msg TypeError "object is not subscriptable"
  end.

(** Substring test, for [k in s] on strings. *)
Fixpoint is_prefix (p s : string) : bool :=
  match p, s with
  | EmptyString, _ => true
  | String a p', String b s' => Ascii.eqb a b && is_prefix p' s'
  | String _ _, EmptyString => false
  end.

Fixpoint contains (p s : string) : bool :=
  is_prefix p s ||
  match s with
  | EmptyString => false
  | String _ s' => contains p s'
  end.

(** [k in v] for a string [k]. *)
Definition py_in (k : string) (v : value) : outcome bool :=
  match v with
  | VDict d => Ret (has_key k d)
  | VList l => Ret (existsb (fun x => py_eq x (VStr k)) l)
  | VStr s => Ret (contains k s)
  | _ => raise_msg TypeError "argument is not iterable"
  end.

Fixpoint chars (s : string) : list string :=
  match s with
  | EmptyString => []
  | String c s' => String c "" :: chars s'
  end.

Fixpoint join (sep : string) (l : list string) : string :=
  match l with
  | [] => ""
  | [x] => x
  | x :: l' => x +:+ sep +:+ join sep l'
  end.

Fixpoint all_strings (l : list value) : option (list string) :=
  match l with
  | [] => Some []
  | VStr s :: l' =>
      match all_strings l' with
      | Some r => Some (s :: r)
      | None => None
      end
  | _ :: _ => None
  end.

(** [sep.join(v)]: the iterable must yield strings. *)
Definition py_join (sep : string) (v : value) : outcome string :=
  match v with
  | VList l =>
      match all_strings l with
      | Some ss => Ret (join sep ss)
      | None => raise_msg TypeError "sequence item: expected str instance"
      end
  | VStr s => Ret (join sep (chars s))
  | VDict d => Ret (join sep (map fst d))
  | _ => raise_msg TypeError "can only join an iterable"
  end.

(** A [str] object.  [x is "literal"] compares identities: CPython interns
    the literal, so the test holds exactly when [x] is the interned string
    with these characters.  A string read from a configuration file is not
    interned. *)
Record pystr := PyStr { str_chars : string; interned : bool }.

Definition is_literal (x : pystr) (literal : string) : bool :=
  interned x && String.eqb (str_chars x) literal.

(** ** The VM profile and the configuration accessors

    [config.get_cloud_config_value] is a collaborator of the host; the
    profile [vm_] is taken with its values already looked up, a missing
    value being [None]. *)

Record vm := VM {
  vm_name : string;
  vm_clonefrom : value;
  vm_size : value;
  vm_image : value;
  vm_location : value;
  vm_ssh_pubkey : value;
  vm_password : value;
  vm_ssh_interface : option pystr;
  vm_assign_private_ip : option bool;
  vm_swap : option Z;
  vm_disk_size : option Z
}.

Definition _get_password (vm_ : vm) : value := vm_password vm_.

Definition _get_root_disk_size (vm_ : vm) : option Z := vm_disk_size vm_.

Definition _get_private_ip (vm_ : vm) : bool :=
  match vm_assign_private_ip vm_ with
  | Some b => b
  | None => false
  end.

Definition _get_pub_key (vm_ : vm) : value := vm_ssh_pubkey vm_.

Definition _get_ssh_interface (vm_ : vm) : pystr :=
  match vm_ssh_interface vm_ with
  | Some s => s
  | None => PyStr "public_ips" true
  end.

Definition _get_swap_size (vm_ : vm) : Z :=
  match vm_swap vm_ with
  | Some n => n
  | None => 256
  end.

(** ** Process state, the remote side, and the monad *)

Inductive http_method := GET | POST | DELETE.

(** What leaves the process, in order.  [EvRest] is a call of
    [requests.request] (API v4), [EvRpc] a call of [http.query] (API v3) with
    its query parameters (the API key left out). *)
Inductive event :=
| EvRest (m : http_method) (path : text) (data : option value)
| EvRpc (args : list (string * value))
| EvSleep (milliseconds : Z)
| EvFire (description : string) (tag : text) (args : list (string * value))
| EvBootstrap.

Record state := State { trace : list event; LASTCALL : Z }.

(** What [requests.request] does: it returns a response (status code and
    the JSON in its body, if the body is JSON), or raises [HTTPError] carrying
    a response. *)
Inductive rest_reply :=
| Response (status : Z) (body : option value)
| RaisesHTTPError (body : option value).

(** The collaborators of the driver.  The replies of the remote side may
    depend on everything the process did before.  [clock] is the wall clock
    in seconds, [poll_interval] and [ratelimit_sleep] are the provider's
    configuration values, [ip_is_private] is
    [ipaddress.ip_address(addr).is_private] (it raises on a malformed
    address), [int_of_str] is the builtin [int] on a string, [py_repr] the
    builtin [repr],
    [cloud_filter_event] selects the fields of the profile that an event
    carries, and [cloud_bootstrap] is what the bootstrap collaborator returns
    for the profile and the [ssh_host] stored in it. *)
Record env := Env {
  requests_request : list event -> http_method -> text -> option value -> rest_reply;
  http_query : list event -> list (string * value) -> outcome value;
  clock : list event -> Z;
  poll_interval : Z;
  ratelimit_sleep : Z;
  ip_is_private : value -> outcome bool;
  int_of_str : string -> option Z;
  py_repr : value -> string;
  cloud_filter_event : string -> vm -> list (string * value);
  cloud_bootstrap : vm -> value -> list (string * value)
}.

Definition M (A : Type) : Type := state -> outcome A * state.

Definition ret {A} (a : A) : M A := fun st => (Ret a, st).

Definition raise {A} (e : exn) : M A := fun st => (Raise e, st).

Definition bind {A B} (c : M A) (k : A -> M B) : M B :=
  fun st =>
    match c st with
    | (Ret a, st') => k a st'
    | (Raise e, st') => (Raise e, st')
    | (OutOfFuel, st') => (OutOfFuel, st')
    end.

(** A pure computation that may raise. *)
Definition lift {A} (o : outcome A) : M A := fun st => (o, st).

Definition emit (e : event) : M unit :=
  fun st => (Ret tt, State (trace st ++ [e]) (LASTCALL st)).

Notation "x <- c ;; k" := (bind c (fun x => k))
  (at level 100, c at next level, right associativity).
Notation "c ;; k" := (bind c (fun _ => k))
  (at level 100, right associativity).

Definition sleep (milliseconds : Z) : M unit := emit (EvSleep milliseconds).

Definition fire_event (description : string) (tag : text)
    (args : list (string * value)) : M unit :=
  emit (EvFire description tag args).

(** The requests of the trace that reached the remote API. *)
Definition is_remote_call (e : event) : bool :=
  match e with
  | EvRest _ _ _ | EvRpc _ => true
  | _ => false
  end.

Definition remote_calls (t : list event) : list event :=
  List.filter is_remote_call t.

(** ** StatusVocabulary: the APIv3 status table *)

Record status_data := StatusData { code : Z; descr : string }.

(** The module constant, in the order of the source. *)
Definition LINODE_STATUS : list (string * status_data) :=
  [ ("boot_failed",    StatusData (-2) "Boot Failed (not in use)");
    ("beeing_created", StatusData (-1) "Being Created");
    ("brand_new",      StatusData 0 "Brand New");
    ("running",        StatusData 1 "Running");
    ("poweroff",       StatusData 2 "Powered Off");
    ("shutdown",       StatusData 3 "Shutting Down (not in use)");
    ("save_to_disk",   StatusData 4 "Saved to Disk (not in use)") ].

(** The description that a table has for a status code: that of the first
    entry with the code. *)
Fixpoint descr_by_code (table : list (string * status_data)) (status_id : Z)
  : option string :=
  match table with
  | [] => None
  | (_, status_data) :: rest =>
      if code status_data =? status_id then Some (descr status_data)
      else descr_by_code rest status_id
  end.

Fixpoint status_by_name (table : list (string * status_data)) (name : string)
  : option status_data :=
  match table with
  | [] => None
  | (k, d) :: rest => if String.eqb k name then Some d else status_by_name rest name
  end.

(** [_get_status_id_by_name]: [LINODE_STATUS.get(status_name, {}).get("code", None)]. *)
Definition _get_status_id_by_name (status_name : string) : option Z :=
  match status_by_name LINODE_STATUS status_name with
  | Some d => Some (code d)
  | None => None
  end.

(** ** Regular expressions, as far as [_validate_name] needs them *)

Inductive regex :=
| Void
| Eps
| Class (p : ascii -> bool)
| Cat (r1 r2 : regex)
| Alt (r1 r2 : regex)
| Star (r : regex).

(** The strings a regular expression denotes. *)
Inductive lang : regex -> string -> Prop :=
| lang_eps : lang Eps ""
| lang_class p c : p c = true -> lang (Class p) (String c "")
| lang_cat r1 r2 s1 s2 :
    lang r1 s1 -> lang r2 s2 -> lang (Cat r1 r2) (s1 +:+ s2)
| lang_alt_l r1 r2 s : lang r1 s -> lang (Alt r1 r2) s
| lang_alt_r r1 r2 s : lang r2 s -> lang (Alt r1 r2) s
| lang_star_nil r : lang (Star r) ""
| lang_star_app r s1 s2 :
    lang r s1 -> lang (Star r) s2 -> lang (Star r) (s1 +:+ s2).

Fixpoint nullable (r : regex) : bool :=
  match r with
  | Void => false
  | Eps => true
  | Class _ => false
  | Cat r1 r2 => nullable r1 && nullable r2
  | Alt r1 r2 => nullable r1 || nullable r2
  | Star _ => true
  end.

Fixpoint deriv (c : ascii) (r : regex) : regex :=
  match r with
  | Void => Void
  | Eps => Void
  | Class p => if p c then Eps else Void
  | Cat r1 r2 =>
      if nullable r1 then Alt (Cat (deriv c r1) r2) (deriv c r2)
      else Cat (deriv c r1) r2
  | Alt r1 r2 => Alt (deriv c r1) (deriv c r2)
  | Star r1 => Cat (deriv c r1) (Star r1)
  end.

(** The whole string is in the language of [r]. *)
Fixpoint accepts (r : regex) (s : string) : bool :=
  match s with
  | EmptyString => nullable r
  | String c s' => accepts (deriv c r) s'
  end.

Definition newline : ascii := ascii_of_nat 10.

(** [Some t] when [s] is [t] followed by one newline. *)
Fixpoint strip_final_newline (s : string) : option string :=
  match s with
  | EmptyString => None
  | String c EmptyString => if Ascii.eqb c newline then Some "" else None
  | String c s' =>
      match strip_final_newline s' with
      | Some t => Some (String c t)
      | None => None
      end
  end.

(** [re.match(r"^r$", s)] is a match: Python's [$] (without [re.MULTILINE])
    matches at the end of the string and also just before a newline that
    ends the string. *)
Definition re_match (r : regex) (s : string) : bool :=
  accepts r s ||
  match strip_final_newline s with
  | Some t => accepts r t
  | None => false
  end.

(** The same, as a relation. *)
Definition re_matches (r : regex) (s : string) : Prop :=
  lang r s \/ exists t, s = t +:+ String newline "" /\ lang r t.

Definition in_range (lo hi c : ascii) : bool :=
  ((nat_of_ascii lo <=? nat_of_ascii c) && (nat_of_ascii c <=? nat_of_ascii hi))%nat.

(** [[a-zA-Z0-9]] *)
Definition alnum (c : ascii) : bool :=
  in_range "a" "z" c || in_range "A" "Z" c || in_range "0" "9" c.

(** [[A-Za-z0-9_-]] *)
Definition label_char (c : ascii) : bool :=
  in_range "A" "Z" c || in_range "a" "z" c || in_range "0" "9" c
  || Ascii.eqb c "_" || Ascii.eqb c "-".

(** [^[a-zA-Z0-9][A-Za-z0-9_-]*[a-zA-Z0-9]$] *)
Definition label_regex : regex :=
  Cat (Class alnum) (Cat (Star (Class label_char)) (Class alnum)).

(** [_validate_name(name)]; the warning it logs on failure is not modelled. *)
Definition _validate_name (name : string) : bool :=
  let name_length := Z.of_nat (String.length name) in
  if (name_length <? 3) || (name_length >? 48) then false
  else if negb (re_match label_regex name) then false
  else true.

(** ** More of Python *)

(** Iterating over an object. *)
Definition py_iter (v : value) : outcome (list value) :=
  match v with
  | VList l => Ret l
  | VStr s => Ret (map VStr (chars s))
  | VDict d => Ret (map (fun kv => VStr (fst kv)) d)
  | _ => raise_msg TypeError "object is not iterable"
  end.

(** An operand of integer arithmetic; [bool] is a subclass of [int]. *)
Definition as_int (v : value) : outcome Z :=
  match v with
  | VInt z => Ret z
  | VBool b => Ret (if b then 1 else 0)
  | _ => raise_msg TypeError "unsupported operand type(s)"
  end.

(** A function object of a class body: its name, the number of its
    parameters and its body.  The functions modelled this way have neither
    default values nor starred parameters, so a call must pass exactly as
    many arguments as there are parameters. *)
Record pyfunction := PyFunction {
  fn_name : string;
  fn_params : nat;
  fn_body : list value -> outcome value
}.

(** [f(args)]: the arguments are evaluated first, then bound to the
    parameters; a wrong number of them raises [TypeError] and the body does
    not run.  (The message is CPython's, up to the plural of "argument".) *)
Definition call (f : pyfunction) (args : list value) : outcome value :=
  if Nat.eqb (length args) (fn_params f) then fn_body f args
  else Raise (Exn TypeError
                [Format "{}() takes {} positional argument but {} were given"
                   [Lit (fn_name f); Val (VInt (Z.of_nat (fn_params f)));
                    Val (VInt (Z.of_nat (length args)))]]).

(** [self.f(args)] for a function [f] of the class of [self]: the attribute
    is a bound method, and calling it passes the instance before [args]. *)
Definition call_method (self : value) (f : pyfunction) (args : list value)
  : outcome value :=
  call f (self :: args).

(** [l[0]] on a list built by the driver itself. *)
Definition list_first (l : list value) : outcome value :=
  match l with
  | x :: _ => Ret x
  | [] => raise_msg IndexError "list index out of range"
  end.

(** [d[k] = v] *)
Fixpoint dict_set (k : string) (v : value) (d : list (string * value))
  : list (string * value) :=
  match d with
  | [] => [(k, v)]
  | (k', v') :: d' =>
      if String.eqb k k' then (k, v) :: d' else (k', v') :: dict_set k v d'
  end.

(** [d.update(other)] *)
Definition dict_update (d other : list (string * value)) : list (string * value) :=
  fold_left (fun acc kv => dict_set (fst kv) (snd kv) acc) other d.

(** [kwargs.get(k, None)] on a keyword dictionary. *)
Definition kwarg (kwargs : gmap string value) (k : string) : value :=
  match kwargs !! k with
  | Some v => v
  | None => VNone
  end.

Definition is_None (v : value) : bool :=
  match v with
  | VNone => true
  | _ => false
  end.

(** ** The abstract driver interface, and [get_linode] of the base class *)

Class LinodeAPI := {
  _get_linode_by_name : value -> M value;
  _get_linode_by_id : value -> M value
}.

Definition get_linode_error : exn :=
  Exn SaltCloudSystemExit
    [Lit "The get_linode function requires either a 'name' or a 'linode_id'."].

Definition get_linode `{LinodeAPI} (kwargs : gmap string value) : M value :=
  let name := kwarg kwargs "name" in
  let linode_id := kwarg kwargs "linode_id" in
  if negb (is_None linode_id) then _get_linode_by_id linode_id
  else if negb (is_None name) then _get_linode_by_name name
  else raise get_linode_error.

(** ** Dictionaries keyed by objects

    The listings index their entries by a field of the answer; the key is
    whatever object the answer holds there.  Equal keys ([True] and [1])
    are one key, and a list or a dictionary cannot be a key. *)

Definition hashable (v : value) : bool :=
  match v with
  | VList _ | VDict _ => false
  | _ => true
  end.

Definition pydict : Type := list (value * value).

(** [d.get(k)] *)
Fixpoint pydict_get (k : value) (d : pydict) : option value :=
  match d with
  | [] => None
  | (k', v) :: d' => if py_eq k' k then Some v else pydict_get k d'
  end.

(** [d[k] = v] for a hashable [k]: an entry with an equal key keeps its key
    and takes the new value. *)
Fixpoint pydict_set (k v : value) (d : pydict) : pydict :=
  match d with
  | [] => [(k, v)]
  | (k', v') :: d' =>
      if py_eq k' k then (k', v) :: d' else (k', v') :: pydict_set k v d'
  end.

(** [d[k] = v] *)
Definition pydict_store (k v : value) (d : pydict) : outcome pydict :=
  if hashable k then Ret (pydict_set k v d)
  else raise_msg TypeError "unhashable type".

(** The loop [for item in items: ret[item[key]] = item] of the listings. *)
Fixpoint index_by (key : string) (items : list value) (ret_ : pydict)
  : outcome pydict :=
  match items with
  | [] => Ret ret_
  | item :: rest =>
      obind (py_item item key) (fun k =>
      obind (pydict_store k item ret_) (fun ret_ =>
      index_by key rest ret_))
  end.

(** ** class LinodeAPIv4 *)

Module LinodeAPIv4.
Section WithEnv.

Variable E : env.

Definition _get_poll_interval : Z := poll_interval E.

(** One call of [requests.request]: the request leaves the process, the
    remote side answers. *)
Definition request (method : http_method) (path : text) (data : option value)
  : M rest_reply :=
  fun st =>
    (Ret (requests_request E (trace st) method path data),
     State (trace st ++ [EvRest method path data]) (LASTCALL st)).

(** [_query].  [decode = method is not 'DELETE']: every caller passes a
    literal of this module, for which the identity test is the comparison.
    In the [except] branch the source returns the exception objects it
    builds; when the error body has neither key, control falls through with
    [result] still [None]. *)
Definition _query (path : text) (method : http_method) (data : option value)
  : M value :=
  let decode := match method with DELETE => false | _ => true end in
  reply <- request method path data ;;
  match reply with
  | Response status body =>
      if decode then
        match body with
        | Some json => ret json
        | None => raise (Exn ValueError [Lit "response body is not JSON"])
        end
      else ret (VResponse status body)
  | RaisesHTTPError body =>
      match body with
      | None => raise (Exn ValueError [Lit "response body is not JSON"])
      | Some response =>
          has_error <- lift (py_in "error" response) ;;
          if has_error then
            err <- lift (py_item response "error") ;;
            ret (VExc SaltCloudSystemExit [Lit "Linode API reported error: "; Val err])
          else
            has_errors <- lift (py_in "errors" response) ;;
            if has_errors then
              errs <- lift (py_item response "errors") ;;
              joined <- lift (py_join ", " errs) ;;
              ret (VExc SaltCloudSystemExit
                     [Lit "Linode API reported error(s): "; Lit joined])
            else if decode then
              raise (Exn AttributeError [Lit "'NoneType' object has no attribute 'json'"])
            else ret VNone
      end
  end.

Definition _get_linode_by_id (linode_id : value) : M value :=
  _query (Format "/linode/instances/{}" [Val linode_id]) GET None.

Fixpoint find_label (instances : list value) (name : value) : outcome (option value) :=
  match instances with
  | [] => Ret None
  | instance :: rest =>
      obind (py_item instance "label") (fun label =>
        if py_eq label name then Ret (Some instance) else find_label rest name)
  end.

Definition _get_linode_by_name (name : value) : M value :=
  result <- _query (Lit "/linode/instances") GET None ;;
  data <- lift (py_get result "data" (VList [])) ;;
  instances <- lift (py_iter data) ;;
  found <- lift (find_label instances name) ;;
  match found with
  | Some instance => ret instance
  | None =>
      raise (Exn SaltCloudNotFound
               [Format "The specified name, {0}, could not be found." [Val name]])
  end.

#[local] Instance api : LinodeAPI :=
  Build_LinodeAPI _get_linode_by_name _get_linode_by_id.

Definition _get_linode_type (linode_type : value) : M value :=
  _query (Format "/linode/types/{}" [Val linode_type]) GET None.

(** The [for] loop of [_get_ips]. *)
Fixpoint classify (addrs public private : list value)
  : outcome (list value * list value) :=
  match addrs with
  | [] => Ret (public, private)
  | addr :: rest =>
      obind (ip_is_private E addr) (fun is_private =>
        if is_private then classify rest public (private ++ [addr])
        else classify rest (public ++ [addr]) private)
  end.

Definition _get_ips (linode_id : value) : M (list value * list value) :=
  instance <- _get_linode_by_id linode_id ;;
  ipv4 <- lift (py_get instance "ipv4" (VList [])) ;;
  addrs <- lift (py_iter ipv4) ;;
  lift (classify addrs [] []).

Definition timed_out (entity_name identifier : text) (status : value) : exn :=
  Exn SaltCloudException
    [Format "timed out while waiting for {} {} to reach status {}."
       [entity_name; identifier; Val status]].

(** The [while True] loop of [_wait_for_entity_status]; one unit of fuel per
    iteration.  [curr] is a variable of the loop that no statement of the
    loop assigns. *)
Fixpoint wait_loop (fuel : nat) (getter : M value) (status : value)
    (entity_name identifier : text) (poll_interval times curr : Z) : M value :=
  match fuel with
  | O => lift OutOfFuel
  | S fuel' =>
      result <- getter ;;
      current_status <- lift (py_get result "status" VNone) ;;
      if py_eq current_status status then ret result
      else if curr <=? times then
        (if poll_interval <? 0 then
           raise (Exn ValueError [Lit "sleep length must be non-negative"])
         else sleep poll_interval) ;;
        wait_loop fuel' getter status entity_name identifier poll_interval times curr
      else raise (timed_out entity_name identifier status)
  end.

(** [times = (timeout * 1000) / poll_interval] is only compared with the
    integer [curr], and [curr <= x] holds for the quotient [x] exactly when
    it holds for its floor. *)
Definition _wait_for_entity_status (fuel : nat) (getter : M value)
    (status : value) (entity_name identifier : text) (timeout : Z) : M value :=
  let poll_interval := _get_poll_interval in
  if poll_interval =? 0 then
    raise (Exn ZeroDivisionError [Lit "division by zero"])
  else
    let times := (timeout * 1000) / poll_interval in
    let curr := 1 in
    wait_loop fuel getter status entity_name identifier poll_interval times curr.

Definition _wait_for_disk_status (fuel : nat) (linode_id disk_id status : value)
    (timeout : Z) : M value :=
  _wait_for_entity_status fuel
    (_query (Format "/linode/instance/{}/disk/{}" [Val linode_id; Val disk_id]) GET None)
    status (Lit "instance disk")
    (Format "{}/{}" [Val linode_id; Val disk_id]) timeout.

Definition _wait_for_linode_status (fuel : nat) (linode_id status : value)
    (timeout : Z) : M value :=
  _wait_for_entity_status fuel (_get_linode_by_id linode_id)
    status (Lit "linode") (Val linode_id) timeout.

Definition _create_disk (fuel : nat) (linode_id size label authorized_keys
    filesystem image root_pass : value) : M value :=
  disk <- _query (Format "/linode/instance/{}/disks" [Val linode_id]) POST
            (Some (VDict [ ("size", size);
                           ("label", label);
                           ("authorized_keys", authorized_keys);
                           ("filesystem", filesystem);
                           ("image", image);
                           ("root_pass", root_pass) ])) ;;
  disk_id <- lift (py_get disk "id" VNone) ;;
  _wait_for_disk_status fuel linode_id disk_id (VStr "ready") 120 ;;
  ret disk.

(** [int(x)] *)
Definition py_int (v : value) : outcome Z :=
  match v with
  | VInt z => Ret z
  | VBool b => Ret (if b then 1 else 0)
  | VStr s =>
      match int_of_str E s with
      | Some z => Ret z
      | None => raise_msg ValueError "invalid literal for int()"
      end
  | _ => raise_msg TypeError "int() argument must be a string or a number"
  end.

Definition create_config_requires : exn :=
  Exn SaltCloudSystemExit
    [Lit ("The create_config functions requires a 'name', 'linode_id', "
          +:+ "'root_disk_id', and 'swap_disk_id'.")].

Definition create_config (kwargs : gmap string value) : M value :=
  let name := kwarg kwargs "name" in
  let linode_id := kwarg kwargs "linode_id" in
  let root_disk_id := kwarg kwargs "root_disk_id" in
  let swap_disk_id := kwarg kwargs "swap_disk_id" in
  let data_disk_id := kwarg kwargs "data_disk_id" in
  if negb (truthy name) && negb (truthy linode_id) then
    raise (Exn SaltCloudSystemExit
             [Lit "The create_config function requires either a 'name' or 'linode_id'"])
  else
    let required_params := [name; linode_id; root_disk_id; swap_disk_id] in
    if existsb is_None required_params then raise create_config_requires
    else
      sda <- lift (py_int root_disk_id) ;;
      sdb <- (if negb (is_None data_disk_id) then
                n <- lift (py_int data_disk_id) ;;
                ret (VDict [("disk_id", VInt n)])
              else ret VNone) ;;
      sdc <- lift (py_int swap_disk_id) ;;
      let devices :=
        VDict [ ("sda", VDict [("disk_id", VInt sda)]);
                ("sdb", sdb);
                ("sdc", VDict [("disk_id", VInt sdc)]) ] in
      _query (Format "/linode/instances/{}/configs" [Val linode_id]) POST
        (Some (VDict [("label", name); ("devices", devices)])).

Definition clone (kwargs : gmap string value) : M value :=
  let linode_id := kwarg kwargs "linode_id" in
  let location := kwarg kwargs "location" in
  let size := kwarg kwargs "size" in
  if existsb is_None [linode_id; location; size] then
    raise (Exn SaltCloudSystemExit
             [Lit ("The clone function requires a 'linode_id', 'location',"
                   +:+ "and 'size' to be provided.")])
  else
    _query (Format "/linode/instances/{}/clone" [Val linode_id]) POST
      (Some (VDict [("region", location); ("type", size)])).

Definition cannot_boot (name linode_id : value) : exn :=
  Exn SaltCloudSystemExit
    [Format "Cannot boot Linode {0} ({1}). Linode {0} is already running."
       [Val name; Val linode_id]].

(** [boot].  The call of [_query] passes a keyword argument [body], which
    [_query] does not have: the call raises [TypeError] after its arguments
    are evaluated and before [_query] runs. *)
Definition boot (fuel : nat) (name : value) (kwargs : gmap string value)
  : M value :=
  instance <- get_linode (<["name" := name]>
                            {["linode_id" := kwarg kwargs "linode_id"]}) ;;
  let config_id := kwarg kwargs "config_id" in
  let check_running :=
    match kwargs !! "check_running" with
    | Some v => v
    | None => VBool true
    end in
  linode_id <- lift (py_get instance "id" VNone) ;;
  name <- lift (py_get instance "label" VNone) ;;
  (if truthy check_running then
     status <- lift (py_item instance "status") ;;
     if py_eq status (VStr "running") then raise (cannot_boot name linode_id)
     else ret tt
   else ret tt) ;;
  response <- (raise (Exn TypeError
                 [Lit "_query() got an unexpected keyword argument 'body'"])
               : M value) ;;
  _wait_for_linode_status fuel linode_id (VStr "running") 120 ;;
  ret (VBool true).

(** [use_private_ip = ssh_interface is "private_ips"] *)
Definition use_private_ip (vm_ : vm) : bool :=
  is_literal (_get_ssh_interface vm_) "private_ips".

(** The choice of [vm_["ssh_host"]] at the end of [create]. *)
Definition ssh_host (vm_ : vm) (public_ips private_ips : list value)
  : outcome value :=
  if use_private_ip vm_ then list_first private_ips
  else list_first public_ips.

Definition insufficient_space (instance_type disk_size : value) : exn :=
  Exn SaltCloudException
    [Format "Insufficient space available for type '{}' ({})"
       [Val instance_type; Val disk_size]].

Definition root_disk_required : exn :=
  Exn SaltCloudException [Lit "Disk must be allocated for the root disk partition"].

(** The block of [create] under [if not should_clone and not
    implicit_data_disk]: the declared disks and the configuration profile.
    The dictionary passed to [create_config] is read with the entry
    [linode_id] bound to [linode_id]. *)
Definition create_declared_disks (fuel : nat) (linode_id instance_type image
    pub_ssh_key password : value) (swap_size root_disk_size : Z) : M unit :=
  instance_spec <- _get_linode_type instance_type ;;
  disk_size_value <- lift (py_get instance_spec "disk" (VInt 0)) ;;
  disk_size <- lift (as_int disk_size_value) ;;
  let root_disk_size :=
    if root_disk_size =? 0 then disk_size - swap_size else root_disk_size in
  if root_disk_size + swap_size >? disk_size then
    raise (insufficient_space instance_type disk_size_value)
  else if root_disk_size <=? 0 then raise root_disk_required
  else
    let swap_disk := VNone in
    (if negb (swap_size =? 0) then
       _create_disk fuel linode_id (VInt swap_size) VNone VNone (VStr "swap")
         VNone VNone ;;
       ret tt
     else ret tt) ;;
    data_disk <- _create_disk fuel linode_id (VInt root_disk_size) VNone
                   (VList [pub_ssh_key]) (VStr "ext4") image password ;;
    data_disk_id <- lift (py_item data_disk "id") ;;
    swap_disk_id <- (if truthy swap_disk then lift (py_item swap_disk "id")
                     else ret VNone) ;;
    create_config (<["swap_disk_id" := swap_disk_id]>
                   (<["data_disk_id" := data_disk_id]>
                    (<["linode_id" := linode_id]>
                     {["name" := VStr "Default Config"]}))) ;;
    ret tt.

Definition create (fuel : nat) (vm_ : vm) : M value :=
  let name := vm_name vm_ in
  if negb (_validate_name name) then ret (VBool false)
  else
    fire_event "starting create" (Format "salt/cloud/{0}/creating" [Lit name])
      (cloud_filter_event E "creating" vm_) ;;
    let pub_ssh_key := _get_pub_key vm_ in
    let assign_private_ip := _get_private_ip vm_ || use_private_ip vm_ in
    let password := _get_password vm_ in
    let swap_size := _get_swap_size vm_ in
    let clonefrom_name := vm_clonefrom vm_ in
    let instance_type := vm_size vm_ in
    let image := vm_image vm_ in
    let implicit_data_disk :=
      match _get_root_disk_size vm_ with
      | None => true
      | Some _ => false
      end in
    let should_clone := truthy clonefrom_name in
    result <-
      (if should_clone then
         clone_linode <- get_linode {["name" := clonefrom_name]} ;;
         source_id <- lift (py_item clone_linode "id") ;;
         source_region <- lift (py_item clone_linode "region") ;;
         source_type <- lift (py_item clone_linode "type") ;;
         result <- clone (<["size" := source_type]>
                          (<["location" := source_region]>
                           {["linode_id" := source_id]})) ;;
         (if assign_private_ip then
            new_id <- lift (py_item result "id") ;;
            _query (Lit "/networking/ips") POST
              (Some (VDict [ ("type", VStr "ipv4");
                             ("public", VBool false);
                             ("linode_id", new_id) ])) ;;
            ret tt
          else ret tt) ;;
         ret result
       else
         let params :=
           [ ("label", VStr name);
             ("type", instance_type);
             ("region", vm_location vm_);
             ("private_ip", VBool assign_private_ip);
             ("booted", VBool implicit_data_disk) ] in
         let params :=
           if implicit_data_disk then
             params ++ [ ("root_pass", password);
                         ("authorized_keys", VList [pub_ssh_key]);
                         ("image", image);
                         ("swap_size", VInt swap_size) ]
           else params in
         _query (Lit "/linode/instances") POST (Some (VDict params))) ;;
    linode_id <- lift (py_get result "id" VNone) ;;
    (match _get_root_disk_size vm_ with
     | Some root_disk_size =>
         if negb should_clone then
           create_declared_disks fuel linode_id instance_type image
             pub_ssh_key password swap_size root_disk_size
         else ret tt
     | None => ret tt
     end) ;;
    boot fuel VNone (<["check_running" := VBool false]>
                     {["linode_id" := linode_id]}) ;;
    result_id <- lift (py_item result "id") ;;
    _get_linode_by_id result_id ;;
    ips <- _get_ips linode_id ;;
    let public_ips := fst ips in
    let private_ips := snd ips in
    label <- lift (py_item result "label") ;;
    type <- lift (py_item result "type") ;;
    status <- lift (py_item result "status") ;;
    ipv4 <- lift (py_item result "ipv4") ;;
    ipv6 <- lift (py_item result "ipv6") ;;
    let data :=
      [ ("id", linode_id); ("name", label); ("size", type); ("state", status);
        ("ipv4", ipv4); ("ipv6", ipv6);
        ("public_ips", VList public_ips); ("private_ips", VList private_ips) ] in
    host <- lift (ssh_host vm_ public_ips private_ips) ;;
    fire_event "waiting for ssh"
      (Format "salt/cloud/{0}/waiting_for_ssh" [Lit name])
      [("ip_address", host)] ;;
    emit EvBootstrap ;;
    let ret_ := dict_update (cloud_bootstrap E vm_ host) data in
    fire_event "created instance" (Format "salt/cloud/{0}/created" [Lit name])
      (cloud_filter_event E "created" vm_) ;;
    ret (VDict ret_).

Definition already_running : value :=
  VDict [ ("success", VBool true); ("action", VStr "start");
          ("state", VStr "Running"); ("msg", VStr "Machine already running") ].

Definition start (fuel : nat) (name : value) : M value :=
  instance <- _get_linode_by_name name ;;
  linode_id <- lift (py_get instance "id" VNone) ;;
  status <- lift (py_item instance "status") ;;
  if py_eq status (VStr "running") then ret already_running
  else
    _query (Format "/linode/instances/{}/boot" [Val linode_id]) POST None ;;
    _wait_for_linode_status fuel linode_id (VStr "running") 120 ;;
    ret (VDict [ ("success", VBool true); ("state", VStr "Running");
                 ("action", VStr "start") ]).

Definition already_stopped : value :=
  VDict [ ("success", VBool true); ("action", VStr "stop");
          ("state", VStr "Stopped"); ("msg", VStr "Machine already stopped") ].

Definition stop (fuel : nat) (name : value) : M value :=
  instance <- _get_linode_by_name name ;;
  linode_id <- lift (py_get instance "id" VNone) ;;
  status <- lift (py_item instance "status") ;;
  if py_eq status (VStr "offline") then ret already_stopped
  else
    _query (Format "/linode/instances/{}/shutdown" [Val linode_id]) POST None ;;
    _wait_for_linode_status fuel linode_id (VStr "offline") 120 ;;
    ret (VDict [ ("success", VBool true); ("state", VStr "Stopped");
                 ("action", VStr "stop") ]).

Definition avail_images : M pydict :=
  response <- _query (Lit "/images") GET None ;;
  data <- lift (py_item response "data") ;;
  images <- lift (py_iter data) ;;
  lift (index_by "id" images []).

Definition avail_locations : M pydict :=
  response <- _query (Lit "/regions") GET None ;;
  data <- lift (py_item response "data") ;;
  regions <- lift (py_iter data) ;;
  lift (index_by "id" regions []).

Definition avail_sizes : M pydict :=
  response <- _query (Lit "/linode/types") GET None ;;
  data <- lift (py_item response "data") ;;
  types <- lift (py_iter data) ;;
  lift (index_by "id" types []).

(** [destroy].  [update_cachedir] tells whether the option of that name is
    [True], and [delete_minion_cachedir] is the collaborator that then
    evicts the entry of the local cache. *)
Definition destroy (update_cachedir : bool)
    (delete_minion_cachedir : value -> M unit) (name : value) : M value :=
  fire_event "destroyed instance" (Format "salt/cloud/{0}/destroyed" [Val name])
    [("name", name)] ;;
  (if update_cachedir then delete_minion_cachedir name else ret tt) ;;
  instance <- _get_linode_by_name name ;;
  linode_id <- lift (py_get instance "id" VNone) ;;
  _query (Format "/linode/instances/{}" [Val linode_id]) DELETE None ;;
  ret VNone.

Definition get_config_id_requires : exn :=
  Exn SaltCloudSystemExit
    [Lit ("The get_config_id function requires either a 'name' or a 'linode_id' "
          +:+ "to be provided.")].

Definition get_config_id (kwargs : gmap string value) : M value :=
  let name := kwarg kwargs "name" in
  let linode_id := kwarg kwargs "linode_id" in
  if is_None name && is_None linode_id then raise get_config_id_requires
  else
    linode_id <- (if is_None linode_id then
                    instance <- get_linode kwargs ;;
                    lift (py_get instance "id" VNone)
                  else ret linode_id) ;;
    response <- _query (Format "/linode/instances/{}/configs" [Val linode_id])
                  GET None ;;
    configs <- lift (py_get response "data" (VList [])) ;;
    config <- lift (py_first configs) ;;
    config_id <- lift (py_item config "id") ;;
    ret (VDict [("config_id", config_id)]).

(** The [for] loop of [list_nodes_min]. *)
Fixpoint nodes_min (instances : list value) (ret_ : pydict) : outcome pydict :=
  match instances with
  | [] => Ret ret_
  | instance :: rest =>
      obind (py_item instance "label") (fun name =>
      obind (py_item instance "id") (fun id =>
      obind (py_item instance "status") (fun status =>
      obind (pydict_store name (VDict [("id", id); ("state", status)]) ret_)
        (fun ret_ => nodes_min rest ret_))))
  end.

Definition list_nodes_min : M pydict :=
  result <- _query (Lit "/linode/instances") GET None ;;
  data <- lift (py_get result "data" (VList [])) ;;
  instances <- lift (py_iter data) ;;
  lift (nodes_min instances []).

(** The [for] loop of [_list_linodes]. *)
Fixpoint list_linodes_loop (full : bool) (instances : list value) (ret_ : pydict)
  : M pydict :=
  match instances with
  | [] => ret ret_
  | instance :: rest =>
      id <- lift (py_item instance "id") ;;
      image <- lift (py_item instance "image") ;;
      name <- lift (py_item instance "label") ;;
      size <- lift (py_item instance "type") ;;
      state <- lift (py_item instance "status") ;;
      ips <- _get_ips id ;;
      let node :=
        [ ("id", id); ("image", image); ("name", name); ("size", size);
          ("state", state); ("public_ips", VList (fst ips));
          ("private_ips", VList (snd ips)) ] in
      let node := if full then node ++ [("extra", instance)] else node in
      label <- lift (py_item instance "label") ;;
      ret_ <- lift (pydict_store label (VDict node) ret_) ;;
      list_linodes_loop full rest ret_
  end.

Definition _list_linodes (full : bool) : M pydict :=
  result <- _query (Lit "/linode/instances") GET None ;;
  data <- lift (py_get result "data" (VList [])) ;;
  instances <- lift (py_iter data) ;;
  list_linodes_loop full instances [].

Definition list_nodes_full : M pydict := _list_linodes true.

Definition list_nodes : M pydict := _list_linodes false.

Definition reboot (fuel : nat) (name : value) : M value :=
  instance <- _get_linode_by_name name ;;
  linode_id <- lift (py_get instance "id" VNone) ;;
  _query (Format "/linode/instances/{}/reboot" [Val linode_id]) POST None ;;
  _wait_for_linode_status fuel linode_id (VStr "running") 120.

Definition show_instance (name : value) : M value :=
  instance <- _get_linode_by_name name ;;
  linode_id <- lift (py_get instance "id" VNone) ;;
  ips <- _get_ips linode_id ;;
  id <- lift (py_item instance "id") ;;
  image <- lift (py_item instance "image") ;;
  label <- lift (py_item instance "label") ;;
  type <- lift (py_item instance "type") ;;
  status <- lift (py_item instance "status") ;;
  ret (VDict [ ("id", id); ("image", image); ("name", label); ("size", type);
               ("state", status); ("public_ips", VList (fst ips));
               ("private_ips", VList (snd ips)) ]).

End WithEnv.
End LinodeAPIv4.

(** ** class LinodeAPIv3 *)

Module LinodeAPIv3.
Section WithEnv.

Variable E : env.

(** [six.text_type(x)] *)
Definition text_type (v : value) : string :=
  match v with
  | VStr s => s
  | VInt z => NilZero.string_of_int (Z.to_int z)
  | VBool true => "True"
  | VBool false => "False"
  | VNone => "None"
  | _ => py_repr E v
  end.

Definition now : M Z := fun st => (Ret (clock E (trace st)), st).

Definition set_LASTCALL (t : Z) : M unit :=
  fun st => (Ret tt, State (trace st) t).

Definition get_LASTCALL : M Z := fun st => (Ret (LASTCALL st), st).

(** One call of [__utils__["http.query"]]. *)
Definition request (args : list (string * value)) : M value :=
  fun st =>
    (http_query E (trace st) args, State (trace st ++ [EvRpc args]) (LASTCALL st)).

(** The [for] loop of [_query] over [ERRORARRAY]. *)
Fixpoint collect_errors (errors error_list : list value) : outcome (list value) :=
  match errors with
  | [] => Ret error_list
  | error :: rest =>
      obind (py_item error "ERRORMESSAGE") (fun msg =>
        if py_eq msg (VStr "Authentication failed") then
          raise_msg SaltCloudSystemExit "Linode API Key is expired or invalid"
        else collect_errors rest (error_list ++ [msg]))
  end.

Definition api_errors (joined : string) : exn :=
  Exn SaltCloudException [Format "Linode API reported error(s): {}" [Lit joined]].

(** The check of [_query] for an error envelope in the decoded answer. *)
Definition check_errors (dict : value) : outcome unit :=
  obind (py_in "ERRORARRAY" dict) (fun has_errors =>
  if has_errors then
    obind (py_item dict "ERRORARRAY") (fun error_array =>
    if truthy error_array then
      obind (py_iter error_array) (fun errors =>
      obind (collect_errors errors []) (fun error_list =>
      obind (py_join ", " (VList error_list)) (fun joined =>
      Raise (api_errors joined))))
    else Ret tt)
  else Ret tt).

(** [_query(action, command, args)].  Every caller leaves [method],
    [header_dict], [data] and [url] at their defaults and names the action
    and command with literals, so [api_action] is their concatenation.  The
    status of the answer is read for the debug log. *)
Definition _query (action command : string) (args : list (string * value))
  : M value :=
  let args :=
    if truthy (VStr action) && negb (has_key "api_action" args)
    then dict_set "api_action" (VStr (action +:+ "." +:+ command)) args
    else args in
  t <- now ;;
  last <- get_LASTCALL ;;
  (if last >=? t then
     if ratelimit_sleep E <? 0 then
       raise (Exn ValueError [Lit "sleep length must be non-negative"])
     else sleep (ratelimit_sleep E * 1000)
   else ret tt) ;;
  result <- request args ;;
  dict <- lift (py_item result "dict") ;;
  lift (check_errors dict) ;;
  t' <- now ;;
  set_LASTCALL t' ;;
  lift (py_item result "status") ;;
  lift (py_item result "dict").

Fixpoint find_LABEL (nodes : list value) (name : value) : outcome (option value) :=
  match nodes with
  | [] => Ret None
  | node :: rest =>
      obind (py_item node "LABEL") (fun label =>
        if py_eq name label then Ret (Some node) else find_LABEL rest name)
  end.

Definition _get_linode_by_name (name : value) : M value :=
  result <- _query "linode" "list" [] ;;
  data <- lift (py_item result "DATA") ;;
  nodes <- lift (py_iter data) ;;
  found <- lift (find_LABEL nodes name) ;;
  match found with
  | Some node => ret node
  | None =>
      raise (Exn SaltCloudNotFound
               [Format "The specified name, {0}, could not be found." [Val name]])
  end.

Definition _get_linode_by_id (linode_id : value) : M value :=
  result <- _query "linode" "list" [("LinodeID", linode_id)] ;;
  data <- lift (py_item result "DATA") ;;
  lift (py_first data).

#[local] Instance api : LinodeAPI :=
  Build_LinodeAPI _get_linode_by_name _get_linode_by_id.

(** The per-instance address lists that [_get_ips] builds: the dictionary
    [ret], keyed by the text of the instance id. *)
Definition ip_table : Type := list (string * (list value * list value)).

Fixpoint ip_table_get (node_id : string) (t : ip_table)
  : option (list value * list value) :=
  match t with
  | [] => None
  | (k, lists) :: t' =>
      if String.eqb node_id k then Some lists else ip_table_get node_id t'
  end.

(** [ret[node_id][key].append(addr)], after the entry has been created if it
    was missing. *)
Fixpoint ip_table_append (node_id : string) (public : bool) (addr : value)
    (t : ip_table) : ip_table :=
  match t with
  | [] => if public then [(node_id, ([addr], []))] else [(node_id, ([], [addr]))]
  | (k, (pub, priv)) :: t' =>
      if String.eqb node_id k then
        (if public then (k, (pub ++ [addr], priv)) else (k, (pub, priv ++ [addr]))) :: t'
      else (k, (pub, priv)) :: ip_table_append node_id public addr t'
  end.

(** The [for item in ips] loop of [_get_ips]. *)
Fixpoint collect_ips (ips : list value) (ret_ : ip_table) : outcome ip_table :=
  match ips with
  | [] => Ret ret_
  | item :: rest =>
      obind (py_item item "LINODEID") (fun linode_id =>
      let node_id := text_type linode_id in
      obind (py_item item "ISPUBLIC") (fun is_public =>
      obind (py_item item "IPADDRESS") (fun addr =>
        collect_ips rest
          (ip_table_append node_id (py_eq is_public (VInt 1)) addr ret_))))
  end.

(** [{"public_ips": ..., "private_ips": ...}] *)
Definition ips_dict (lists : list value * list value) : value :=
  VDict [("public_ips", VList (fst lists)); ("private_ips", VList (snd lists))].

(** [_get_ips(linode_id)].  With a truthy [linode_id] the query names the
    instance and the result is the dictionary of its two lists (empty lists
    when the answer has no address of it; an entry of the table, once made,
    is a non-empty dictionary and so is truthy).  With [None], [0], [""] or
    another falsy argument the query names no instance and the result is the
    whole table, keyed by the text of the instance ids. *)
Definition _get_ips (linode_id : value) : M value :=
  ips <- (if truthy linode_id
          then _query "linode" "ip.list" [("LinodeID", linode_id)]
          else _query "linode" "ip.list" []) ;;
  data <- lift (py_item ips "DATA") ;;
  items <- lift (py_iter data) ;;
  ret_ <- lift (collect_ips items []) ;;
  if truthy linode_id then
    match ip_table_get (text_type linode_id) ret_ with
    | Some lists => ret (ips_dict lists)
    | None => ret (ips_dict ([], []))
    end
  else ret (VDict (map (fun entry => (fst entry, ips_dict (snd entry))) ret_)).

(** The [for i in range(0, iterations)] loop of [_wait_for_job]. *)
Fixpoint wait_for_job_loop (iterations : nat) (linode_id job_id : value)
    (interval : Z) : M bool :=
  match iterations with
  | O => ret false
  | S rest =>
      response <- _query "linode" "job.list" [("LinodeID", linode_id)] ;;
      jobs_result <- lift (py_item response "DATA") ;;
      job <- lift (py_first jobs_result) ;;
      jobid <- lift (py_item job "JOBID") ;;
      done <- (if py_eq jobid job_id then
                 host_success <- lift (py_item job "HOST_SUCCESS") ;;
                 ret (py_eq host_success (VInt 1))
               else ret false) ;;
      if done then ret true
      else
        sleep (interval * 1000) ;;
        wait_for_job_loop rest linode_id job_id interval
  end.

(** [_wait_for_job(linode_id, job_id, timeout)]:
    [iterations = int(timeout / interval)] truncates the quotient. *)
Definition _wait_for_job (linode_id job_id : value) (timeout : Z) : M bool :=
  let interval := 5 in
  let iterations := Z.quot timeout interval in
  wait_for_job_loop (Z.to_nat iterations) linode_id job_id interval.

Definition avail_images : M pydict :=
  response <- _query "avail" "distributions" [] ;;
  data <- lift (py_item response "DATA") ;;
  items <- lift (py_iter data) ;;
  lift (index_by "LABEL" items []).

Definition avail_locations : M pydict :=
  response <- _query "avail" "datacenters" [] ;;
  data <- lift (py_item response "DATA") ;;
  items <- lift (py_iter data) ;;
  lift (index_by "LOCATION" items []).

Definition avail_sizes : M pydict :=
  response <- _query "avail" "LinodePlans" [] ;;
  data <- lift (py_item response "DATA") ;;
  items <- lift (py_iter data) ;;
  lift (index_by "LABEL" items []).

Definition _get_linode_id_from_name (name : value) : M value :=
  node <- _get_linode_by_name name ;;
  lift (py_get node "LINODEID" VNone).

Definition boot_requires_config_id : exn :=
  Exn SaltCloudSystemExit [Lit "The boot function requires a 'config_id'."].

(** The message of [boot] for a running instance: the literal
    ["Cannot boot Linode {0}. "] followed by the formatted second half (the
    source applies [format] to the second literal only). *)
Definition cannot_boot (linode_item : value) : exn :=
  Exn SaltCloudSystemExit
    [Lit ("Cannot boot Linode {0}. "
          +:+ "Linode " +:+ text_type linode_item +:+ " is already running.")].

(** [boot].  The module-level [get_linode] that it calls selects the
    implementation anew; within this class the configured version is v3. *)
Definition boot (name : value) (kwargs : gmap string value) : M value :=
  let linode_id := kwarg kwargs "linode_id" in
  let config_id := kwarg kwargs "config_id" in
  let check_running :=
    match kwargs !! "check_running" with
    | Some v => v
    | None => VBool true
    end in
  if is_None config_id then raise boot_requires_config_id
  else
    ids <- (if is_None linode_id then
              linode_id <- _get_linode_id_from_name name ;;
              ret (linode_id, name)
            else ret (linode_id, linode_id)) ;;
    let linode_id := fst ids in
    let linode_item := snd ids in
    (if truthy check_running then
       node <- get_linode {["linode_id" := linode_id]} ;;
       status <- lift (py_item node "STATUS") ;;
       if py_eq status (VStr "1") then raise (cannot_boot linode_item)
       else ret tt
     else ret tt) ;;
    response <- _query "linode" "boot"
                  [("LinodeID", linode_id); ("ConfigID", config_id)] ;;
    data <- lift (py_item response "DATA") ;;
    boot_job_id <- lift (py_item data "JobID") ;;
    booted <- _wait_for_job linode_id boot_job_id 300 ;;
    if negb booted then ret (VBool false) else ret (VBool true).

Definition clone_requires : exn :=
  Exn SaltCloudSystemExit
    [Lit ("The clone function requires a 'linode_id', 'datacenter_id', "
          +:+ "and 'plan_id' to be provided.")].

(** [kwargs.get(k, kwargs.get(other))] *)
Definition kwarg_or (kwargs : gmap string value) (k other : string) : value :=
  match kwargs !! k with
  | Some v => v
  | None => kwarg kwargs other
  end.

Definition clone (kwargs : gmap string value) : M value :=
  let linode_id := kwarg kwargs "linode_id" in
  let datacenter_id := kwarg_or kwargs "datacenter_id" "location" in
  let plan_id := kwarg_or kwargs "plan_id" "size" in
  let required_params := [linode_id; datacenter_id; plan_id] in
  if existsb is_None required_params then raise clone_requires
  else
    _query "linode" "clone"
      [ ("LinodeID", linode_id); ("DatacenterID", datacenter_id);
        ("PlanID", plan_id) ].

(** [int(x)] *)
Definition py_int (v : value) : outcome Z :=
  match v with
  | VInt z => Ret z
  | VBool b => Ret (if b then 1 else 0)
  | VStr s =>
      match int_of_str E s with
      | Some z => Ret z
      | None => raise_msg ValueError "invalid literal for int()"
      end
  | _ => raise_msg TypeError "int() argument must be a string or a number"
  end.

(** The [for] loop of [_get_status_descr_by_id]: [int(status_id)] is
    evaluated anew in every round. *)
Fixpoint status_descr_loop (table : list (string * status_data))
    (status_id : value) : outcome (option string) :=
  match table with
  | [] => Ret None
  | (_, status_data) :: rest =>
      obind (py_int status_id) (fun n =>
        if code status_data =? n then Ret (Some (descr status_data))
        else status_descr_loop rest status_id)
  end.

(** An entry of [LINODE_STATUS] as the dictionary it is. *)
Definition status_entry (d : status_data) : value :=
  VDict [("code", VInt (code d)); ("descr", VStr (descr d))].

(** [LINODE_STATUS.get(status_id, None)]; the keys of the table are the
    status names. *)
Definition status_get (status_id : value) : outcome value :=
  match status_id with
  | VStr name =>
      Ret (match status_by_name LINODE_STATUS name with
           | Some d => status_entry d
           | None => VNone
           end)
  | _ =>
      if hashable status_id then Ret VNone
      else raise_msg TypeError "unhashable type"
  end.

(** The body of [_get_status_descr_by_id]. *)
Definition status_descr (status_id : value) : outcome value :=
  obind (status_descr_loop LINODE_STATUS status_id) (fun found =>
    match found with
    | Some d => Ret (VStr d)
    | None => status_get status_id
    end).

(** [_get_status_descr_by_id], as the class body declares it: a function of
    the one parameter [status_id], without [self]. *)
Definition _get_status_descr_by_id : pyfunction :=
  PyFunction "_get_status_descr_by_id" 1
    (fun args =>
       match args with
       | [status_id] => status_descr status_id
       | _ => raise_msg TypeError "wrong number of arguments"
       end).

Definition create_config_requires : exn :=
  Exn SaltCloudSystemExit
    [Lit ("The create_config functions requires a 'name', 'linode_id', "
          +:+ "'root_disk_id', and 'swap_disk_id'.")].

(** [create_config].  The ids are written into [DiskList] as [format]
    shows them, which for these objects is their [str]. *)
Definition create_config (kwargs : gmap string value) : M value :=
  let name := kwarg kwargs "name" in
  let linode_id := kwarg kwargs "linode_id" in
  let root_disk_id := kwarg kwargs "root_disk_id" in
  let swap_disk_id := kwarg kwargs "swap_disk_id" in
  let data_disk_id := kwarg kwargs "data_disk_id" in
  let kernel_id := kwarg kwargs "kernel_id" in
  let kernel_id := if is_None kernel_id then VInt 138 else kernel_id in
  let required_params := [name; linode_id; root_disk_id; swap_disk_id] in
  if existsb is_None required_params then raise create_config_requires
  else
    linode_id <- (if negb (truthy linode_id) then
                    instance <- _get_linode_by_name name ;;
                    lift (py_get instance "id" VNone)
                  else ret linode_id) ;;
    let disklist :=
      if negb (is_None data_disk_id) then
        text_type root_disk_id +:+ "," +:+ text_type swap_disk_id
          +:+ "," +:+ text_type data_disk_id
      else text_type root_disk_id +:+ "," +:+ text_type swap_disk_id in
    linode <- lift (py_int linode_id) ;;
    kernel <- lift (py_int kernel_id) ;;
    result <- _query "linode" "config.create"
                [ ("LinodeID", VInt linode); ("KernelID", VInt kernel);
                  ("Label", name); ("DiskList", VStr disklist) ] ;;
    lift (py_get result "DATA" VNone).

(** [destroy], with the option and the collaborator as for API v4. *)
Definition destroy (update_cachedir : bool)
    (delete_minion_cachedir : value -> M unit) (name : value) : M value :=
  fire_event "destroying instance"
    (Format "salt/cloud/{0}/destroying" [Val name]) [("name", name)] ;;
  linode_id <- _get_linode_id_from_name name ;;
  response <- _query "linode" "delete"
                [("LinodeID", linode_id); ("skipChecks", VBool true)] ;;
  fire_event "destroyed instance"
    (Format "salt/cloud/{0}/destroyed" [Val name]) [("name", name)] ;;
  (if update_cachedir then delete_minion_cachedir name else ret tt) ;;
  ret response.

Definition get_config_id_requires : exn :=
  Exn SaltCloudSystemExit
    [Lit ("The get_config_id function requires either a 'name' or a 'linode_id' "
          +:+ "to be provided.")].

Definition get_config_id (kwargs : gmap string value) : M value :=
  let name := kwarg kwargs "name" in
  let linode_id := kwarg kwargs "linode_id" in
  if is_None name && is_None linode_id then raise get_config_id_requires
  else
    linode_id <- (if is_None linode_id then _get_linode_id_from_name name
                  else ret linode_id) ;;
    answer <- _query "linode" "config.list" [("LinodeID", linode_id)] ;;
    response <- lift (py_item answer "DATA") ;;
    config <- lift (py_first response) ;;
    config_id <- lift (py_item config "ConfigID") ;;
    ret (VDict [("config_id", config_id)]).

Definition already_running : value :=
  VDict [ ("success", VBool true); ("action", VStr "start");
          ("state", VStr "Running"); ("msg", VStr "Machine already running") ].

(** [start]; the module-level [get_linode] is that of this class, as in
    [boot]. *)
Definition start (name : value) : M value :=
  node_id <- _get_linode_id_from_name name ;;
  node <- get_linode {["linode_id" := node_id]} ;;
  status <- lift (py_item node "STATUS") ;;
  if py_eq status (VInt 1) then ret already_running
  else
    answer <- _query "linode" "boot" [("LinodeID", node_id)] ;;
    response <- lift (py_item answer "DATA") ;;
    job_id <- lift (py_item response "JobID") ;;
    started <- _wait_for_job node_id job_id 300 ;;
    if started then
      ret (VDict [ ("state", VStr "Running"); ("action", VStr "start");
                   ("success", VBool true) ])
    else ret (VDict [("action", VStr "start"); ("success", VBool false)]).

Definition already_stopped : value :=
  VDict [ ("success", VBool true); ("state", VStr "Stopped");
          ("msg", VStr "Machine already stopped") ].

Definition stop (name : value) : M value :=
  node_id <- _get_linode_id_from_name name ;;
  node <- get_linode {["linode_id" := node_id]} ;;
  status <- lift (py_item node "STATUS") ;;
  if py_eq status (VInt 2) then ret already_stopped
  else
    answer <- _query "linode" "shutdown" [("LinodeID", node_id)] ;;
    response <- lift (py_item answer "DATA") ;;
    job_id <- lift (py_item response "JobID") ;;
    stopped <- _wait_for_job node_id job_id 300 ;;
    if stopped then
      ret (VDict [ ("state", VStr "Stopped"); ("action", VStr "stop");
                   ("success", VBool true) ])
    else ret (VDict [("action", VStr "stop"); ("success", VBool false)]).

End WithEnv.
End LinodeAPIv3.

(** ** Notions used to state the properties *)

(** The state after one more event. *)
Definition sent (st : state) (e : event) : state :=
  State (trace st ++ [e]) (LASTCALL st).

(** A probe that answers every time, and never with the awaited status. *)
Definition never_reaches (getter : M value) (status : value) : Prop :=
  forall st, exists result current st',
    getter st = (Ret result, st')
    /\ py_get result "status" VNone = Ret current
    /\ py_eq current status = false.

(** The job list of the instance is answered every time, and its first
    entry is never the awaited job with [HOST_SUCCESS == 1]. *)
Definition job_pending (E : env) (linode_id job_id : value) : Prop :=
  forall st, exists response jobs_result job jobid st',
    LinodeAPIv3._query E "linode" "job.list" [("LinodeID", linode_id)] st
      = (Ret response, st')
    /\ py_item response "DATA" = Ret jobs_result
    /\ py_first jobs_result = Ret job
    /\ py_item job "JOBID" = Ret jobid
    /\ (py_eq jobid job_id = false
        \/ exists host_success,
             py_item job "HOST_SUCCESS" = Ret host_success
             /\ py_eq host_success (VInt 1) = false).

(** The paths (as templates) of the POST requests of a trace, in order. *)
Fixpoint posted (t : list event) : list string :=
  match t with
  | [] => []
  | EvRest POST (Format template _) _ :: t' => template :: posted t'
  | EvRest POST (Val (VStr path)) _ :: t' => path :: posted t'
  | _ :: t' => posted t'
  end.

(** The text of a value as a message shows it, for strings and integers. *)
Definition shown (v : value) : option string :=
  match v with
  | VStr s => Some s
  | VInt z => Some (NilZero.string_of_int (Z.to_int z))
  | _ => None
  end.

Definition occurs_in (v : value) (s : string) : bool :=
  match shown v with
  | Some shown_v => contains shown_v s
  | None => false
  end.

(** The message part [t] names the value [v]: [v] is one of its format
    arguments, or its text occurs in a literal part. *)
Fixpoint mentions (t : text) (v : value) : bool :=
  match t with
  | Val (VStr s) => occurs_in v s
  | Val w => py_eq w v
  | Format template args =>
      occurs_in v template
      || (fix any (l : list text) : bool :=
            match l with
            | [] => false
            | a :: l' =>
                match a with
                | Val w => py_eq w v
                | Format _ _ => mentions a v
                end || any l'
            end) args
  end.

(** The exception names the value in its message. *)
Definition names (e : exn) (v : value) : bool :=
  existsb (fun t => mentions t v) (exn_args e).

(** The verdict of [ipaddress] on an address, [false] when it raises. *)
Definition is_private_addr (E : env) (addr : value) : bool :=
  match ip_is_private E addr with
  | Ret b => b
  | _ => false
  end.

(** An item of the answer to [ip.list] has the three fields that [_get_ips]
    reads. *)
Definition well_formed_item (item : value) : Prop :=
  exists linode_id is_public addr,
    py_item item "LINODEID" = Ret linode_id
    /\ py_item item "ISPUBLIC" = Ret is_public
    /\ py_item item "IPADDRESS" = Ret addr.

Definition item_field (k : string) (item : value) : value :=
  match py_item item k with
  | Ret v => v
  | _ => VNone
  end.

(** The item belongs to the instance [linode_id]. *)
Definition item_of (E : env) (linode_id : value) (item : value) : bool :=
  String.eqb (LinodeAPIv3.text_type E (item_field "LINODEID" item))
             (LinodeAPIv3.text_type E linode_id).

(** The API flags the address of the item as public. *)
Definition item_public (item : value) : bool :=
  py_eq (item_field "ISPUBLIC" item) (VInt 1).

(** The two lists that the table of [_get_ips] holds for an instance. *)
Definition lists_of (node_id : string) (t : LinodeAPIv3.ip_table)
  : list value * list value :=
  match LinodeAPIv3.ip_table_get node_id t with
  | Some lists => lists
  | None => ([], [])
  end.

(** ** The private ranges of the specification

    The address ranges that the specification names as private
    (10.0.0.0/8, 172.16.0.0/12, 192.168.0.0/16), on dotted-quad text. *)

Definition digit (c : ascii) : option Z :=
  if in_range "0" "9" c then Some (Z.of_nat (nat_of_ascii c) - 48) else None.

(** The octets of a dotted quad: [acc] is the octet being read, [seen] tells
    whether it has a digit yet. *)
Fixpoint octets (s : string) (acc : Z) (seen : bool) : option (list Z) :=
  match s with
  | EmptyString => if seen then Some [acc] else None
  | String c s' =>
      if Ascii.eqb c "." then
        if seen then
          match octets s' 0 false with
          | Some l => Some (acc :: l)
          | None => None
          end
        else None
      else
        match digit c with
        | Some d => octets s' (10 * acc + d) true
        | None => None
        end
  end.

Definition in_private_range (addr : string) : bool :=
  match octets addr 0 false with
  | Some [a; b; c; d] =>
      (a =? 10)
      || ((a =? 172) && (16 <=? b) && (b <=? 31))
      || ((a =? 192) && (b =? 168))
  | _ => false
  end.

(** What [ipaddress.ip_address(addr).is_private] answers for the dotted quad
    of an IPv4 address (CPython 3.5 to 3.12): whether the address lies in one
    of the networks of [IPv4Address._private_networks], which are
    0.0.0.0/8, 10.0.0.0/8, 127.0.0.0/8, 169.254.0.0/16, 172.16.0.0/12,
    192.0.0.0/29, 192.0.0.170/31, 192.0.2.0/24, 192.168.0.0/16,
    198.18.0.0/15, 198.51.100.0/24, 203.0.113.0/24, 240.0.0.0/4 and
    255.255.255.255/32.  [None] for text that is no dotted quad. *)
Definition ipv4_is_private (addr : string) : option bool :=
  match octets addr 0 false with
  | Some [a; b; c; d] =>
      if (a <=? 255) && (b <=? 255) && (c <=? 255) && (d <=? 255) then
        Some ((a =? 0)
              || (a =? 10)
              || (a =? 127)
              || ((a =? 169) && (b =? 254))
              || ((a =? 172) && (16 <=? b) && (b <=? 31))
              || ((a =? 192) && (b =? 0) && (c =? 0) && (d <=? 7))
              || ((a =? 192) && (b =? 0) && (c =? 0) && (170 <=? d) && (d <=? 171))
              || ((a =? 192) && (b =? 0) && (c =? 2))
              || ((a =? 192) && (b =? 168))
              || ((a =? 198) && (18 <=? b) && (b <=? 19))
              || ((a =? 198) && (b =? 51) && (c =? 100))
              || ((a =? 203) && (b =? 0) && (c =? 113))
              || (240 <=? a))
      else None
  | _ => None
  end.

(** ** A stub provider, to run the code on concrete inputs *)

Module Stub.

Definition template_of (path : text) : string :=
  match path with
  | Format template _ => template
  | Val (VStr s) => s
  | Val _ => ""
  end.

Definition instance_json (status : string) : value :=
  VDict [ ("id", VInt 123); ("label", VStr "web-01");
          ("type", VStr "g6-standard-1"); ("region", VStr "eu-west");
          ("status", VStr status);
          ("ipv4", VList [VStr "203.0.113.10"; VStr "192.168.133.7"]);
          ("ipv6", VStr "2001:db8::1/64") ].

Definition not_found : rest_reply :=
  Response 404 (Some (VDict [("errors", VList [VDict [("reason", VStr "Not found")]])])).

(** A v4 provider with one instance in lifecycle state [status], whose size
    class has [capacity] MB of disk; disks are ready as soon as created. *)
Definition provider (capacity : Z) (status : string) (t : list event)
    (m : http_method) (path : text) (data : option value) : rest_reply :=
  let p := template_of path in
  match m with
  | GET =>
      if String.eqb p "/linode/instances" then
        Response 200 (Some (VDict [("data", VList [instance_json status])]))
      else if String.eqb p "/linode/instances/{}" then
        Response 200 (Some (instance_json status))
      else if String.eqb p "/linode/types/{}" then
        Response 200 (Some (VDict [("id", VStr "g6-standard-1"); ("disk", VInt capacity)]))
      else if String.eqb p "/linode/instance/{}/disk/{}" then
        Response 200 (Some (VDict [("status", VStr "ready")]))
      else not_found
  | POST =>
      if String.eqb p "/linode/instances" then
        Response 200 (Some (instance_json "provisioning"))
      else if String.eqb p "/linode/instance/{}/disks" then
        Response 200 (Some (VDict [ ("id", VInt (1000 + Z.of_nat (length t)));
                                    ("status", VStr "not ready") ]))
      else if String.eqb p "/linode/instances/{}/configs" then
        Response 200 (Some (VDict [("id", VInt 77)]))
      else not_found
  | DELETE => Response 200 (Some (VDict []))
  end.

(** A v4 provider that rejects the credential: every request is answered
    401 with the error envelope of the API. *)
Definition unauthorized (t : list event) (m : http_method) (path : text)
    (data : option value) : rest_reply :=
  Response 401 (Some (VDict [("errors", VList [VDict [("reason", VStr "Invalid Token")]])])).

(** A transport that raises [HTTPError] with a one-field error body. *)
Definition failing (t : list event) (m : http_method) (path : text)
    (data : option value) : rest_reply :=
  RaisesHTTPError (Some (VDict [("error", VStr "Invalid Token")])).

Definition rpc_result (data : value) : outcome value :=
  Ret (VDict [ ("dict", VDict [("ERRORARRAY", VList []); ("DATA", data)]);
               ("status", VInt 200) ]).

(** A v3 provider: job 7 of instance 1 never succeeds, and instance 1 has
    the address 10.0.0.5 flagged public and 192.168.133.7 flagged private. *)
Definition rpc_provider (t : list event) (args : list (string * value))
  : outcome value :=
  match assoc "api_action" args with
  | Some (VStr "linode.job.list") =>
      rpc_result (VList [VDict [("JOBID", VInt 7); ("HOST_SUCCESS", VStr "")]])
  | Some (VStr "linode.ip.list") =>
      rpc_result (VList [ VDict [ ("LINODEID", VInt 1); ("ISPUBLIC", VInt 1);
                                  ("IPADDRESS", VStr "10.0.0.5") ];
                          VDict [ ("LINODEID", VInt 1); ("ISPUBLIC", VInt 0);
                                  ("IPADDRESS", VStr "192.168.133.7") ] ])
  | _ => rpc_result (VList [])
  end.

(** A v3 provider that rejects the credential. *)
Definition rpc_unauthorized (t : list event) (args : list (string * value))
  : outcome value :=
  Ret (VDict [ ("dict", VDict [("ERRORARRAY",
                  VList [VDict [ ("ERRORCODE", VInt 4);
                                 ("ERRORMESSAGE", VStr "Authentication failed") ]]);
                              ("DATA", VDict [])]);
               ("status", VInt 200) ]).

(** The address oracle of the stub: [ipaddress] on IPv4 dotted quads.  (No
    run here passes it an IPv6 address.) *)
Definition ipaddress_is_private (addr : value) : outcome bool :=
  match addr with
  | VStr s =>
      match ipv4_is_private s with
      | Some b => Ret b
      | None => raise_msg ValueError "does not appear to be an IPv4 or IPv6 address"
      end
  | _ => raise_msg ValueError "does not appear to be an IPv4 or IPv6 address"
  end.

Definition make_env (rest : list event -> http_method -> text -> option value -> rest_reply)
    (rpc : list event -> list (string * value) -> outcome value)
    (poll_interval : Z) : env :=
  Env rest rpc (fun t => 1 + Z.of_nat (length t)) poll_interval 0
      ipaddress_is_private (fun _ => None) (fun _ => "") (fun _ _ => [])
      (fun _ _ => []).

Definition env_v4 (capacity : Z) (status : string) : env :=
  make_env (provider capacity status) rpc_provider 500.

Definition env_v3 : env := make_env (provider 25600 "running") rpc_provider 500.

Definition st0 : state := State [] 0.

(** A profile that asks for a private address and leaves [ssh_interface]
    at its default. *)
Definition private_ip_profile : vm :=
  VM "web-01" VNone (VStr "g6-standard-1") (VStr "linode/centos7")
     (VStr "eu-west") (VStr "ssh-rsa AAAA") (VStr "F00barbaz")
     None (Some true) None None.

(** A profile whose [ssh_interface] is the string "private_ips" as read
    from a configuration file. *)
Definition private_ssh_profile : vm :=
  VM "web-01" VNone (VStr "g6-standard-1") (VStr "linode/centos7")
     (VStr "eu-west") (VStr "ssh-rsa AAAA") (VStr "F00barbaz")
     (Some (PyStr "private_ips" false)) None None None.

(** The profile of the end-to-end scenario of the specification. *)
Definition web01 (disk_size : option Z) (swap : option Z) : vm :=
  VM "web-01" VNone (VStr "g6-standard-1") (VStr "linode/centos7")
     (VStr "eu-west") (VStr "ssh-rsa AAAA") (VStr "F00barbaz")
     None None swap disk_size.

Definition env_unauthorized : env := make_env unauthorized rpc_unauthorized 500.

Definition env_failing : env := make_env failing rpc_unauthorized 500.

(** [create] on the end-to-end scenario with explicit disks: 20000 MB of
    root disk and 256 MB of swap on a class of 25600 MB. *)
Definition explicit_disks_run : outcome value * state :=
  LinodeAPIv4.create (env_v4 25600 "offline") 1
    (web01 (Some 20000) (Some 256)) st0.

(** [create] with [disk_size: 0] and a swap as large as the class. *)
Definition no_room_for_root_run : outcome value * state :=
  LinodeAPIv4.create (env_v4 25600 "offline") 1
    (web01 (Some 0) (Some 25600)) st0.

End Stub.

(** ** The functions of the module

    The entry points that the host calls.  Each checks how it was called
    ([call] is [None], ["action"] or ["function"]) and hands over to the
    implementation that [_get_cloud_interface] selects.  [apiversion] is the
    configured value of that name, if any. *)

Module Driver.
Section WithHost.

Variable E : env.
Variable apiversion : option pystr.
Variable update_cachedir : bool.
Variable delete_minion_cachedir : value -> M unit.

Definition _get_api_version : pystr :=
  match apiversion with
  | Some v => v
  | None => PyStr "v3" true
  end.

(** [_get_api_version() is "v3"] *)
Definition _is_api_v3 : bool := is_literal _get_api_version "v3".

Definition wrong_call (c : exn_class) (msg : string) : exn := Exn c [Lit msg].

Definition is_action (call : value) : bool := py_eq call (VStr "action").

Definition is_function (call : value) : bool := py_eq call (VStr "function").

Definition avail_images (call : value) : M pydict :=
  if is_action call then
    raise (wrong_call SaltCloudException
             "The avail_images function must be called with -f or --function.")
  else if _is_api_v3 then LinodeAPIv3.avail_images E
  else LinodeAPIv4.avail_images E.

Definition avail_locations (call : value) : M pydict :=
  if is_action call then
    raise (wrong_call SaltCloudException
             "The avail_locations function must be called with -f or --function.")
  else if _is_api_v3 then LinodeAPIv3.avail_locations E
  else LinodeAPIv4.avail_locations E.

Definition avail_sizes (call : value) : M pydict :=
  if is_action call then
    raise (wrong_call SaltCloudException
             "The avail_locations function must be called with -f or --function.")
  else if _is_api_v3 then LinodeAPIv3.avail_sizes E
  else LinodeAPIv4.avail_sizes E.

Definition boot (fuel : nat) (name : value) (kwargs : gmap string value)
    (call : value) : M value :=
  if is_None name && is_action call then
    raise (wrong_call SaltCloudSystemExit "The boot action requires a 'name'.")
  else
    let linode_id := kwarg kwargs "linode_id" in
    let name := if is_function call then kwarg kwargs "name" else name in
    if is_None name && is_None linode_id then
      raise (wrong_call SaltCloudSystemExit
               "The boot function requires either a 'name' or a 'linode_id'.")
    else if _is_api_v3 then LinodeAPIv3.boot E name kwargs
    else LinodeAPIv4.boot E fuel name kwargs.

Definition clone (kwargs : gmap string value) (call : value) : M value :=
  if is_action call then
    raise (wrong_call SaltCloudSystemExit
             "The clone function must be called with -f or --function.")
  else if _is_api_v3 then LinodeAPIv3.clone E kwargs
  else LinodeAPIv4.clone E kwargs.

Definition create_config (kwargs : gmap string value) (call : value) : M value :=
  if is_action call then
    raise (wrong_call SaltCloudSystemExit
             "The create_config function must be called with -f or --function.")
  else if _is_api_v3 then LinodeAPIv3.create_config E kwargs
  else LinodeAPIv4.create_config E kwargs.

Definition destroy (name : value) (call : value) : M value :=
  if is_function call then
    raise (wrong_call SaltCloudException
             "The destroy action must be called with -d, --destroy, -a or --action.")
  else if _is_api_v3 then
    LinodeAPIv3.destroy E update_cachedir delete_minion_cachedir name
  else LinodeAPIv4.destroy E update_cachedir delete_minion_cachedir name.

Definition get_config_id (kwargs : gmap string value) (call : value) : M value :=
  if is_action call then
    raise (wrong_call SaltCloudException
             "The get_config_id function must be called with -f or --function.")
  else if _is_api_v3 then LinodeAPIv3.get_config_id E kwargs
  else LinodeAPIv4.get_config_id E kwargs.

Definition get_linode (kwargs : gmap string value) (call : value) : M value :=
  if is_action call then
    raise (wrong_call SaltCloudSystemExit
             "The get_linode function must be called with -f or --function.")
  else if _is_api_v3 then @get_linode (LinodeAPIv3.api E) kwargs
  else @get_linode (LinodeAPIv4.api E) kwargs.

Definition start (fuel : nat) (name : value) (call : value) : M value :=
  if negb (is_action call) then
    raise (wrong_call SaltCloudException
             "The start action must be called with -a or --action.")
  else if _is_api_v3 then LinodeAPIv3.start E name
  else LinodeAPIv4.start E fuel name.

Definition stop (fuel : nat) (name : value) (call : value) : M value :=
  if negb (is_action call) then
    raise (wrong_call SaltCloudException
             "The stop action must be called with -a or --action.")
  else if _is_api_v3 then LinodeAPIv3.stop E name
  else LinodeAPIv4.stop E fuel name.

End WithHost.
End Driver.

(** ** More notions used to state the properties *)

(** An object that JSON gives a dictionary key for: [None], a boolean, a
    number or a string. *)
Definition scalar (v : value) : bool :=
  match v with
  | VNone | VBool _ | VInt _ | VStr _ => true
  | _ => false
  end.

(** The object that is compared when a scalar is compared by [==]: a
    boolean counts as the number 0 or 1. *)
Definition canon (v : value) : value :=
  match v with
  | VBool b => VInt (if b then 1 else 0)
  | _ => v
  end.

(** Every key of the dictionary is a scalar. *)
Definition scalar_keys (d : pydict) : Prop :=
  Forall (fun kv => scalar (fst kv) = true) d.

(** The last of [items] whose field [key] equals [k]. *)
Fixpoint last_with (key : string) (k : value) (items : list value) : option value :=
  match items with
  | [] => None
  | item :: rest =>
      match last_with key k rest with
      | Some found => Some found
      | None => if py_eq (item_field key item) k then Some item else None
      end
  end.

(** Every item has the field [key], and a scalar there. *)
Definition keyed_by (key : string) (items : list value) : Prop :=
  Forall (fun item => exists k, py_item item key = Ret k /\ scalar k = true) items.

(** The probe answers [n] times without the awaited status, each answer
    followed by a pause of [pause] ms, and then answers [result], which has
    the status; [st'] is the state after that answer. *)
Inductive reaches (getter : M value) (status : value) (pause : Z)
  : nat -> state -> value -> state -> Prop :=
| reaches_now st result st' current :
    getter st = (Ret result, st') ->
    py_get result "status" VNone = Ret current ->
    py_eq current status = true ->
    reaches getter status pause O st result st'
| reaches_later n st observed st1 current result st' :
    getter st = (Ret observed, st1) ->
    py_get observed "status" VNone = Ret current ->
    py_eq current status = false ->
    reaches getter status pause n (sent st1 (EvSleep pause)) result st' ->
    reaches getter status pause (S n) st result st'.

(** The test of [_wait_for_job] on one answer to [job.list]. *)
Definition job_finished (response job_id : value) : outcome bool :=
  obind (py_item response "DATA") (fun jobs_result =>
  obind (py_first jobs_result) (fun job =>
  obind (py_item job "JOBID") (fun jobid =>
  if py_eq jobid job_id then
    obind (py_item job "HOST_SUCCESS") (fun host_success =>
    Ret (py_eq host_success (VInt 1)))
  else Ret false))).

(** The job list is answered [n] times with the job unfinished, each answer
    followed by a pause of 5 s, and then with the job finished; [st'] is the
    state after that answer. *)
Inductive job_finishes (E : env) (linode_id job_id : value)
  : nat -> state -> state -> Prop :=
| job_finishes_now st response st' :
    LinodeAPIv3._query E "linode" "job.list" [("LinodeID", linode_id)] st
      = (Ret response, st') ->
    job_finished response job_id = Ret true ->
    job_finishes E linode_id job_id O st st'
| job_finishes_later n st response st1 st' :
    LinodeAPIv3._query E "linode" "job.list" [("LinodeID", linode_id)] st
      = (Ret response, st1) ->
    job_finished response job_id = Ret false ->
    job_finishes E linode_id job_id n (sent st1 (EvSleep 5000)) st' ->
    job_finishes E linode_id job_id (S n) st st'.

(** The state in which [_query] of API v3 sends its request: after the
    pause of [ratelimit_sleep] seconds when the last call is not older than
    the clock. *)
Definition paced (E : env) (st : state) : state :=
  if LASTCALL st >=? clock E (trace st)
  then sent st (EvSleep (ratelimit_sleep E * 1000))
  else st.

(** The query parameters that [_query] of API v3 sends. *)
Definition rpc_args (action command : string) (args : list (string * value))
  : list (string * value) :=
  if truthy (VStr action) && negb (has_key "api_action" args)
  then dict_set "api_action" (VStr (action +:+ "." +:+ command)) args
  else args.

(** The messages of an [ERRORARRAY], when every entry has one. *)
Fixpoint error_messages (errors : list value) : option (list value) :=
  match errors with
  | [] => Some []
  | error :: rest =>
      match py_item error "ERRORMESSAGE", error_messages rest with
      | Ret msg, Some msgs => Some (msg :: msgs)
      | _, _ => None
      end
  end.

Fixpoint all_chars (p : ascii -> bool) (s : string) : bool :=
  match s with
  | EmptyString => true
  | String c s' => p c && all_chars p s'
  end.

Fixpoint last_char (s : string) : option ascii :=
  match s with
  | EmptyString => None
  | String c EmptyString => Some c
  | String _ s' => last_char s'
  end.

(** A label by the rule that [_validate_name] logs: letters, digits, dashes
    and underscores only, a letter or digit first and last, at least two
    characters. *)
Definition label_shape (s : string) : bool :=
  match s with
  | String first (String _ _ as rest) =>
      alnum first && all_chars label_char rest
      && match last_char rest with
         | Some c => alnum c
         | None => false
         end
  | _ => false
  end.

(** The instance has the fields that [_list_linodes] reads, a label that can
    be a key, and the provider answers the look-up of its addresses. *)
Definition listable (E : env) (instance : value) : Prop :=
  exists id image label type status,
    py_item instance "id" = Ret id
    /\ py_item instance "image" = Ret image
    /\ py_item instance "label" = Ret label
    /\ py_item instance "type" = Ret type
    /\ py_item instance "status" = Ret status
    /\ hashable label = true
    /\ forall t, exists code body ipv4 addrs,
         requests_request E t GET (Format "/linode/instances/{}" [Val id]) None
           = Response code (Some body)
         /\ py_get body "ipv4" (VList []) = Ret ipv4
         /\ py_iter ipv4 = Ret addrs
         /\ Forall (fun a => exists b, ip_is_private E a = Ret b) addrs.

(** The look-up of the addresses of an instance, as [_list_linodes] sends
    it. *)
Definition address_lookup (instance : value) : event :=
  EvRest GET (Format "/linode/instances/{}" [Val (item_field "id" instance)]) None.

(** ** More providers, to run the code on concrete inputs *)

Module Cases.

(** A v4 provider on which the instance is offline at first and running
    once the process has sent or slept four times. *)
Definition slow_provider (t : list event) (m : http_method) (path : text)
    (data : option value) : rest_reply :=
  Stub.provider 25600 (if (length t <? 4)%nat then "offline" else "running")
    t m path data.

Definition env_slow : env := Stub.make_env slow_provider Stub.rpc_provider 500.

Definition probe : M value := LinodeAPIv4._get_linode_by_id env_slow (VInt 123).

Definition images : list value :=
  [ VDict [("id", VStr "linode/centos7"); ("label", VStr "CentOS 7")];
    VDict [("id", VStr "linode/debian10"); ("label", VStr "Debian 10")];
    VDict [("id", VStr "linode/centos7"); ("label", VStr "CentOS 7 (new)")] ].

(** A v4 provider with a catalog of images in which one id occurs twice. *)
Definition catalog (t : list event) (m : http_method) (path : text)
    (data : option value) : rest_reply :=
  match m with
  | GET =>
      if String.eqb (Stub.template_of path) "/images"
      then Response 200 (Some (VDict [("data", VList images)]))
      else Stub.provider 25600 "running" t m path data
  | _ => Stub.provider 25600 "running" t m path data
  end.

Definition plans : list value :=
  [ VDict [("LABEL", VStr "Nanode 1GB"); ("PLANID", VInt 1)];
    VDict [("LABEL", VStr "Linode 2GB"); ("PLANID", VInt 2)] ].

Definition node (status : Z) : value :=
  VDict [ ("LINODEID", VInt 1); ("LABEL", VStr "web-01"); ("STATUS", VInt status) ].

(** A v3 provider with one instance in status [status]: the plans are
    listed, a boot or shutdown is accepted as job 7, and job 7 is finished
    once the process has sent or slept [ready] times. *)
Definition rpc (status : Z) (ready : nat) (t : list event)
    (args : list (string * value)) : outcome value :=
  match assoc "api_action" args with
  | Some (VStr "avail.LinodePlans") => Stub.rpc_result (VList plans)
  | Some (VStr "linode.list") => Stub.rpc_result (VList [node status])
  | Some (VStr "linode.boot") | Some (VStr "linode.shutdown") =>
      Stub.rpc_result (VDict [("JobID", VInt 7)])
  | Some (VStr "linode.delete") =>
      Stub.rpc_result (VDict [("LinodeID", VInt 1)])
  | Some (VStr "linode.job.list") =>
      Stub.rpc_result
        (VList [VDict [ ("JOBID", VInt 7);
                        ("HOST_SUCCESS",
                         if (ready <=? length t)%nat then VInt 1 else VStr "") ]])
  | _ => Stub.rpc_result (VList [])
  end.

Definition env_catalog (status : Z) (ready : nat) : env :=
  Stub.make_env catalog (rpc status ready) 500.

Definition server (id : Z) (label : string) : value :=
  VDict [ ("id", VInt id); ("label", VStr label);
          ("image", VStr "linode/debian10"); ("type", VStr "g6-standard-1");
          ("status", VStr "running");
          ("ipv4", VList [VStr "203.0.113.10"; VStr "192.168.133.7"]) ].

(** A v4 provider with two instances. *)
Definition fleet (t : list event) (m : http_method) (path : text)
    (data : option value) : rest_reply :=
  match m, path with
  | GET, Val (VStr "/linode/instances") =>
      Response 200 (Some (VDict [("data", VList [server 1 "web-01"; server 2 "db-01"])]))
  | GET, Format "/linode/instances/{}" [Val (VInt id)] =>
      Response 200 (Some (if id =? 2 then server 2 "db-01" else server 1 "web-01"))
  | _, _ => Stub.not_found
  end.

Definition env_fleet : env := Stub.make_env fleet Stub.rpc_provider 500.

(** The collaborator that evicts the cache entry leaves the trace alone. *)
Definition evict (name : value) : M unit := ret tt.

End Cases.

(** The descriptions of the events fired, in order. *)
Fixpoint fired (t : list event) : list string :=
  match t with
  | [] => []
  | EvFire description _ _ :: t' => description :: fired t'
  | _ :: t' => fired t'
  end.


(** A computation that fires no event, however it ends. *)
Definition quiet {A} (c : M A) : Prop :=
  forall st, fired (trace (snd (c st))) = fired (trace st).

(** The paths of the DELETE requests of a trace, in order. *)
Fixpoint deleted (t : list event) : list text :=
  match t with
  | [] => []
  | EvRest DELETE path _ :: t' => path :: deleted t'
  | _ :: t' => deleted t'
  end.

(** What the host sees of a run besides its result: the events fired and
    the call of the bootstrap collaborator. *)
Definition is_announcement (e : event) : bool :=
  match e with
  | EvFire _ _ _ | EvBootstrap => true
  | _ => false
  end.

(** A computation that only adds to the trace, and adds no announcement,
    however it ends. *)
Definition calm {A} (c : M A) : Prop :=
  forall st, exists t,
    trace (snd (c st)) = trace st ++ t
    /\ forallb (fun e => negb (is_announcement e)) t = true.

(** A computation that only adds to the trace, however it ends. *)
Definition growing {A} (c : M A) : Prop :=
  forall st, exists t, trace (snd (c st)) = trace st ++ t.
(** * Properties *)

(** ** The regular-expression matcher is correct *)

Lemma append_nil_l (s : string) : "" +:+ s = s.
Proof. reflexivity. Qed.

Lemma append_cons (c : ascii) (s t : string) : String c s +:+ t = String c (s +:+ t).
Proof. reflexivity. Qed.

Ltac norm_append := rewrite ?append_nil_l, ?append_cons in *.

Lemma append_empty_inv (s1 s2 : string) : s1 +:+ s2 = "" -> s1 = "" /\ s2 = "".
Proof. destruct s1; norm_append; intros H; [auto | discriminate]. Qed.

Lemma nullable_lang (r : regex) : nullable r = true <-> lang r "".
Proof.
  split.
  - induction r; simpl; intros H; try discriminate.
    + constructor.
    + apply andb_true_iff in H as [H1 H2].
      change "" with ("" +:+ ""). constructor; auto.
    + apply orb_true_iff in H as [H | H].
      * apply lang_alt_l; auto.
      * apply lang_alt_r; auto.
    + constructor.
  - intros H. remember "" as s eqn:Hs.
    induction H; simpl; subst; try discriminate; auto.
    + apply append_empty_inv in Hs as [-> ->].
      rewrite IHlang1, IHlang2; auto.
    + rewrite IHlang; auto.
    + rewrite IHlang, orb_true_r; auto.
Qed.

Lemma deriv_sound (c : ascii) (r : regex) :
  forall s, lang (deriv c r) s -> lang r (String c s).
Proof.
  induction r; simpl; intros s H.
  - inversion H.
  - inversion H.
  - destruct (p c) eqn:Hp; inversion H; subst. constructor; assumption.
  - destruct (nullable r1) eqn:Hn.
    + inversion H; subst.
      * match goal with Hc : lang (Cat _ _) _ |- _ => inversion Hc; subst end.
        change (String c (s1 +:+ s2)) with (String c s1 +:+ s2).
        constructor; auto.
      * change (String c s) with ("" +:+ String c s).
        constructor; [apply nullable_lang; assumption | auto].
    + inversion H; subst.
      change (String c (s1 +:+ s2)) with (String c s1 +:+ s2).
      constructor; auto.
  - inversion H; subst; [apply lang_alt_l | apply lang_alt_r]; auto.
  - inversion H; subst.
    change (String c (s1 +:+ s2)) with (String c s1 +:+ s2).
    constructor; auto.
Qed.

Lemma deriv_complete (c : ascii) (r : regex) (w : string) :
  lang r w -> forall s, w = String c s -> lang (deriv c r) s.
Proof.
  induction 1; intros s0 Hw; simpl.
  - discriminate.
  - injection Hw as -> <-. rewrite H. constructor.
  - destruct s1 as [| a s1']; norm_append.
    + subst s2. apply nullable_lang in H. rewrite H.
      apply lang_alt_r. apply IHlang2. reflexivity.
    + injection Hw as -> <-.
      assert (Hc : lang (Cat (deriv c r1) r2) (s1' +:+ s2))
        by (constructor; [apply IHlang1; reflexivity | assumption]).
      destruct (nullable r1); [apply lang_alt_l |]; exact Hc.
  - apply lang_alt_l. auto.
  - apply lang_alt_r. auto.
  - discriminate.
  - destruct s1 as [| a s1']; norm_append.
    + apply IHlang2. assumption.
    + injection Hw as -> <-.
      constructor; [apply IHlang1; reflexivity | assumption].
Qed.

Lemma accepts_lang (r : regex) (s : string) : accepts r s = true <-> lang r s.
Proof.
  revert r. induction s as [| c s IH]; intros r; simpl.
  - apply nullable_lang.
  - rewrite IH. split.
    + apply deriv_sound.
    + intros H. eapply deriv_complete; eauto.
Qed.

Lemma strip_final_newline_spec (s t : string) :
  strip_final_newline s = Some t <-> s = t +:+ String newline "".
Proof.
  revert t. induction s as [| c s IH]; intros t.
  - simpl. split; [discriminate |].
    destruct t; norm_append; discriminate.
  - destruct s as [| c' s'].
    + simpl. destruct (Ascii.eqb_spec c newline) as [-> | Hne].
      * split.
        -- intros [= <-]. reflexivity.
        -- destruct t as [| a t']; norm_append; [reflexivity |].
           intros [= _ H]. destruct t'; norm_append; discriminate.
      * split; [discriminate |].
        destruct t as [| a t']; norm_append.
        -- intros [= H]. contradiction.
        -- intros [= _ H]. destruct t'; norm_append; discriminate.
    + change (strip_final_newline (String c (String c' s')))
        with (match strip_final_newline (String c' s') with
              | Some t => Some (String c t)
              | None => None
              end).
      destruct (strip_final_newline (String c' s')) as [u |] eqn:Hu.
      * pose proof (proj1 (IH u) eq_refl) as Hu'. split.
        -- intros [= <-]. norm_append. rewrite <- Hu'. reflexivity.
        -- destruct t as [| a t']; norm_append.
           ++ intros H. inversion H.
           ++ intros H. inversion H as [[Ha H']]. f_equal. f_equal.
              apply IH in H'. congruence.
      * split; [discriminate |].
        destruct t as [| a t']; norm_append.
        -- intros H. inversion H.
        -- intros H. inversion H as [[Ha H']]. apply IH in H'. discriminate.
Qed.

Lemma re_match_spec (r : regex) (s : string) :
  re_match r s = true <-> re_matches r s.
Proof.
  unfold re_match, re_matches. rewrite orb_true_iff, accepts_lang.
  split; intros [H | H]; auto; right.
  - destruct (strip_final_newline s) as [t |] eqn:Ht; [| discriminate].
    exists t. split; [apply strip_final_newline_spec | apply accepts_lang]; assumption.
  - destruct H as (t & Hs & Ht).
    apply strip_final_newline_spec in Hs. rewrite Hs. apply accepts_lang; assumption.
Qed.

(** ** Running code in the monad *)

Lemma bind_Ret {A B} (c : M A) (k : A -> M B) (st st' : state) (a : A) :
  c st = (Ret a, st') -> bind c k st = k a st'.
Proof. unfold bind. intros ->. reflexivity. Qed.

Lemma bind_Raise {A B} (c : M A) (k : A -> M B) (st st' : state) (e : exn) :
  c st = (Raise e, st') -> bind c k st = (Raise e, st').
Proof. unfold bind. intros ->. reflexivity. Qed.

Lemma bind_OutOfFuel {A B} (c : M A) (k : A -> M B) (st st' : state) :
  c st = (OutOfFuel, st') -> bind c k st = (OutOfFuel, st').
Proof. unfold bind. intros ->. reflexivity. Qed.

Lemma bind_assoc {A B C} (c : M A) (k1 : A -> M B) (k2 : B -> M C) (st : state) :
  bind (bind c k1) k2 st = bind c (fun x => bind (k1 x) k2) st.
Proof. unfold bind. destruct (c st) as [[a | e |] st']; reflexivity. Qed.

Lemma bind_ret_l {A B} (a : A) (k : A -> M B) (st : state) :
  bind (ret a) k st = k a st.
Proof. reflexivity. Qed.

Lemma bind_lift_Ret {A B} (o : outcome A) (k : A -> M B) (st : state) (a : A) :
  o = Ret a -> bind (lift o) k st = k a st.
Proof. intros ->. reflexivity. Qed.

(** A v4 query sends exactly one request, whatever comes back. *)
Lemma v4_query_state (E : env) (path : text) (m : http_method)
    (data : option value) (st st' : state) (r : outcome value) :
  LinodeAPIv4._query E path m data st = (r, st') ->
  st' = sent st (EvRest m path data).
Proof.
  unfold LinodeAPIv4._query, LinodeAPIv4.request, bind, lift, ret, raise, sent.
  destruct (requests_request E (trace st) m path data) as [status body | body].
  - destruct m, body; intros [= _ <-]; reflexivity.
  - destruct body as [response |]; [| intros [= _ <-]; reflexivity].
    destruct (py_in "error" response) as [[] | |].
    + destruct (py_item response "error"); intros [= _ <-]; reflexivity.
    + destruct (py_in "errors" response) as [[] | |].
      * destruct (py_item response "errors") as [errs | |];
          [destruct (py_join ", " errs) | |]; intros [= _ <-]; reflexivity.
      * destruct m; intros [= _ <-]; reflexivity.
      * intros [= _ <-]; reflexivity.
      * intros [= _ <-]; reflexivity.
    + intros [= _ <-]; reflexivity.
    + intros [= _ <-]; reflexivity.
Qed.

(** A v4 query that is answered with JSON returns that JSON. *)
Lemma v4_query_json (E : env) (path : text) (m : http_method)
    (data : option value) (st : state) (status : Z) (json : value) :
  m <> DELETE ->
  requests_request E (trace st) m path data = Response status (Some json) ->
  LinodeAPIv4._query E path m data st = (Ret json, sent st (EvRest m path data)).
Proof.
  intros Hm H.
  unfold LinodeAPIv4._query, LinodeAPIv4.request, bind. rewrite H.
  destruct m; [reflexivity | reflexivity | contradiction].
Qed.

Lemma v4_get_linode_by_name_state (E : env) (name : value) (st st' : state)
    (r : outcome value) :
  LinodeAPIv4._get_linode_by_name E name st = (r, st') ->
  st' = sent st (EvRest GET (Lit "/linode/instances") None).
Proof.
  unfold LinodeAPIv4._get_linode_by_name. unfold bind at 1.
  destruct (LinodeAPIv4._query E (Lit "/linode/instances") GET None st)
    as [[result | e |] st1] eqn:Hq;
    apply v4_query_state in Hq; subst st1;
    [| intros [= _ <-]; reflexivity ..].
  unfold bind, lift, ret, raise.
  destruct (py_get result "data" (VList [])) as [data | |];
    [| intros [= _ <-]; reflexivity ..].
  destruct (py_iter data) as [instances | |];
    [| intros [= _ <-]; reflexivity ..].
  destruct (LinodeAPIv4.find_label instances name) as [[instance |] | |];
    intros [= _ <-]; reflexivity.
Qed.

(** ** C1: the wait loops *)

Lemma remote_calls_app (t1 t2 : list event) :
  remote_calls (t1 ++ t2) = remote_calls t1 ++ remote_calls t2.
Proof. unfold remote_calls. apply List.filter_app. Qed.

(** A v3 query that returns has made exactly one remote call. *)
Lemma v3_query_calls (E : env) (action command : string)
    (args : list (string * value)) (st st' : state) (r : value) :
  LinodeAPIv3._query E action command args st = (Ret r, st') ->
  length (remote_calls (trace st')) = S (length (remote_calls (trace st))).
Proof.
  unfold LinodeAPIv3._query, LinodeAPIv3.now, LinodeAPIv3.get_LASTCALL,
    LinodeAPIv3.set_LASTCALL, LinodeAPIv3.request, sleep, emit,
    bind, lift, ret, raise.
  set (args' := if _ : bool then _ else args).
  assert (Hcalls : forall t : list event,
             length (remote_calls (t ++ [EvRpc args'])) = S (length (remote_calls t))).
  { intros t. rewrite remote_calls_app, length_app. simpl. lia. }
  assert (Hsleep : forall (t : list event) ms,
             remote_calls (t ++ [EvSleep ms]) = remote_calls t).
  { intros t ms. rewrite remote_calls_app. simpl. apply app_nil_r. }
  destruct (LASTCALL st >=? clock E (trace st));
    [destruct (ratelimit_sleep E <? 0); [discriminate |] |]; simpl;
    (destruct (http_query E _ args') as [result | |]; [| discriminate ..]);
    (destruct (py_item result "dict") as [dict | |]; [| discriminate ..]);
    (destruct (LinodeAPIv3.check_errors dict) as [[] | |]; [| discriminate ..]);
    (destruct (py_item result "status") as [status | |]; [| discriminate ..]);
    intros [= _ <-]; simpl; rewrite Hcalls, ?Hsleep; reflexivity.
Qed.

Lemma wait_for_job_loop_pending (E : env) (linode_id job_id : value)
    (interval : Z) :
  job_pending E linode_id job_id ->
  forall (iterations : nat) (st : state),
  exists st',
    LinodeAPIv3.wait_for_job_loop E iterations linode_id job_id interval st
      = (Ret false, st')
    /\ length (remote_calls (trace st'))
       = (length (remote_calls (trace st)) + iterations)%nat.
Proof.
  intros Hpending. induction iterations as [| n IH]; intros st.
  - exists st. split; [reflexivity | lia].
  - destruct (Hpending st)
      as (response & jobs & job & jobid & st1 & Hq & Hdata & Hjob & Hid & Hno).
    pose proof (v3_query_calls _ _ _ _ _ _ _ Hq) as Hcalls.
    destruct (IH (sent st1 (EvSleep (interval * 1000)))) as (st' & Hrun & Hlen).
    exists st'. split.
    + simpl. rewrite (bind_Ret _ _ _ _ _ Hq).
      rewrite (bind_lift_Ret _ _ _ _ Hdata), (bind_lift_Ret _ _ _ _ Hjob),
        (bind_lift_Ret _ _ _ _ Hid).
      destruct Hno as [Hne | (hs & Hhs & Hne)].
      * rewrite Hne. exact Hrun.
      * destruct (py_eq jobid job_id).
        -- rewrite bind_assoc, (bind_lift_Ret _ _ _ _ Hhs), bind_ret_l, Hne.
           exact Hrun.
        -- exact Hrun.
    + rewrite Hlen. unfold sent. simpl.
      rewrite remote_calls_app. simpl. rewrite app_nil_r. lia.
Qed.

(** The v4 loop returns only an observation that has the awaited status. *)
Lemma wait_loop_returns_target (getter : M value) (status : value)
    (entity_name identifier : text) (poll_interval times curr : Z) :
  forall (fuel : nat) (st st' : state) (result : value),
    LinodeAPIv4.wait_loop fuel getter status entity_name identifier
      poll_interval times curr st = (Ret result, st') ->
    exists current,
      py_get result "status" VNone = Ret current /\ py_eq current status = true.
Proof.
  induction fuel as [| fuel IH]; intros st st' result; simpl.
  - discriminate.
  - unfold bind at 1.
    destruct (getter st) as [[r | e |] st1]; try discriminate.
    unfold bind at 1, lift at 1.
    destruct (py_get r "status" VNone) as [current | e |] eqn:Hget; try discriminate.
    destruct (py_eq current status) eqn:Heq.
    + intros [= <- <-]. eauto.
    + destruct (curr <=? times); [| discriminate].
      unfold bind at 1.
      destruct (poll_interval <? 0); [discriminate |].
      unfold sleep, emit. apply IH.
Qed.

(** With [curr <= times] the v4 loop never leaves: whatever the fuel, a
    probe that never reaches the status uses all of it.  No statement of the
    loop changes [curr], so this is the case whenever
    [timeout * 1000 >= poll_interval > 0]. *)
Lemma wait_loop_spins (getter : M value) (status : value)
    (entity_name identifier : text) (poll_interval times curr : Z) :
  never_reaches getter status ->
  0 <= poll_interval ->
  curr <= times ->
  forall (fuel : nat) (st : state),
    fst (LinodeAPIv4.wait_loop fuel getter status entity_name identifier
           poll_interval times curr st) = OutOfFuel.
Proof.
  intros Hnever Hpoll Hcurr.
  induction fuel as [| fuel IH]; intros st; simpl; [reflexivity |].
  destruct (Hnever st) as (result & current & st1 & Hg & Hget & Hne).
  rewrite (bind_Ret _ _ _ _ _ Hg), (bind_lift_Ret _ _ _ _ Hget), Hne.
  replace (curr <=? times) with true by (symmetry; apply Z.leb_le; lia).
  replace (poll_interval <? 0) with false by (symmetry; apply Z.ltb_ge; lia).
  unfold bind at 1, sleep, emit. apply IH.
Qed.

(** C1, as amended.  For a job that stays pending, the v3 loop
    [_wait_for_job] ends after exactly [int(timeout / 5)] probes and reports
    the failure by returning [False]; it raises no error.  The v4 loop
    [_wait_for_entity_status] returns an observation only when its status is
    the awaited one (it never returns a stale one); and when
    [timeout * 1000 / poll_interval] is below 1, a probe that never reaches
    the status makes it raise, after one probe, the time-out error that names
    the entity kind, the identifier and the awaited status. *)
Theorem wait_loops_bounded (E : env) :
  (forall (linode_id job_id : value) (timeout : Z) (st : state),
     job_pending E linode_id job_id ->
     exists st',
       LinodeAPIv3._wait_for_job E linode_id job_id timeout st = (Ret false, st')
       /\ length (remote_calls (trace st'))
          = (length (remote_calls (trace st)) + Z.to_nat (Z.quot timeout 5))%nat)
  /\ (forall (fuel : nat) (getter : M value) (status : value)
        (entity_name identifier : text) (timeout : Z) (st st' : state)
        (result : value),
      LinodeAPIv4._wait_for_entity_status E fuel getter status entity_name
        identifier timeout st = (Ret result, st') ->
      exists current,
        py_get result "status" VNone = Ret current
        /\ py_eq current status = true)
  /\ (forall (fuel : nat) (getter : M value) (status : value)
        (entity_name identifier : text) (timeout : Z) (st : state),
      never_reaches getter status ->
      poll_interval E <> 0 ->
      (timeout * 1000) / poll_interval E < 1 ->
      exists result st1,
        getter st = (Ret result, st1)
        /\ LinodeAPIv4._wait_for_entity_status E (S fuel) getter status
             entity_name identifier timeout st
           = (Raise (LinodeAPIv4.timed_out entity_name identifier status), st1)
        /\ exn_class_of (LinodeAPIv4.timed_out entity_name identifier status)
           = SaltCloudException
        /\ exn_args (LinodeAPIv4.timed_out entity_name identifier status)
           = [Format "timed out while waiting for {} {} to reach status {}."
                [entity_name; identifier; Val status]]).
Proof.
  split; [| split].
  - intros linode_id job_id timeout st Hpending.
    unfold LinodeAPIv3._wait_for_job.
    apply wait_for_job_loop_pending. assumption.
  - intros fuel getter status entity_name identifier timeout st st' result.
    unfold LinodeAPIv4._wait_for_entity_status.
    destruct (LinodeAPIv4._get_poll_interval E =? 0); [discriminate |].
    apply wait_loop_returns_target.
  - intros fuel getter status entity_name identifier timeout st Hnever Hpoll Htimes.
    destruct (Hnever st) as (result & current & st1 & Hg & Hget & Hne).
    exists result, st1. split; [assumption |]. split; [| split; reflexivity].
    unfold LinodeAPIv4._wait_for_entity_status, LinodeAPIv4._get_poll_interval.
    replace (poll_interval E =? 0) with false by (symmetry; apply Z.eqb_neq; assumption).
    simpl.
    rewrite (bind_Ret _ _ _ _ _ Hg), (bind_lift_Ret _ _ _ _ Hget), Hne.
    replace (1 <=? timeout * 1000 / poll_interval E) with false
      by (symmetry; apply Z.leb_gt; lia).
    reflexivity.
Qed.

Lemma stub_job_pending : job_pending Stub.env_v3 (VInt 1) (VInt 7).
Proof.
  intros st.
  unfold LinodeAPIv3._query, LinodeAPIv3.now, LinodeAPIv3.get_LASTCALL,
    LinodeAPIv3.set_LASTCALL, LinodeAPIv3.request, sleep, emit,
    bind, lift, ret, raise.
  simpl.
  destruct (LASTCALL st >=? 1 + Z.of_nat (length (trace st))); simpl;
    do 5 eexists; (split; [reflexivity |]);
    (split; [reflexivity |]); (split; [reflexivity |]); (split; [reflexivity |]);
    right; eexists; split; reflexivity.
Qed.

Lemma stub_never_running :
  never_reaches (LinodeAPIv4._get_linode_by_id (Stub.env_v4 25600 "offline") (VInt 123))
    (VStr "running").
Proof.
  intros st. do 3 eexists. split; [reflexivity |]. split; reflexivity.
Qed.

Lemma wait_loops_bounded_witness :
  job_pending Stub.env_v3 (VInt 1) (VInt 7)
  /\ (exists st',
        LinodeAPIv3._wait_for_job Stub.env_v3 (VInt 1) (VInt 7) 300 Stub.st0
          = (Ret false, st')
        /\ length (remote_calls (trace st')) = 60%nat)
  /\ (exists current,
        py_get (Stub.instance_json "running") "status" VNone = Ret current
        /\ py_eq current (VStr "running") = true)
  /\ never_reaches
       (LinodeAPIv4._get_linode_by_id (Stub.env_v4 25600 "offline") (VInt 123))
       (VStr "running")
  /\ (exists result st1,
        LinodeAPIv4._wait_for_entity_status (Stub.env_v4 25600 "offline") 1
          (LinodeAPIv4._get_linode_by_id (Stub.env_v4 25600 "offline") (VInt 123))
          (VStr "running") (Lit "linode") (Val (VInt 123)) 0 Stub.st0
        = (Raise (LinodeAPIv4.timed_out (Lit "linode") (Val (VInt 123)) (VStr "running")),
           st1)
        /\ result = Stub.instance_json "offline").
Proof.
  split; [exact stub_job_pending |].
  split.
  { destruct (wait_loops_bounded Stub.env_v3) as [Hv3 _].
    destruct (Hv3 (VInt 1) (VInt 7) 300 Stub.st0 stub_job_pending) as (st' & Hrun & Hlen).
    exists st'. split; [exact Hrun | exact Hlen]. }
  split.
  { destruct (wait_loops_bounded (Stub.env_v4 25600 "running")) as (_ & Hv4 & _).
    refine (Hv4 1%nat
              (LinodeAPIv4._get_linode_by_id (Stub.env_v4 25600 "running") (VInt 123))
              (VStr "running") (Lit "linode") (Val (VInt 123)) 120 Stub.st0
              (sent Stub.st0 (EvRest GET (Format "/linode/instances/{}" [Val (VInt 123)]) None))
              (Stub.instance_json "running") _).
    vm_compute. reflexivity. }
  split; [exact stub_never_running |].
  destruct (wait_loops_bounded (Stub.env_v4 25600 "offline")) as (_ & _ & Hv4).
  assert (Hpoll : poll_interval (Stub.env_v4 25600 "offline") <> 0)
    by (simpl; lia).
  assert (Htimes : (0 * 1000) / poll_interval (Stub.env_v4 25600 "offline") < 1)
    by (vm_compute; reflexivity).
  destruct (Hv4 0%nat
              (LinodeAPIv4._get_linode_by_id (Stub.env_v4 25600 "offline") (VInt 123))
              (VStr "running") (Lit "linode") (Val (VInt 123)) 0 Stub.st0
              stub_never_running Hpoll Htimes)
    as (result & st1 & Hg & Hrun & _).
  exists result, st1. split; [exact Hrun |].
  injection Hg as <- _. reflexivity.
Defined.

(** C1, as stated, fails: against a provider on which job 7 never succeeds,
    [_wait_for_job] with the default time-out of 300 s returns the value
    [False] after 60 probes; no error is raised. *)
Lemma wait_for_job_returns_False :
  fst (LinodeAPIv3._wait_for_job Stub.env_v3 (VInt 1) (VInt 7) 300 Stub.st0)
    = Ret false
  /\ length (remote_calls (trace (snd (LinodeAPIv3._wait_for_job Stub.env_v3
                                         (VInt 1) (VInt 7) 300 Stub.st0))))
     = 60%nat.
Proof. vm_compute. split; reflexivity. Qed.

(** The v4 loop on a concrete provider: the instance stays offline, the poll
    interval is 500 ms and the time-out 120 s, and the loop is still running
    after any number of probes. *)
Lemma wait_for_linode_status_spins (fuel : nat) :
  fst (LinodeAPIv4._wait_for_linode_status (Stub.env_v4 25600 "offline") fuel
         (VInt 123) (VStr "running") 120 Stub.st0) = OutOfFuel.
Proof.
  unfold LinodeAPIv4._wait_for_linode_status, LinodeAPIv4._wait_for_entity_status.
  simpl.
  apply wait_loop_spins;
    [exact stub_never_running | apply Z.leb_le; reflexivity ..].
Qed.

(** ** C2: what [_validate_name] accepts *)

Lemma validate_name_spec (name : string) :
  _validate_name name = true <->
  (3 <= String.length name <= 48)%nat /\ re_matches label_regex name.
Proof.
  unfold _validate_name. rewrite <- re_match_spec.
  destruct (Z.ltb_spec (Z.of_nat (String.length name)) 3) as [Hlt | Hge]; simpl.
  - split; [discriminate | intros [[H _] _]; lia].
  - destruct (Z.gtb_spec (Z.of_nat (String.length name)) 48) as [Hgt | Hle]; simpl.
    + split; [discriminate | intros [[_ H] _]; lia].
    + destruct (re_match label_regex name); simpl.
      * split; [intros _; split; [lia | reflexivity] | reflexivity].
      * split; [discriminate | intros [_ H]; discriminate].
Qed.

(** What [re.match] accepts for this pattern, on examples: the last one is
    a name that ends in a newline. *)
Example validate_name_examples :
  map _validate_name
    ["web-01"; "a-c"; "ab"; "-web"; "web_"; "a b c"; String "a" (String "b" (String "1" (String newline "")))]
  = [true; true; false; false; false; false; true].
Proof. reflexivity. Qed.

(** ** C3: the explicit-provisioning path *)

(** [create_config] without a [root_disk_id] raises before it sends
    anything. *)
Lemma create_config_needs_root_disk_id (E : env) (kwargs : gmap string value)
    (st : state) :
  kwargs !! "root_disk_id" = None ->
  truthy (kwarg kwargs "name") = true ->
  LinodeAPIv4.create_config E kwargs st
  = (Raise LinodeAPIv4.create_config_requires, st).
Proof.
  intros Hroot Hname. unfold LinodeAPIv4.create_config.
  rewrite Hname. simpl.
  unfold kwarg at 3. rewrite Hroot. simpl.
  rewrite !orb_true_r. reflexivity.
Qed.

(** C3, on the scenario of the specification (20000 MB of root disk, 256 MB
    of swap, a class of 25600 MB): [create] creates the instance, the swap
    disk and the root disk, and then [create_config] raises, because the
    dictionary it is given has no [root_disk_id] and its [swap_disk_id] is
    [None]; no configuration profile is created. *)
Theorem create_explicit_disks_no_config :
  fst Stub.explicit_disks_run = Raise LinodeAPIv4.create_config_requires
  /\ posted (trace (snd Stub.explicit_disks_run))
     = [ "/linode/instances"; "/linode/instance/{}/disks";
         "/linode/instance/{}/disks" ].
Proof. vm_compute. split; reflexivity. Qed.

(** ** C4: the capacity check *)

Lemma bind_emit {B} (e : event) (k : unit -> M B) (st : state) :
  bind (emit e) k st = k tt (sent st e).
Proof. reflexivity. Qed.

Lemma posted_app (t1 t2 : list event) : posted (t1 ++ t2) = posted t1 ++ posted t2.
Proof.
  induction t1 as [| e t1 IH]; [reflexivity |].
  destruct e as [[] [[] | ] ? | | | |]; simpl; rewrite ?IH; reflexivity.
Qed.

(** C4, as amended.  In the explicit-provisioning mode of [create] (no
    clone source, a root disk size given), once the instance is created and
    the size class is read: when the root size (the given one, or the
    capacity less the swap when it is given as 0) plus the swap exceeds the
    capacity of the class, [create] raises the error "Insufficient space
    available" that names the size class and its capacity; otherwise, when
    that root size is not positive, it raises the error "Disk must be
    allocated for the root disk partition", which names neither.  In both
    cases the only POST request sent is the creation of the instance: no disk
    has been created. *)
Theorem create_checks_capacity (E : env) (fuel : nat) (vm_ : vm) (st : state)
    (root capacity status1 status2 : Z) (fields : list (string * value))
    (spec disk : value) :
  _validate_name (vm_name vm_) = true ->
  truthy (vm_clonefrom vm_) = false ->
  _get_root_disk_size vm_ = Some root ->
  (forall t data,
     requests_request E t POST (Lit "/linode/instances") data
     = Response status1 (Some (VDict fields))) ->
  (forall t,
     requests_request E t GET (Format "/linode/types/{}" [Val (vm_size vm_)]) None
     = Response status2 (Some spec)) ->
  py_get spec "disk" (VInt 0) = Ret disk ->
  as_int disk = Ret capacity ->
  exists st',
    posted (trace st') = posted (trace st) ++ ["/linode/instances"]
    /\ ((if root =? 0 then capacity - _get_swap_size vm_ else root)
          + _get_swap_size vm_ > capacity ->
        LinodeAPIv4.create E fuel vm_ st
        = (Raise (Exn SaltCloudException
                    [Format "Insufficient space available for type '{}' ({})"
                       [Val (vm_size vm_); Val disk]]), st'))
    /\ ((if root =? 0 then capacity - _get_swap_size vm_ else root)
          + _get_swap_size vm_ <= capacity ->
        (if root =? 0 then capacity - _get_swap_size vm_ else root) <= 0 ->
        LinodeAPIv4.create E fuel vm_ st
        = (Raise (Exn SaltCloudException
                    [Lit "Disk must be allocated for the root disk partition"]),
           st')).
Proof.
  intros Hname Hclone Hroot Hcreate Htype Hdisk Hcap.
  set (resolved := if root =? 0 then capacity - _get_swap_size vm_ else root).
  set (st1 := sent st (EvFire "starting create"
                         (Format "salt/cloud/{0}/creating" [Lit (vm_name vm_)])
                         (cloud_filter_event E "creating" vm_))).
  assert (Hstart : forall r st',
    (forall (params : list (string * value)),
       let st2 := sent st1 (EvRest POST (Lit "/linode/instances") (Some (VDict params))) in
       LinodeAPIv4.create_declared_disks E fuel
         (match assoc "id" fields with Some x => x | None => VNone end)
         (vm_size vm_) (vm_image vm_) (_get_pub_key vm_) (_get_password vm_)
         (_get_swap_size vm_) root st2 = (Raise r, st' params)) ->
    exists params, LinodeAPIv4.create E fuel vm_ st = (Raise r, st' params)).
  { intros r st' Hdisks.
    unfold LinodeAPIv4.create. rewrite Hname. cbv zeta. cbn [negb].
    unfold fire_event. rewrite bind_emit. fold st1.
    rewrite Hclone, Hroot.
    eexists.
    erewrite bind_Ret; [| eapply v4_query_json; [discriminate | apply Hcreate]].
    rewrite (bind_lift_Ret (py_get (VDict fields) "id" VNone) _ _ _ eq_refl).
    erewrite bind_Raise; [reflexivity |].
    cbn [negb]. apply Hdisks. }
  assert (Hdisks : forall st2,
    let st3 := sent st2 (EvRest GET (Format "/linode/types/{}" [Val (vm_size vm_)]) None) in
    forall linode_id,
    (resolved + _get_swap_size vm_ > capacity ->
     LinodeAPIv4.create_declared_disks E fuel linode_id
       (vm_size vm_) (vm_image vm_) (_get_pub_key vm_) (_get_password vm_)
       (_get_swap_size vm_) root st2
     = (Raise (LinodeAPIv4.insufficient_space (vm_size vm_) disk), st3))
    /\ (resolved + _get_swap_size vm_ <= capacity -> resolved <= 0 ->
        LinodeAPIv4.create_declared_disks E fuel linode_id
          (vm_size vm_) (vm_image vm_) (_get_pub_key vm_) (_get_password vm_)
          (_get_swap_size vm_) root st2
        = (Raise LinodeAPIv4.root_disk_required, st3))).
  { intros st2 st3 linode_id.
    unfold LinodeAPIv4.create_declared_disks, LinodeAPIv4._get_linode_type.
    erewrite bind_Ret; [| eapply v4_query_json; [discriminate | apply Htype]].
    rewrite (bind_lift_Ret _ _ _ _ Hdisk), (bind_lift_Ret _ _ _ _ Hcap).
    cbv zeta. fold resolved. fold st3.
    split.
    - intros Hover.
      replace (resolved + _get_swap_size vm_ >? capacity) with true
        by (symmetry; apply Z.gtb_lt; lia).
      reflexivity.
    - intros Hfits Hnonpos.
      replace (resolved + _get_swap_size vm_ >? capacity) with false
        by (symmetry; rewrite Z.gtb_ltb; apply Z.ltb_ge; lia).
      replace (resolved <=? 0) with true by (symmetry; apply Z.leb_le; lia).
      reflexivity. }
  destruct (Z_gt_le_dec (resolved + _get_swap_size vm_) capacity) as [Hover | Hfits].
  - destruct (Hstart (LinodeAPIv4.insufficient_space (vm_size vm_) disk)
                (fun params =>
                   sent (sent st1 (EvRest POST (Lit "/linode/instances") (Some (VDict params))))
                     (EvRest GET (Format "/linode/types/{}" [Val (vm_size vm_)]) None)))
      as [params Hrun].
    { intros params st2. apply Hdisks. assumption. }
    eexists. split; [| split; [intros _; exact Hrun | intros; lia]].
    unfold sent, st1. simpl. rewrite !posted_app. simpl.
    rewrite !app_nil_r. reflexivity.
  - destruct (Z_le_gt_dec resolved 0) as [Hnonpos | Hpos].
    + destruct (Hstart LinodeAPIv4.root_disk_required
                  (fun params =>
                     sent (sent st1 (EvRest POST (Lit "/linode/instances") (Some (VDict params))))
                       (EvRest GET (Format "/linode/types/{}" [Val (vm_size vm_)]) None)))
        as [params Hrun].
      { intros params st2. apply Hdisks; assumption. }
      eexists. split; [| split; [intros; lia | intros _ _; exact Hrun]].
      unfold sent, st1. simpl. rewrite !posted_app. simpl.
      rewrite !app_nil_r. reflexivity.
    + exists (sent st (EvRest POST (Lit "/linode/instances") None)).
      split; [| split; intros; lia].
      unfold sent. simpl. rewrite posted_app. reflexivity.
Qed.

Lemma create_checks_capacity_witness :
  _validate_name (vm_name (Stub.web01 (Some 26000) (Some 256))) = true
  /\ truthy (vm_clonefrom (Stub.web01 (Some 26000) (Some 256))) = false
  /\ _get_root_disk_size (Stub.web01 (Some 26000) (Some 256)) = Some 26000
  /\ py_get (VDict [("id", VStr "g6-standard-1"); ("disk", VInt 25600)]) "disk" (VInt 0)
     = Ret (VInt 25600)
  /\ as_int (VInt 25600) = Ret 25600
  /\ 26000 + 256 > 25600
  /\ exists st',
       posted (trace st') = ["/linode/instances"]
       /\ LinodeAPIv4.create (Stub.env_v4 25600 "offline") 1
            (Stub.web01 (Some 26000) (Some 256)) Stub.st0
          = (Raise (Exn SaltCloudException
                      [Format "Insufficient space available for type '{}' ({})"
                         [Val (VStr "g6-standard-1"); Val (VInt 25600)]]), st').
Proof.
  repeat (split; [reflexivity |]).
  destruct (create_checks_capacity (Stub.env_v4 25600 "offline") 1
              (Stub.web01 (Some 26000) (Some 256)) Stub.st0
              26000 25600 200 200
              [ ("id", VInt 123); ("label", VStr "web-01");
                ("type", VStr "g6-standard-1"); ("region", VStr "eu-west");
                ("status", VStr "provisioning");
                ("ipv4", VList [VStr "203.0.113.10"; VStr "192.168.133.7"]);
                ("ipv6", VStr "2001:db8::1/64") ]
              (VDict [("id", VStr "g6-standard-1"); ("disk", VInt 25600)])
              (VInt 25600)
              eq_refl eq_refl eq_refl
              (fun t data => eq_refl) (fun t => eq_refl) eq_refl eq_refl)
    as (st' & Hposted & Hover & _).
  exists st'. split; [exact Hposted |].
  apply Hover. reflexivity.
Defined.

(** C4, as stated, fails: with [disk_size: 0] and a swap of 25600 MB on a
    class of 25600 MB the root size is 0, and the error that [create] raises
    names neither the size class nor its capacity. *)
Lemma create_nonpositive_root_message :
  fst Stub.no_room_for_root_run = Raise LinodeAPIv4.root_disk_required
  /\ names LinodeAPIv4.root_disk_required (VStr "g6-standard-1") = false
  /\ names LinodeAPIv4.root_disk_required (VInt 25600) = false
  /\ posted (trace (snd Stub.no_room_for_root_run)) = ["/linode/instances"].
Proof. vm_compute. repeat split; reflexivity. Qed.

(** ** C5: what the transport does with an error answer *)

(** C5, on two answers of the v4 transport: a 401 answer whose body is the
    error envelope of the API is returned to the caller as the decoded body,
    and when [requests] raises [HTTPError] with a one-field error body the
    exception object that [_query] builds is returned, not raised. *)
Theorem v4_query_returns_the_error :
  LinodeAPIv4._query Stub.env_unauthorized (Lit "/linode/instances") GET None Stub.st0
  = (Ret (VDict [("errors", VList [VDict [("reason", VStr "Invalid Token")]])]),
     sent Stub.st0 (EvRest GET (Lit "/linode/instances") None))
  /\ LinodeAPIv4._query Stub.env_failing (Lit "/linode/instances") GET None Stub.st0
     = (Ret (VExc SaltCloudSystemExit
               [Lit "Linode API reported error: "; Val (VStr "Invalid Token")]),
        sent Stub.st0 (EvRest GET (Lit "/linode/instances") None)).
Proof. split; reflexivity. Qed.

(** The v4 transport never raises one of the driver's errors: whatever the
    remote side answers, a raised exception is a [ValueError], [TypeError],
    [KeyError] or [AttributeError] of the decoding itself. *)
Lemma v4_query_raises_no_api_error (E : env) (path : text) (m : http_method)
    (data : option value) (st st' : state) (e : exn) :
  LinodeAPIv4._query E path m data st = (Raise e, st') ->
  exn_class_of e <> SaltCloudSystemExit /\ exn_class_of e <> SaltCloudException.
Proof.
  unfold LinodeAPIv4._query, LinodeAPIv4.request, bind, lift, ret, raise.
  destruct (requests_request E (trace st) m path data) as [status body | body].
  - destruct m, body; intros [= <- _]; split; discriminate.
  - destruct body as [response |]; [| intros [= <- _]; split; discriminate].
    destruct response; simpl; try (intros [= <- _]; split; discriminate).
    + destruct (contains "error" s); [intros [= <- _]; split; discriminate |].
      destruct (contains "errors" s); [intros [= <- _]; split; discriminate |].
      destruct m; intros [=]; subst; split; discriminate.
    + destruct (existsb _ l); [intros [= <- _]; split; discriminate |].
      destruct (existsb _ l); [intros [= <- _]; split; discriminate |].
      destruct m; intros [=]; subst; split; discriminate.
    + unfold has_key.
      destruct (assoc "error" d); [discriminate |].
      destruct (assoc "errors" d) as [errs |].
      * destruct (py_join ", " errs) as [joined | e' |] eqn:Hjoin; try discriminate.
        intros [= <- _].
        destruct errs; simpl in Hjoin; try discriminate;
          try (injection Hjoin as <-; split; discriminate).
        destruct (all_strings l); [discriminate |].
        injection Hjoin as <-. split; discriminate.
      * destruct m; intros [=]; subst; split; discriminate.
Qed.

(** The v3 transport does raise: an [ERRORARRAY] with the message
    "Authentication failed" gives the distinguished error. *)
Example v3_query_raises_on_authentication_failure :
  fst (LinodeAPIv3._query Stub.env_unauthorized "linode" "list" [] Stub.st0)
  = Raise (Exn SaltCloudSystemExit [Lit "Linode API Key is expired or invalid"]).
Proof. reflexivity. Qed.

(** ** C6: the status table *)

Lemma descr_by_code_unknown (table : list (string * status_data)) (status_id : Z) :
  (forall (name : string) (d : status_data),
     In (name, d) table -> code d <> status_id) ->
  descr_by_code table status_id = None.
Proof.
  induction table as [| [name d] rest IH]; intros Hnot; simpl; [reflexivity |].
  destruct (Z.eqb_spec (code d) status_id) as [Heq | _].
  - exfalso. apply (Hnot name d); [left; reflexivity | exact Heq].
  - apply IH. intros name' d' Hin. apply (Hnot name' d'). right. exact Hin.
Qed.

Lemma status_descr_loop_int (E : env) (table : list (string * status_data))
    (z : Z) :
  LinodeAPIv3.status_descr_loop E table (VInt z) = Ret (descr_by_code table z).
Proof.
  induction table as [| [name d] rest IH]; simpl; [reflexivity |].
  destruct (code d =? z); [reflexivity | exact IH].
Qed.

(** C6.  The mapping from a status code to its description is not total in
    the code.  The class body declares [_get_status_descr_by_id] with the
    one parameter [status_id], so the call [self._get_status_descr_by_id(x)],
    which is how every caller calls it, raises [TypeError] whatever [x] is.
    The function itself, applied to one argument, raises [TypeError] for
    [None] and [ValueError] for text that [int] does not accept; for an
    integer it returns the description of the code when [LINODE_STATUS] has
    the code, and [None] when it has not. *)
Theorem status_descr_raises (E : env) :
  (forall self status_id : value,
     call_method self (LinodeAPIv3._get_status_descr_by_id E) [status_id]
     = Raise (Exn TypeError
                [Format "{}() takes {} positional argument but {} were given"
                   [Lit "_get_status_descr_by_id"; Val (VInt 1); Val (VInt 2)]]))
  /\ call (LinodeAPIv3._get_status_descr_by_id E) [VNone]
     = Raise (Exn TypeError [Lit "int() argument must be a string or a number"])
  /\ (forall s : string,
        int_of_str E s = None ->
        call (LinodeAPIv3._get_status_descr_by_id E) [VStr s]
        = Raise (Exn ValueError [Lit "invalid literal for int()"]))
  /\ (forall (name : string) (d : status_data),
        In (name, d) LINODE_STATUS ->
        call (LinodeAPIv3._get_status_descr_by_id E) [VInt (code d)]
        = Ret (VStr (descr d)))
  /\ (forall status_id : Z,
        (forall (name : string) (d : status_data),
           In (name, d) LINODE_STATUS -> code d <> status_id) ->
        call (LinodeAPIv3._get_status_descr_by_id E) [VInt status_id] = Ret VNone).
Proof.
  split; [reflexivity |]. split; [reflexivity |]. split; [| split].
  - intros s Hs. unfold call. simpl. unfold LinodeAPIv3.status_descr. simpl.
    rewrite Hs. reflexivity.
  - intros name d Hin. simpl in Hin.
    repeat (destruct Hin as [[= <- <-] | Hin]; [reflexivity |]).
    contradiction.
  - intros status_id Hnot. unfold call. simpl. unfold LinodeAPIv3.status_descr.
    rewrite status_descr_loop_int, descr_by_code_unknown by exact Hnot.
    reflexivity.
Qed.

Lemma status_descr_raises_witness :
  int_of_str Stub.env_v3 "running" = None
  /\ call (LinodeAPIv3._get_status_descr_by_id Stub.env_v3) [VStr "running"]
     = Raise (Exn ValueError [Lit "invalid literal for int()"])
  /\ In ("running", StatusData 1 "Running") LINODE_STATUS
  /\ call (LinodeAPIv3._get_status_descr_by_id Stub.env_v3) [VInt 1]
     = Ret (VStr "Running")
  /\ (forall (name : string) (d : status_data),
        In (name, d) LINODE_STATUS -> code d <> 7)
  /\ call (LinodeAPIv3._get_status_descr_by_id Stub.env_v3) [VInt 7] = Ret VNone.
Proof.
  assert (Hin : In ("running", StatusData 1 "Running") LINODE_STATUS)
    by (simpl; tauto).
  assert (Hout : forall (name : string) (d : status_data),
             In (name, d) LINODE_STATUS -> code d <> 7).
  { intros name d H. simpl in H.
    repeat (destruct H as [[= <- <-] | H]; [simpl; lia |]). contradiction. }
  destruct (status_descr_raises Stub.env_v3) as (_ & _ & Htext & Hknown & Hunknown).
  split; [reflexivity |].
  split; [exact (Htext "running" eq_refl) |].
  split; [exact Hin |].
  split; [exact (Hknown "running" (StatusData 1 "Running") Hin) |].
  split; [exact Hout |].
  exact (Hunknown 7 Hout).
Defined.

(** ** C7: start and stop are no-ops on an instance already in the state *)

(** C7.  When the instance found under [name] already has status "running",
    [start] returns the success result "Machine already running", and when it
    already has status "offline", [stop] returns the success result "Machine
    already stopped"; in both cases the process state is the one left by the
    look-up of the instance, whose only remote call is the read-only
    [GET /linode/instances]: no state-changing call is issued. *)
Theorem start_stop_noop (E : env) (fuel : nat) (name instance status : value)
    (st st' : state) :
  LinodeAPIv4._get_linode_by_name E name st = (Ret instance, st') ->
  py_item instance "status" = Ret status ->
  st' = sent st (EvRest GET (Lit "/linode/instances") None)
  /\ (py_eq status (VStr "running") = true ->
      LinodeAPIv4.start E fuel name st = (Ret LinodeAPIv4.already_running, st')
      /\ py_item LinodeAPIv4.already_running "success" = Ret (VBool true))
  /\ (py_eq status (VStr "offline") = true ->
      LinodeAPIv4.stop E fuel name st = (Ret LinodeAPIv4.already_stopped, st')
      /\ py_item LinodeAPIv4.already_stopped "success" = Ret (VBool true)).
Proof.
  intros Hfind Hstatus.
  assert (Hid : exists id, py_get instance "id" VNone = Ret id).
  { destruct instance; try discriminate. simpl. eauto. }
  destruct Hid as [id Hid].
  split; [eapply v4_get_linode_by_name_state; eassumption |].
  split; intros Heq; (split; [| reflexivity]).
  - unfold LinodeAPIv4.start.
    rewrite (bind_Ret _ _ _ _ _ Hfind).
    rewrite (bind_lift_Ret _ _ _ _ Hid), (bind_lift_Ret _ _ _ _ Hstatus).
    rewrite Heq. reflexivity.
  - unfold LinodeAPIv4.stop.
    rewrite (bind_Ret _ _ _ _ _ Hfind).
    rewrite (bind_lift_Ret _ _ _ _ Hid), (bind_lift_Ret _ _ _ _ Hstatus).
    rewrite Heq. reflexivity.
Qed.

Lemma start_stop_noop_witness :
  LinodeAPIv4._get_linode_by_name (Stub.env_v4 25600 "running") (VStr "web-01") Stub.st0
  = (Ret (Stub.instance_json "running"),
     sent Stub.st0 (EvRest GET (Lit "/linode/instances") None))
  /\ py_item (Stub.instance_json "running") "status" = Ret (VStr "running")
  /\ py_eq (VStr "running") (VStr "running") = true
  /\ LinodeAPIv4.start (Stub.env_v4 25600 "running") 0 (VStr "web-01") Stub.st0
     = (Ret LinodeAPIv4.already_running,
        sent Stub.st0 (EvRest GET (Lit "/linode/instances") None))
  /\ LinodeAPIv4._get_linode_by_name (Stub.env_v4 25600 "offline") (VStr "web-01") Stub.st0
     = (Ret (Stub.instance_json "offline"),
        sent Stub.st0 (EvRest GET (Lit "/linode/instances") None))
  /\ py_item (Stub.instance_json "offline") "status" = Ret (VStr "offline")
  /\ py_eq (VStr "offline") (VStr "offline") = true
  /\ LinodeAPIv4.stop (Stub.env_v4 25600 "offline") 0 (VStr "web-01") Stub.st0
     = (Ret LinodeAPIv4.already_stopped,
        sent Stub.st0 (EvRest GET (Lit "/linode/instances") None)).
Proof.
  assert (Hrun : LinodeAPIv4._get_linode_by_name (Stub.env_v4 25600 "running")
                   (VStr "web-01") Stub.st0
                 = (Ret (Stub.instance_json "running"),
                    sent Stub.st0 (EvRest GET (Lit "/linode/instances") None)))
    by reflexivity.
  assert (Hoff : LinodeAPIv4._get_linode_by_name (Stub.env_v4 25600 "offline")
                   (VStr "web-01") Stub.st0
                 = (Ret (Stub.instance_json "offline"),
                    sent Stub.st0 (EvRest GET (Lit "/linode/instances") None)))
    by reflexivity.
  split; [exact Hrun |]. split; [reflexivity |]. split; [reflexivity |].
  split.
  { destruct (start_stop_noop (Stub.env_v4 25600 "running") 0 (VStr "web-01")
                (Stub.instance_json "running") (VStr "running") Stub.st0 _
                Hrun eq_refl) as (_ & Hstart & _).
    exact (proj1 (Hstart eq_refl)). }
  split; [exact Hoff |]. split; [reflexivity |]. split; [reflexivity |].
  destruct (start_stop_noop (Stub.env_v4 25600 "offline") 0 (VStr "web-01")
              (Stub.instance_json "offline") (VStr "offline") Stub.st0 _
              Hoff eq_refl) as (_ & _ & Hstop).
  exact (proj1 (Hstop eq_refl)).
Defined.

(** ** C8: the public and the private addresses *)

Lemma filter_partition {A} (p : A -> bool) (l : list A) :
  Permutation (List.filter (fun x => negb (p x)) l ++ List.filter p l) l.
Proof.
  induction l as [| a l IH]; simpl; [constructor |].
  destruct (p a); simpl.
  - symmetry. apply Permutation_cons_app. symmetry. exact IH.
  - constructor. exact IH.
Qed.

Lemma filter_split {A} (p q : A -> bool) (l : list A) :
  Permutation (List.filter (fun x => p x && q x) l
                 ++ List.filter (fun x => p x && negb (q x)) l)
              (List.filter p l).
Proof.
  induction l as [| a l IH]; simpl; [constructor |].
  destruct (p a); simpl; [| exact IH].
  destruct (q a); simpl.
  - constructor. exact IH.
  - symmetry. apply Permutation_cons_app. symmetry. exact IH.
Qed.

Lemma classify_spec (E : env) (addrs : list value) :
  Forall (fun a => exists b, ip_is_private E a = Ret b) addrs ->
  forall public private,
    LinodeAPIv4.classify E addrs public private
    = Ret (public ++ List.filter (fun a => negb (is_private_addr E a)) addrs,
           private ++ List.filter (is_private_addr E) addrs).
Proof.
  induction 1 as [| a addrs [b Hb] _ IH]; intros public private; simpl.
  - rewrite !app_nil_r. reflexivity.
  - unfold is_private_addr in *. rewrite Hb. simpl.
    destruct b; simpl; rewrite IH, <- app_assoc; reflexivity.
Qed.

Lemma filter_is_private (E : env) (b : bool) (addrs : list value) :
  Forall (fun a => exists b, ip_is_private E a = Ret b) addrs ->
  Forall (fun a => ip_is_private E a = Ret b)
    (List.filter (fun a => Bool.eqb (is_private_addr E a) b) addrs).
Proof.
  induction 1 as [| a addrs [b' Hb] _ IH]; simpl; [constructor |].
  unfold is_private_addr in *. rewrite Hb.
  destruct b, b'; simpl; try assumption; constructor; assumption.
Qed.

Lemma lists_of_append (node_id k : string) (public : bool) (addr : value)
    (t : LinodeAPIv3.ip_table) :
  lists_of node_id (LinodeAPIv3.ip_table_append k public addr t)
  = if String.eqb node_id k then
      if public then (fst (lists_of node_id t) ++ [addr], snd (lists_of node_id t))
      else (fst (lists_of node_id t), snd (lists_of node_id t) ++ [addr])
    else lists_of node_id t.
Proof.
  unfold lists_of.
  induction t as [| [k' [pub priv]] t IH]; simpl.
  - destruct public; simpl; destruct (String.eqb node_id k); reflexivity.
  - destruct (String.eqb_spec k k') as [<- | Hkk'].
    + destruct public; simpl; destruct (String.eqb node_id k); reflexivity.
    + simpl. destruct (String.eqb_spec node_id k') as [-> | Hnk'].
      * destruct (String.eqb_spec k' k) as [-> | _]; [contradiction | reflexivity].
      * exact IH.
Qed.

Lemma collect_ips_spec (E : env) (linode_id : value) (items : list value) :
  Forall well_formed_item items ->
  forall table,
  exists table',
    LinodeAPIv3.collect_ips E items table = Ret table'
    /\ lists_of (LinodeAPIv3.text_type E linode_id) table'
       = (fst (lists_of (LinodeAPIv3.text_type E linode_id) table)
            ++ map (item_field "IPADDRESS")
                 (List.filter (fun it => item_of E linode_id it && item_public it) items),
          snd (lists_of (LinodeAPIv3.text_type E linode_id) table)
            ++ map (item_field "IPADDRESS")
                 (List.filter (fun it => item_of E linode_id it && negb (item_public it)) items)).
Proof.
  induction 1 as [| item items (id & flag & addr & Hid & Hflag & Haddr) _ IH];
    intros table.
  - exists table. split; [reflexivity |]. simpl. rewrite !app_nil_r.
    destruct (lists_of _ table); reflexivity.
  - assert (Hstep : LinodeAPIv3.collect_ips E (item :: items) table
                   = LinodeAPIv3.collect_ips E items
                       (LinodeAPIv3.ip_table_append (LinodeAPIv3.text_type E id)
                          (py_eq flag (VInt 1)) addr table)).
    { simpl. rewrite Hid. simpl. rewrite Hflag. simpl. rewrite Haddr. reflexivity. }
    assert (Hof : item_of E linode_id item
                  = String.eqb (LinodeAPIv3.text_type E linode_id)
                               (LinodeAPIv3.text_type E id)).
    { unfold item_of, item_field. rewrite Hid. apply String.eqb_sym. }
    assert (Hpub : item_public item = py_eq flag (VInt 1)).
    { unfold item_public, item_field. rewrite Hflag. reflexivity. }
    assert (Hfield : item_field "IPADDRESS" item = addr).
    { unfold item_field. rewrite Haddr. reflexivity. }
    destruct (IH (LinodeAPIv3.ip_table_append (LinodeAPIv3.text_type E id)
                    (py_eq flag (VInt 1)) addr table)) as (table' & Hrun & Hlists).
    exists table'. split; [rewrite Hstep; exact Hrun |].
    rewrite Hlists, lists_of_append.
    cbn [List.filter]. rewrite Hof, Hpub.
    destruct (String.eqb (LinodeAPIv3.text_type E linode_id) (LinodeAPIv3.text_type E id));
      [| reflexivity].
    destruct (py_eq flag (VInt 1)); cbn [andb negb map fst snd];
      rewrite ?Hfield, <- ?app_assoc; reflexivity.
Qed.

(** C8, as amended.  In API v4 an address of the instance is put in the
    private list exactly when [ipaddress] says it is private, and in the
    public list otherwise; in API v3 an address is put in the public list
    exactly when the API flags it with [ISPUBLIC == 1], and in the private
    list otherwise, whatever its range.  In both versions the two lists
    together hold every address of the instance exactly once: they are a
    rearrangement of the raw list, and no address is left out or put in
    both.  In API v3 this is so for the two lists returned for an instance
    (a truthy [linode_id]) and for the two lists of every instance in the
    table returned when no instance is named. *)
Theorem address_lists_partition (E : env) :
  (forall (linode_id : value) (st st1 : state) (instance ipv4 : value)
          (addrs : list value),
     LinodeAPIv4._get_linode_by_id E linode_id st = (Ret instance, st1) ->
     py_get instance "ipv4" (VList []) = Ret ipv4 ->
     py_iter ipv4 = Ret addrs ->
     Forall (fun a => exists b, ip_is_private E a = Ret b) addrs ->
     exists public private,
       LinodeAPIv4._get_ips E linode_id st = (Ret (public, private), st1)
       /\ Permutation (public ++ private) addrs
       /\ Forall (fun a => ip_is_private E a = Ret false) public
       /\ Forall (fun a => ip_is_private E a = Ret true) private)
  /\ (forall (linode_id : value) (st st1 : state) (ips data : value)
             (items : list value),
        truthy linode_id = true ->
        LinodeAPIv3._query E "linode" "ip.list" [("LinodeID", linode_id)] st
          = (Ret ips, st1) ->
        py_item ips "DATA" = Ret data ->
        py_iter data = Ret items ->
        Forall well_formed_item items ->
        exists public private,
          LinodeAPIv3._get_ips E linode_id st
          = (Ret (LinodeAPIv3.ips_dict (public, private)), st1)
          /\ Permutation (public ++ private)
               (map (item_field "IPADDRESS")
                    (List.filter (item_of E linode_id) items))
          /\ public = map (item_field "IPADDRESS")
                        (List.filter (fun it => item_of E linode_id it && item_public it)
                           items)
          /\ private = map (item_field "IPADDRESS")
                         (List.filter
                            (fun it => item_of E linode_id it && negb (item_public it))
                            items))
  /\ (forall (linode_id : value) (st st1 : state) (ips data : value)
             (items : list value),
        truthy linode_id = false ->
        LinodeAPIv3._query E "linode" "ip.list" [] st = (Ret ips, st1) ->
        py_item ips "DATA" = Ret data ->
        py_iter data = Ret items ->
        Forall well_formed_item items ->
        exists table,
          LinodeAPIv3._get_ips E linode_id st
          = (Ret (VDict (map (fun entry => (fst entry, LinodeAPIv3.ips_dict (snd entry)))
                           table)), st1)
          /\ forall node_id : value,
               Permutation
                 (fst (lists_of (LinodeAPIv3.text_type E node_id) table)
                  ++ snd (lists_of (LinodeAPIv3.text_type E node_id) table))
                 (map (item_field "IPADDRESS")
                      (List.filter (item_of E node_id) items))
               /\ fst (lists_of (LinodeAPIv3.text_type E node_id) table)
                  = map (item_field "IPADDRESS")
                      (List.filter (fun it => item_of E node_id it && item_public it)
                         items)
               /\ snd (lists_of (LinodeAPIv3.text_type E node_id) table)
                  = map (item_field "IPADDRESS")
                      (List.filter
                         (fun it => item_of E node_id it && negb (item_public it))
                         items)).
Proof.
  split; [| split].
  - intros linode_id st st1 instance ipv4 addrs Hget Hipv4 Hiter Hall.
    exists (List.filter (fun a => negb (is_private_addr E a)) addrs),
           (List.filter (is_private_addr E) addrs).
    split; [| split; [| split]].
    + unfold LinodeAPIv4._get_ips.
      rewrite (bind_Ret _ _ _ _ _ Hget).
      rewrite (bind_lift_Ret _ _ _ _ Hipv4), (bind_lift_Ret _ _ _ _ Hiter).
      unfold lift. rewrite (classify_spec E addrs Hall). reflexivity.
    + apply filter_partition.
    + pose proof (filter_is_private E false addrs Hall) as H.
      erewrite List.filter_ext; [exact H |].
      intros a. simpl. destruct (is_private_addr E a); reflexivity.
    + pose proof (filter_is_private E true addrs Hall) as H.
      erewrite List.filter_ext; [exact H |].
      intros a. simpl. destruct (is_private_addr E a); reflexivity.
  - intros linode_id st st1 ips data items Htruthy Hquery Hdata Hiter Hall.
    destruct (collect_ips_spec E linode_id items Hall []) as (table & Hrun & Hlists).
    eexists _, _. split; [| split; [| split; reflexivity]].
    + unfold LinodeAPIv3._get_ips. rewrite Htruthy.
      rewrite (bind_Ret _ _ _ _ _ Hquery).
      rewrite (bind_lift_Ret _ _ _ _ Hdata), (bind_lift_Ret _ _ _ _ Hiter),
        (bind_lift_Ret _ _ _ _ Hrun).
      unfold lists_of in Hlists. simpl in Hlists.
      destruct (LinodeAPIv3.ip_table_get (LinodeAPIv3.text_type E linode_id) table)
        as [[public private] |]; rewrite Hlists; reflexivity.
    + rewrite <- map_app. apply Permutation_map. apply filter_split.
  - intros linode_id st st1 ips data items Hfalsy Hquery Hdata Hiter Hall.
    destruct (collect_ips_spec E VNone items Hall []) as (table & Hrun & _).
    exists table. split.
    + unfold LinodeAPIv3._get_ips. rewrite Hfalsy.
      rewrite (bind_Ret _ _ _ _ _ Hquery).
      rewrite (bind_lift_Ret _ _ _ _ Hdata), (bind_lift_Ret _ _ _ _ Hiter),
        (bind_lift_Ret _ _ _ _ Hrun).
      reflexivity.
    + intros node_id.
      destruct (collect_ips_spec E node_id items Hall []) as (table' & Hrun' & Hlists).
      rewrite Hrun in Hrun'. injection Hrun' as <-.
      rewrite Hlists. cbn [fst snd lists_of LinodeAPIv3.ip_table_get app].
      split; [| split; reflexivity].
      rewrite <- map_app. apply Permutation_map. apply filter_split.
Qed.

Lemma address_lists_partition_witness :
  (exists public private,
     LinodeAPIv4._get_ips (Stub.env_v4 25600 "running") (VInt 123) Stub.st0
     = (Ret (public, private),
        sent Stub.st0 (EvRest GET (Format "/linode/instances/{}" [Val (VInt 123)]) None))
     /\ Permutation (public ++ private) [VStr "203.0.113.10"; VStr "192.168.133.7"])
  /\ truthy (VInt 1) = true
  /\ (exists st1,
        LinodeAPIv3._get_ips Stub.env_v3 (VInt 1) Stub.st0
        = (Ret (LinodeAPIv3.ips_dict ([VStr "10.0.0.5"], [VStr "192.168.133.7"])), st1))
  /\ truthy VNone = false
  /\ (exists table st1,
        LinodeAPIv3._get_ips Stub.env_v3 VNone Stub.st0
        = (Ret (VDict (map (fun entry => (fst entry, LinodeAPIv3.ips_dict (snd entry)))
                         table)), st1)
        /\ fst (lists_of (LinodeAPIv3.text_type Stub.env_v3 (VInt 1)) table)
           = [VStr "10.0.0.5"]
        /\ snd (lists_of (LinodeAPIv3.text_type Stub.env_v3 (VInt 1)) table)
           = [VStr "192.168.133.7"]).
Proof.
  pose (items := [ VDict [ ("LINODEID", VInt 1); ("ISPUBLIC", VInt 1);
                           ("IPADDRESS", VStr "10.0.0.5") ];
                   VDict [ ("LINODEID", VInt 1); ("ISPUBLIC", VInt 0);
                           ("IPADDRESS", VStr "192.168.133.7") ] ]).
  assert (Hitems : Forall well_formed_item items).
  { repeat constructor; do 3 eexists; repeat split; reflexivity. }
  split; [| split; [reflexivity | split; [| split; [reflexivity |]]]].
  - destruct (proj1 (address_lists_partition (Stub.env_v4 25600 "running"))
                (VInt 123) Stub.st0
                (sent Stub.st0 (EvRest GET (Format "/linode/instances/{}" [Val (VInt 123)]) None))
                (Stub.instance_json "running")
                (VList [VStr "203.0.113.10"; VStr "192.168.133.7"])
                [VStr "203.0.113.10"; VStr "192.168.133.7"]
                eq_refl eq_refl eq_refl)
      as (public & private & Hrun & Hperm & _).
    { repeat constructor; eexists; reflexivity. }
    exists public, private. split; assumption.
  - destruct (proj1 (proj2 (address_lists_partition Stub.env_v3))
                (VInt 1) Stub.st0
                (State [EvRpc [("LinodeID", VInt 1); ("api_action", VStr "linode.ip.list")]] 2)
                (VDict [("ERRORARRAY", VList []); ("DATA", VList items)])
                (VList items) items eq_refl eq_refl eq_refl eq_refl Hitems)
      as (public & private & Hrun & _ & Hpub & Hpriv).
    eexists. rewrite Hrun, Hpub, Hpriv. reflexivity.
  - destruct (proj2 (proj2 (address_lists_partition Stub.env_v3))
                VNone Stub.st0
                (State [EvRpc [("api_action", VStr "linode.ip.list")]] 2)
                (VDict [("ERRORARRAY", VList []); ("DATA", VList items)])
                (VList items) items eq_refl eq_refl eq_refl eq_refl Hitems)
      as (table & Hrun & Hlists).
    exists table. eexists. split; [exact Hrun |].
    destruct (Hlists (VInt 1)) as (_ & Hpub & Hpriv).
    split; [rewrite Hpub | rewrite Hpriv]; reflexivity.
Defined.

(** C8, as stated, fails in both versions.  The v3 provider flags 10.0.0.5,
    an address of 10.0.0.0/8, as public, and [_get_ips] lists it as public.
    The v4 instance has the address 203.0.113.10, which is in none of the
    three ranges; [ipaddress] says it is private (it is in 203.0.113.0/24),
    and [_get_ips] lists it as private. *)
Lemma address_classes_ignore_the_ranges :
  in_private_range "10.0.0.5" = true
  /\ fst (LinodeAPIv3._get_ips Stub.env_v3 (VInt 1) Stub.st0)
     = Ret (LinodeAPIv3.ips_dict ([VStr "10.0.0.5"], [VStr "192.168.133.7"]))
  /\ in_private_range "203.0.113.10" = false
  /\ ip_is_private (Stub.env_v4 25600 "running") (VStr "203.0.113.10") = Ret true
  /\ fst (LinodeAPIv4._get_ips (Stub.env_v4 25600 "running") (VInt 123) Stub.st0)
     = Ret ([], [VStr "203.0.113.10"; VStr "192.168.133.7"]).
Proof. repeat split; reflexivity. Qed.

(** ** C10: get_linode *)

(** C10.  [get_linode] resolves the instance by id whenever a [linode_id]
    is supplied, whatever [name] is; it resolves by name when only a [name]
    is supplied; and when neither is supplied it raises [SaltCloudSystemExit]
    with a message that names 'name' and 'linode_id', the process state being
    unchanged: no remote call is made.  This holds for every implementation
    of the driver interface. *)
Theorem get_linode_dispatch `{LinodeAPI} (kwargs : gmap string value) :
  (forall linode_id : value,
     kwargs !! "linode_id" = Some linode_id -> linode_id <> VNone ->
     get_linode kwargs = _get_linode_by_id linode_id)
  /\ (forall name : value,
        kwarg kwargs "linode_id" = VNone ->
        kwargs !! "name" = Some name -> name <> VNone ->
        get_linode kwargs = _get_linode_by_name name)
  /\ (kwarg kwargs "linode_id" = VNone -> kwarg kwargs "name" = VNone ->
      forall st : state, get_linode kwargs st = (Raise get_linode_error, st))
  /\ exn_class_of get_linode_error = SaltCloudSystemExit
  /\ names get_linode_error (VStr "'name'") = true
  /\ names get_linode_error (VStr "'linode_id'") = true.
Proof.
  unfold get_linode, kwarg.
  split; [| split; [| split; [| repeat split; reflexivity]]].
  - intros linode_id -> Hsome.
    destruct linode_id; try reflexivity. contradiction.
  - intros name Hid -> Hsome. rewrite Hid.
    destruct name; try reflexivity. contradiction.
  - intros -> -> st. reflexivity.
Qed.

Lemma get_linode_dispatch_witness :
  @get_linode (LinodeAPIv4.api (Stub.env_v4 25600 "running"))
    (<["name" := VStr "other"]> {["linode_id" := VInt 123]})
  = LinodeAPIv4._get_linode_by_id (Stub.env_v4 25600 "running") (VInt 123)
  /\ @get_linode (LinodeAPIv4.api (Stub.env_v4 25600 "running"))
       {["name" := VStr "web-01"]}
     = LinodeAPIv4._get_linode_by_name (Stub.env_v4 25600 "running") (VStr "web-01")
  /\ @get_linode (LinodeAPIv3.api Stub.env_v3) ∅ Stub.st0
     = (Raise get_linode_error, Stub.st0).
Proof.
  split; [| split].
  - apply (proj1 (@get_linode_dispatch (LinodeAPIv4.api (Stub.env_v4 25600 "running"))
                    (<["name" := VStr "other"]> {["linode_id" := VInt 123]}))
             (VInt 123)); [reflexivity | discriminate].
  - destruct (@get_linode_dispatch (LinodeAPIv4.api (Stub.env_v4 25600 "running"))
                {["name" := VStr "web-01"]}) as (_ & H & _).
    apply (H (VStr "web-01")); [reflexivity | reflexivity | discriminate].
  - destruct (@get_linode_dispatch (LinodeAPIv3.api Stub.env_v3) ∅)
      as (_ & _ & H & _).
    apply H; reflexivity.
Defined.

(** * Further properties of the driver *)

(** ** Names that [_validate_name] accepts *)

Lemma alnum_label_char (c : ascii) : alnum c = true -> label_char c = true.
Proof.
  unfold alnum, label_char.
  destruct (in_range "a" "z" c), (in_range "A" "Z" c), (in_range "0" "9" c);
    simpl; intros H; try discriminate; reflexivity.
Qed.

Lemma all_chars_app (p : ascii -> bool) (s t : string) :
  all_chars p (s +:+ t) = all_chars p s && all_chars p t.
Proof.
  induction s as [| c s IH]; norm_append; simpl; [reflexivity |].
  rewrite IH, andb_assoc. reflexivity.
Qed.

Lemma last_char_snoc (s : string) (c : ascii) :
  last_char (s +:+ String c "") = Some c.
Proof.
  induction s as [| a s IH]; norm_append; [reflexivity |].
  simpl. rewrite IH. destruct s; reflexivity.
Qed.

Lemma last_char_inv (s : string) (c : ascii) :
  last_char s = Some c -> exists m, s = m +:+ String c "".
Proof.
  induction s as [| a s IH]; [discriminate |].
  destruct s as [| b s'].
  - intros [= ->]. exists "". reflexivity.
  - intros H. destruct (IH H) as [m Hm]. exists (String a m).
    norm_append. rewrite <- Hm. reflexivity.
Qed.

Lemma lang_star_class (p : ascii -> bool) (s : string) :
  lang (Star (Class p)) s <-> all_chars p s = true.
Proof.
  split.
  - intros H. remember (Star (Class p)) as r eqn:Hr.
    induction H; try discriminate; injection Hr as ->.
    + reflexivity.
    + inversion H; subst. norm_append. simpl.
      match goal with Hp : p _ = true |- _ => rewrite Hp end.
      apply IHlang2. reflexivity.
  - induction s as [| c s IH]; simpl; intros H.
    + constructor.
    + apply andb_true_iff in H as [Hc Hs].
      change (String c s) with (String c "" +:+ s).
      constructor; [constructor; assumption | auto].
Qed.

Lemma label_regex_shape (s : string) :
  lang label_regex s <-> label_shape s = true.
Proof.
  unfold label_regex. split.
  - intros H. inversion H as [| | r1 r2 s1 s2 H1 H2 | | | |]; subst.
    inversion H1; subst.
    inversion H2 as [| | r1 r2 m l Hm Hl | | | |]; subst.
    inversion Hl; subst.
    apply lang_star_class in Hm.
    norm_append. rewrite ?append_nil_l in *.
    assert (Hrest : all_chars label_char (m +:+ String c0 "") = true).
    { rewrite all_chars_app, Hm. simpl.
      rewrite alnum_label_char by assumption. reflexivity. }
    assert (Hlast : last_char (m +:+ String c0 "") = Some c0)
      by apply last_char_snoc.
    destruct (m +:+ String c0 "") as [| a rest] eqn:Heq.
    + destruct m; discriminate.
    + unfold label_shape. rewrite Hrest, Hlast.
      repeat match goal with Hp : alnum _ = true |- _ => rewrite Hp; clear Hp end.
      reflexivity.
  - unfold label_shape. destruct s as [| first [| a rest]]; try discriminate.
    intros H. apply andb_true_iff in H as [H Hlast].
    apply andb_true_iff in H as [Hfirst Hall].
    destruct (last_char (String a rest)) as [c |] eqn:Hc; [| discriminate].
    destruct (last_char_inv _ _ Hc) as [m Hm].
    rewrite Hm in *. rewrite all_chars_app in Hall.
    apply andb_true_iff in Hall as [Hmid _].
    change (String first (m +:+ String c ""))
      with (String first "" +:+ (m +:+ String c "")).
    constructor; [constructor; assumption |].
    constructor; [apply lang_star_class; assumption | constructor; assumption].
Qed.

(** X1.  [_validate_name] accepts exactly the names of 3 to 48 characters
    that consist of letters, digits, dashes and underscores and begin and end
    with a letter or digit, and such names followed by one newline (whose
    length, newline included, is 3 to 48). *)
Theorem validate_name_by_shape (name : string) :
  _validate_name name
  = (3 <=? String.length name)%nat && (String.length name <=? 48)%nat
    && (label_shape name
        || match strip_final_newline name with
           | Some t => label_shape t
           | None => false
           end).
Proof.
  apply Bool.eq_iff_eq_true.
  rewrite validate_name_spec, !andb_true_iff, orb_true_iff.
  rewrite Nat.leb_le, Nat.leb_le.
  unfold re_matches. rewrite label_regex_shape.
  split; intros [Hlen Hshape]; (split; [lia |]).
  - destruct Hshape as [H | (t & Ht & H)]; [left; assumption | right].
    apply strip_final_newline_spec in Ht. rewrite Ht.
    apply label_regex_shape. assumption.
  - destruct Hshape as [H | H]; [left; assumption | right].
    destruct (strip_final_newline name) as [t |] eqn:Ht; [| discriminate].
    exists t. split; [apply strip_final_newline_spec; assumption |].
    apply label_regex_shape. assumption.
Qed.

(** ** The loop of [_wait_for_entity_status] when the status is reached *)

Lemma wait_loop_reaches (getter : M value) (status : value)
    (entity_name identifier : text) (pause times curr : Z) :
  0 <= pause -> curr <= times ->
  forall (n : nat) (st : state) (result : value) (st' : state),
    reaches getter status pause n st result st' ->
    forall fuel : nat, (n < fuel)%nat ->
      LinodeAPIv4.wait_loop fuel getter status entity_name identifier
        pause times curr st = (Ret result, st').
Proof.
  intros Hpause Hcurr n st result st' H.
  induction H as [st result st' current Hg Hget Heq
                 | n st observed st1 current result st' Hg Hget Hne _ IH];
    intros fuel Hfuel; (destruct fuel as [| fuel]; [lia |]); simpl.
  - rewrite (bind_Ret _ _ _ _ _ Hg), (bind_lift_Ret _ _ _ _ Hget), Heq.
    reflexivity.
  - rewrite (bind_Ret _ _ _ _ _ Hg), (bind_lift_Ret _ _ _ _ Hget), Hne.
    replace (curr <=? times) with true by (symmetry; apply Z.leb_le; lia).
    replace (pause <? 0) with false by (symmetry; apply Z.ltb_ge; lia).
    unfold bind at 1, sleep, emit. apply IH. lia.
Qed.

(** X2.  When the poll interval is positive and not longer than the
    time-out, [_wait_for_entity_status] returns the first observation that
    has the awaited status, after as many pauses of one poll interval as
    there were earlier observations; the number of earlier observations is
    not limited by the time-out. *)
Theorem wait_for_entity_status_returns_first_hit (E : env) (getter : M value)
    (status : value) (entity_name identifier : text) (timeout : Z)
    (n fuel : nat) (st st' : state) (result : value) :
  reaches getter status (poll_interval E) n st result st' ->
  0 < poll_interval E ->
  poll_interval E <= timeout * 1000 ->
  (n < fuel)%nat ->
  LinodeAPIv4._wait_for_entity_status E fuel getter status entity_name
    identifier timeout st = (Ret result, st').
Proof.
  intros Hreach Hpos Hle Hfuel.
  unfold LinodeAPIv4._wait_for_entity_status, LinodeAPIv4._get_poll_interval.
  replace (poll_interval E =? 0) with false by (symmetry; apply Z.eqb_neq; lia).
  cbv zeta.
  eapply wait_loop_reaches; [lia | | eassumption | assumption].
  apply Z.div_le_lower_bound; lia.
Qed.

Lemma wait_for_entity_status_returns_first_hit_witness :
  exists st',
    reaches Cases.probe (VStr "running") 500 2 Stub.st0
      (Stub.instance_json "running") st'
    /\ 0 < poll_interval Cases.env_slow
    /\ poll_interval Cases.env_slow <= 120 * 1000
    /\ (2 < 3)%nat
    /\ LinodeAPIv4._wait_for_entity_status Cases.env_slow 3 Cases.probe
         (VStr "running") (Lit "linode") (Val (VInt 123)) 120 Stub.st0
       = (Ret (Stub.instance_json "running"), st').
Proof.
  assert (Hreach : exists st',
             reaches Cases.probe (VStr "running") 500 2 Stub.st0
               (Stub.instance_json "running") st').
  { eexists.
    eapply reaches_later; [reflexivity | reflexivity | reflexivity |].
    eapply reaches_later; [reflexivity | reflexivity | reflexivity |].
    eapply reaches_now; reflexivity. }
  destruct Hreach as [st' Hreach].
  assert (Hpos : 0 < poll_interval Cases.env_slow) by reflexivity.
  assert (Hle : poll_interval Cases.env_slow <= 120 * 1000) by discriminate.
  assert (Hfuel : (2 < 3)%nat) by lia.
  exists st'. repeat (split; [assumption |]).
  exact (wait_for_entity_status_returns_first_hit Cases.env_slow Cases.probe
           (VStr "running") (Lit "linode") (Val (VInt 123)) 120 2 3
           Stub.st0 st' (Stub.instance_json "running") Hreach Hpos Hle Hfuel).
Defined.

(** ** Listings *)

Lemma py_eq_canon (a b : value) :
  scalar a = true -> scalar b = true ->
  (py_eq a b = true <-> canon a = canon b).
Proof.
  destruct a as [| x | x | x | | | |], b as [| y | y | y | | | |];
    simpl; intros Ha Hb; try discriminate;
    try (split; intros H; discriminate H);
    try (split; reflexivity).
  - destruct x, y; simpl; split; intros H; try reflexivity; discriminate.
  - rewrite Z.eqb_eq. split; [intros <- | intros [= <-]]; reflexivity.
  - rewrite Z.eqb_eq. split; [intros -> | intros [= ->]]; reflexivity.
  - rewrite Z.eqb_eq. split; [intros <- | intros [= <-]]; reflexivity.
  - rewrite String.eqb_eq. split; [intros <- | intros [= <-]]; reflexivity.
Qed.

Lemma py_eq_trans_l (a b c : value) :
  scalar a = true -> scalar b = true -> scalar c = true ->
  py_eq a b = true -> py_eq a c = py_eq b c.
Proof.
  intros Ha Hb Hc Hab. apply py_eq_canon in Hab; try assumption.
  apply Bool.eq_iff_eq_true. rewrite !py_eq_canon by assumption.
  rewrite Hab. reflexivity.
Qed.

Lemma scalar_hashable (k : value) : scalar k = true -> hashable k = true.
Proof. destruct k; simpl; intros H; try discriminate; reflexivity. Qed.

Lemma pydict_set_scalar_keys (k v : value) (d : pydict) :
  scalar k = true -> scalar_keys d -> scalar_keys (pydict_set k v d).
Proof.
  intros Hk. induction 1 as [| [k' v'] d Hk' Hd IH]; simpl.
  - repeat constructor. assumption.
  - destruct (py_eq k' k); constructor; auto.
Qed.

Lemma pydict_get_set (k k' v : value) (d : pydict) :
  scalar k = true -> scalar k' = true -> scalar_keys d ->
  pydict_get k (pydict_set k' v d)
  = if py_eq k' k then Some v else pydict_get k d.
Proof.
  intros Hk Hk'. induction 1 as [| [k0 v0] d Hk0 _ IH]; simpl.
  - reflexivity.
  - simpl in Hk0. destruct (py_eq k0 k') eqn:H0; simpl.
    + rewrite (py_eq_trans_l k0 k' k) by assumption.
      destruct (py_eq k' k); reflexivity.
    + rewrite IH. destruct (py_eq k0 k) eqn:H0k; [| reflexivity].
      destruct (py_eq k' k) eqn:Hk'k; [| reflexivity].
      exfalso.
      apply py_eq_canon in H0k, Hk'k; try assumption.
      assert (H : py_eq k0 k' = true)
        by (apply py_eq_canon; [assumption | assumption | congruence]).
      congruence.
Qed.

Lemma index_by_spec (key : string) (items : list value) :
  keyed_by key items ->
  forall acc : pydict, scalar_keys acc ->
  exists d,
    index_by key items acc = Ret d
    /\ scalar_keys d
    /\ forall k, scalar k = true ->
         pydict_get k d
         = match last_with key k items with
           | Some found => Some found
           | None => pydict_get k acc
           end.
Proof.
  induction 1 as [| item items (k0 & Hkey & Hscalar) _ IH]; intros acc Hacc.
  - exists acc. split; [reflexivity | split; [assumption | reflexivity]].
  - destruct (IH (pydict_set k0 item acc)) as (d & Hrun & Hkeys & Hget).
    { apply pydict_set_scalar_keys; assumption. }
    exists d. split; [| split; [assumption |]].
    + simpl. rewrite Hkey. simpl. unfold pydict_store.
      rewrite (scalar_hashable k0 Hscalar). exact Hrun.
    + intros k Hk. rewrite (Hget k Hk). simpl.
      destruct (last_with key k items); [reflexivity |].
      rewrite pydict_get_set by assumption.
      unfold item_field. rewrite Hkey.
      destruct (py_eq k0 k); reflexivity.
Qed.

Lemma listing_spec (query : M value) (data_key key : string)
    (st st1 : state) (response data : value) (items : list value) :
  query st = (Ret response, st1) ->
  py_item response data_key = Ret data ->
  py_iter data = Ret items ->
  keyed_by key items ->
  exists d,
    (response <- query ;;
     data <- lift (py_item response data_key) ;;
     items <- lift (py_iter data) ;;
     lift (index_by key items [])) st = (Ret d, st1)
    /\ forall k, scalar k = true -> pydict_get k d = last_with key k items.
Proof.
  intros Hq Hdata Hiter Hkeyed.
  destruct (index_by_spec key items Hkeyed []) as (d & Hrun & _ & Hget);
    [constructor |].
  exists d. split.
  - rewrite (bind_Ret _ _ _ _ _ Hq), (bind_lift_Ret _ _ _ _ Hdata),
      (bind_lift_Ret _ _ _ _ Hiter).
    unfold lift. rewrite Hrun. reflexivity.
  - intros k Hk. rewrite (Hget k Hk).
    destruct (last_with key k items); reflexivity.
Qed.

(** X3.  The listings of images, locations and sizes send one query and
    index its entries by their id (API v4) or by their label or location
    (API v3): every key is found with the last entry that carries it, and
    nothing else is in the listing. *)
Theorem listings_index_their_entries (E : env) (st st1 : state)
    (response data : value) (items : list value) :
  py_iter data = Ret items ->
  (LinodeAPIv4._query E (Lit "/images") GET None st = (Ret response, st1) ->
   py_item response "data" = Ret data -> keyed_by "id" items ->
   exists d, LinodeAPIv4.avail_images E st = (Ret d, st1)
     /\ forall k, scalar k = true -> pydict_get k d = last_with "id" k items)
  /\ (LinodeAPIv4._query E (Lit "/regions") GET None st = (Ret response, st1) ->
      py_item response "data" = Ret data -> keyed_by "id" items ->
      exists d, LinodeAPIv4.avail_locations E st = (Ret d, st1)
        /\ forall k, scalar k = true -> pydict_get k d = last_with "id" k items)
  /\ (LinodeAPIv4._query E (Lit "/linode/types") GET None st = (Ret response, st1) ->
      py_item response "data" = Ret data -> keyed_by "id" items ->
      exists d, LinodeAPIv4.avail_sizes E st = (Ret d, st1)
        /\ forall k, scalar k = true -> pydict_get k d = last_with "id" k items)
  /\ (LinodeAPIv3._query E "avail" "distributions" [] st = (Ret response, st1) ->
      py_item response "DATA" = Ret data -> keyed_by "LABEL" items ->
      exists d, LinodeAPIv3.avail_images E st = (Ret d, st1)
        /\ forall k, scalar k = true -> pydict_get k d = last_with "LABEL" k items)
  /\ (LinodeAPIv3._query E "avail" "datacenters" [] st = (Ret response, st1) ->
      py_item response "DATA" = Ret data -> keyed_by "LOCATION" items ->
      exists d, LinodeAPIv3.avail_locations E st = (Ret d, st1)
        /\ forall k, scalar k = true -> pydict_get k d = last_with "LOCATION" k items)
  /\ (LinodeAPIv3._query E "avail" "LinodePlans" [] st = (Ret response, st1) ->
      py_item response "DATA" = Ret data -> keyed_by "LABEL" items ->
      exists d, LinodeAPIv3.avail_sizes E st = (Ret d, st1)
        /\ forall k, scalar k = true -> pydict_get k d = last_with "LABEL" k items).
Proof.
  intros Hiter.
  repeat split; intros Hq Hdata Hkeyed;
    eapply listing_spec; eassumption.
Qed.

Lemma listings_index_their_entries_witness :
  exists d,
    py_iter (VList Cases.images) = Ret Cases.images
    /\ keyed_by "id" Cases.images
    /\ keyed_by "LABEL" Cases.plans
    /\ LinodeAPIv4.avail_images (Cases.env_catalog 1 0) Stub.st0
       = (Ret d, sent Stub.st0 (EvRest GET (Lit "/images") None))
    /\ pydict_get (VStr "linode/centos7") d
       = Some (VDict [("id", VStr "linode/centos7"); ("label", VStr "CentOS 7 (new)")])
    /\ pydict_get (VStr "linode/ubuntu") d = None
    /\ exists d3 st3,
         LinodeAPIv3.avail_sizes (Cases.env_catalog 1 0) Stub.st0 = (Ret d3, st3)
         /\ pydict_get (VStr "Linode 2GB") d3
            = Some (VDict [("LABEL", VStr "Linode 2GB"); ("PLANID", VInt 2)]).
Proof.
  assert (Hiter : py_iter (VList Cases.images) = Ret Cases.images) by reflexivity.
  assert (Hkeyed : keyed_by "id" Cases.images).
  { repeat constructor; eexists; split; reflexivity. }
  assert (Hplans : keyed_by "LABEL" Cases.plans).
  { repeat constructor; eexists; split; reflexivity. }
  destruct (listings_index_their_entries (Cases.env_catalog 1 0) Stub.st0
              (sent Stub.st0 (EvRest GET (Lit "/images") None))
              (VDict [("data", VList Cases.images)]) (VList Cases.images)
              Cases.images Hiter) as (Himages & _).
  destruct (Himages eq_refl eq_refl Hkeyed) as (d & Hrun & Hget).
  exists d. repeat (split; [assumption |]).
  split; [rewrite Hget by reflexivity; reflexivity |].
  split; [rewrite Hget by reflexivity; reflexivity |].
  destruct (listings_index_their_entries (Cases.env_catalog 1 0) Stub.st0
              (snd (LinodeAPIv3._query (Cases.env_catalog 1 0) "avail" "LinodePlans" []
                      Stub.st0))
              (VDict [("ERRORARRAY", VList []); ("DATA", VList Cases.plans)])
              (VList Cases.plans) Cases.plans eq_refl)
    as (_ & _ & _ & _ & _ & Hsizes).
  destruct (Hsizes eq_refl eq_refl Hplans) as (d3 & Hrun3 & Hget3).
  eexists d3, _. split; [exact Hrun3 |].
  rewrite Hget3 by reflexivity. reflexivity.
Defined.

(** ** Looking an instance up by its name *)

Lemma find_label_spec (instances : list value) (name : value) :
  Forall (fun i => exists l, py_item i "label" = Ret l) instances ->
  LinodeAPIv4.find_label instances name
  = Ret (List.find (fun i => py_eq (item_field "label" i) name) instances).
Proof.
  induction 1 as [| i instances [l Hl] _ IH]; simpl; [reflexivity |].
  unfold item_field. rewrite Hl. simpl.
  destruct (py_eq l name); [reflexivity | exact IH].
Qed.

Lemma find_LABEL_spec (nodes : list value) (name : value) :
  Forall (fun i => exists l, py_item i "LABEL" = Ret l) nodes ->
  LinodeAPIv3.find_LABEL nodes name
  = Ret (List.find (fun i => py_eq name (item_field "LABEL" i)) nodes).
Proof.
  induction 1 as [| i nodes [l Hl] _ IH]; simpl; [reflexivity |].
  unfold item_field. rewrite Hl. simpl.
  destruct (py_eq name l); [reflexivity | exact IH].
Qed.

(** X4.  [_get_linode_by_name] sends one listing query and returns the
    first instance of the listing whose label equals the name; when no
    instance has that label it raises [SaltCloudNotFound] with the name in
    its message.  This holds in both API versions. *)
Theorem get_linode_by_name_takes_first_match (E : env) (name : value)
    (st st1 : state) (result data : value) (instances : list value) :
  py_iter data = Ret instances ->
  (LinodeAPIv4._query E (Lit "/linode/instances") GET None st = (Ret result, st1) ->
   py_get result "data" (VList []) = Ret data ->
   Forall (fun i => exists l, py_item i "label" = Ret l) instances ->
   LinodeAPIv4._get_linode_by_name E name st
   = match List.find (fun i => py_eq (item_field "label" i) name) instances with
     | Some instance => (Ret instance, st1)
     | None =>
         (Raise (Exn SaltCloudNotFound
                   [Format "The specified name, {0}, could not be found." [Val name]]),
          st1)
     end)
  /\ (LinodeAPIv3._query E "linode" "list" [] st = (Ret result, st1) ->
      py_item result "DATA" = Ret data ->
      Forall (fun i => exists l, py_item i "LABEL" = Ret l) instances ->
      LinodeAPIv3._get_linode_by_name E name st
      = match List.find (fun i => py_eq name (item_field "LABEL" i)) instances with
        | Some node => (Ret node, st1)
        | None =>
            (Raise (Exn SaltCloudNotFound
                      [Format "The specified name, {0}, could not be found." [Val name]]),
             st1)
        end).
Proof.
  intros Hiter. split; intros Hq Hdata Hall.
  - unfold LinodeAPIv4._get_linode_by_name.
    rewrite (bind_Ret _ _ _ _ _ Hq), (bind_lift_Ret _ _ _ _ Hdata),
      (bind_lift_Ret _ _ _ _ Hiter),
      (bind_lift_Ret _ _ _ _ (find_label_spec instances name Hall)).
    destruct (List.find _ instances); reflexivity.
  - unfold LinodeAPIv3._get_linode_by_name.
    rewrite (bind_Ret _ _ _ _ _ Hq), (bind_lift_Ret _ _ _ _ Hdata),
      (bind_lift_Ret _ _ _ _ Hiter),
      (bind_lift_Ret _ _ _ _ (find_LABEL_spec instances name Hall)).
    destruct (List.find _ instances); reflexivity.
Qed.

Lemma get_linode_by_name_takes_first_match_witness :
  py_iter (VList [Stub.instance_json "running"]) = Ret [Stub.instance_json "running"]
  /\ Forall (fun i => exists l, py_item i "label" = Ret l) [Stub.instance_json "running"]
  /\ LinodeAPIv4._get_linode_by_name (Stub.env_v4 25600 "running") (VStr "web-01") Stub.st0
     = (Ret (Stub.instance_json "running"),
        sent Stub.st0 (EvRest GET (Lit "/linode/instances") None))
  /\ LinodeAPIv4._get_linode_by_name (Stub.env_v4 25600 "running") (VStr "web-02") Stub.st0
     = (Raise (Exn SaltCloudNotFound
                 [Format "The specified name, {0}, could not be found." [Val (VStr "web-02")]]),
        sent Stub.st0 (EvRest GET (Lit "/linode/instances") None))
  /\ Forall (fun i => exists l, py_item i "LABEL" = Ret l) [Cases.node 1]
  /\ fst (LinodeAPIv3._get_linode_by_name (Cases.env_catalog 1 0) (VStr "web-01") Stub.st0)
     = Ret (Cases.node 1).
Proof.
  assert (Hiter : py_iter (VList [Stub.instance_json "running"])
                  = Ret [Stub.instance_json "running"]) by reflexivity.
  assert (Hall : Forall (fun i => exists l, py_item i "label" = Ret l)
                   [Stub.instance_json "running"]).
  { repeat constructor. eexists. reflexivity. }
  assert (Hall3 : Forall (fun i => exists l, py_item i "LABEL" = Ret l) [Cases.node 1]).
  { repeat constructor. eexists. reflexivity. }
  split; [exact Hiter |]. split; [exact Hall |].
  split.
  { rewrite (proj1 (get_linode_by_name_takes_first_match (Stub.env_v4 25600 "running")
                      (VStr "web-01") Stub.st0 _ _ _ _ Hiter) eq_refl eq_refl Hall).
    reflexivity. }
  split.
  { rewrite (proj1 (get_linode_by_name_takes_first_match (Stub.env_v4 25600 "running")
                      (VStr "web-02") Stub.st0 _ _ _ _ Hiter) eq_refl eq_refl Hall).
    reflexivity. }
  split; [exact Hall3 |].
  rewrite (proj2 (get_linode_by_name_takes_first_match (Cases.env_catalog 1 0)
                    (VStr "web-01") Stub.st0
                    (snd (LinodeAPIv3._query (Cases.env_catalog 1 0) "linode" "list" []
                            Stub.st0))
                    (VDict [("ERRORARRAY", VList []); ("DATA", VList [Cases.node 1])])
                    (VList [Cases.node 1]) [Cases.node 1] eq_refl)
             eq_refl eq_refl Hall3).
  reflexivity.
Defined.

(** ** Parameters are checked before anything is sent *)

(** X5.  [clone], [create_config] and [get_config_id] of both API versions,
    and [boot] of API v3, raise [SaltCloudSystemExit] when one of their
    required parameters is missing or [None], and leave the process state as
    it was: nothing has been sent. *)
Theorem missing_parameters_raise_before_any_call (E : env)
    (kwargs : gmap string value) (name : value) (st : state) :
  (existsb is_None [ kwarg kwargs "linode_id"; kwarg kwargs "location";
                     kwarg kwargs "size" ] = true ->
   exists msg,
     LinodeAPIv4.clone E kwargs st = (Raise (Exn SaltCloudSystemExit [Lit msg]), st))
  /\ (existsb is_None [ kwarg kwargs "name"; kwarg kwargs "linode_id";
                        kwarg kwargs "root_disk_id"; kwarg kwargs "swap_disk_id" ]
      = true ->
      exists msg,
        LinodeAPIv4.create_config E kwargs st
        = (Raise (Exn SaltCloudSystemExit [Lit msg]), st))
  /\ (kwarg kwargs "name" = VNone -> kwarg kwargs "linode_id" = VNone ->
      LinodeAPIv4.get_config_id E kwargs st
      = (Raise LinodeAPIv4.get_config_id_requires, st))
  /\ (existsb is_None [ kwarg kwargs "linode_id";
                        LinodeAPIv3.kwarg_or kwargs "datacenter_id" "location";
                        LinodeAPIv3.kwarg_or kwargs "plan_id" "size" ] = true ->
      LinodeAPIv3.clone E kwargs st = (Raise LinodeAPIv3.clone_requires, st))
  /\ (existsb is_None [ kwarg kwargs "name"; kwarg kwargs "linode_id";
                        kwarg kwargs "root_disk_id"; kwarg kwargs "swap_disk_id" ]
      = true ->
      LinodeAPIv3.create_config E kwargs st
      = (Raise LinodeAPIv3.create_config_requires, st))
  /\ (kwarg kwargs "name" = VNone -> kwarg kwargs "linode_id" = VNone ->
      LinodeAPIv3.get_config_id E kwargs st
      = (Raise LinodeAPIv3.get_config_id_requires, st))
  /\ (kwarg kwargs "config_id" = VNone ->
      LinodeAPIv3.boot E name kwargs st
      = (Raise LinodeAPIv3.boot_requires_config_id, st)).
Proof.
  repeat split.
  - intros H. unfold LinodeAPIv4.clone. rewrite H. eexists. reflexivity.
  - intros H. unfold LinodeAPIv4.create_config.
    destruct (negb (truthy (kwarg kwargs "name"))
              && negb (truthy (kwarg kwargs "linode_id")));
      [eexists; reflexivity |].
    cbv zeta. rewrite H. eexists. reflexivity.
  - intros Hn Hi. unfold LinodeAPIv4.get_config_id. rewrite Hn, Hi. reflexivity.
  - intros H. unfold LinodeAPIv3.clone. cbv zeta. rewrite H. reflexivity.
  - intros H. unfold LinodeAPIv3.create_config. cbv zeta. rewrite H. reflexivity.
  - intros Hn Hi. unfold LinodeAPIv3.get_config_id. rewrite Hn, Hi. reflexivity.
  - intros H. unfold LinodeAPIv3.boot. rewrite H. reflexivity.
Qed.

Lemma missing_parameters_raise_before_any_call_witness :
  existsb is_None [ kwarg ({["linode_id" := VInt 123]} : gmap string value) "linode_id";
                    kwarg ({["linode_id" := VInt 123]} : gmap string value) "location";
                    kwarg ({["linode_id" := VInt 123]} : gmap string value) "size" ]
  = true
  /\ (exists msg,
        LinodeAPIv4.clone (Stub.env_v4 25600 "running") {["linode_id" := VInt 123]}
          Stub.st0 = (Raise (Exn SaltCloudSystemExit [Lit msg]), Stub.st0))
  /\ LinodeAPIv3.create_config Stub.env_v3 {["linode_id" := VInt 123]} Stub.st0
     = (Raise LinodeAPIv3.create_config_requires, Stub.st0)
  /\ LinodeAPIv3.boot Stub.env_v3 (VStr "web-01") {["linode_id" := VInt 123]} Stub.st0
     = (Raise LinodeAPIv3.boot_requires_config_id, Stub.st0)
  /\ LinodeAPIv4.get_config_id (Stub.env_v4 25600 "running") ∅ Stub.st0
     = (Raise LinodeAPIv4.get_config_id_requires, Stub.st0).
Proof.
  assert (H : existsb is_None
                [ kwarg ({["linode_id" := VInt 123]} : gmap string value) "linode_id";
                  kwarg ({["linode_id" := VInt 123]} : gmap string value) "location";
                  kwarg ({["linode_id" := VInt 123]} : gmap string value) "size" ]
              = true) by reflexivity.
  split; [exact H |].
  split.
  { exact (proj1 (missing_parameters_raise_before_any_call
                    (Stub.env_v4 25600 "running") {["linode_id" := VInt 123]}
                    VNone Stub.st0) H). }
  split.
  { destruct (missing_parameters_raise_before_any_call Stub.env_v3
                {["linode_id" := VInt 123]} VNone Stub.st0)
      as (_ & _ & _ & _ & Hc & _).
    apply Hc. reflexivity. }
  split.
  { destruct (missing_parameters_raise_before_any_call Stub.env_v3
                {["linode_id" := VInt 123]} (VStr "web-01") Stub.st0)
      as (_ & _ & _ & _ & _ & _ & Hb).
    apply Hb. reflexivity. }
  destruct (missing_parameters_raise_before_any_call (Stub.env_v4 25600 "running")
              ∅ VNone Stub.st0) as (_ & _ & Hg & _).
  apply Hg; reflexivity.
Defined.

(** ** [boot] and [create] of API v4 *)

Lemma posted_sent_GET (st : state) (path : text) (data : option value) :
  posted (trace (sent st (EvRest GET path data))) = posted (trace st).
Proof.
  unfold sent. simpl. rewrite posted_app. simpl.
  destruct path as [[] |]; apply app_nil_r.
Qed.

Lemma v4_get_linode_by_id_state (E : env) (linode_id : value) (st st' : state)
    (r : outcome value) :
  LinodeAPIv4._get_linode_by_id E linode_id st = (r, st') ->
  st' = sent st (EvRest GET (Format "/linode/instances/{}" [Val linode_id]) None).
Proof. apply v4_query_state. Qed.

Lemma v4_get_linode_posted (E : env) (kwargs : gmap string value)
    (st st' : state) (r : outcome value) :
  @get_linode (LinodeAPIv4.api E) kwargs st = (r, st') ->
  posted (trace st') = posted (trace st).
Proof.
  unfold get_linode. simpl.
  destruct (is_None (kwarg kwargs "linode_id")); simpl.
  - destruct (is_None (kwarg kwargs "name")); simpl.
    + intros [= _ <-]. reflexivity.
    + intros H. apply v4_get_linode_by_name_state in H. subst.
      apply posted_sent_GET.
  - intros H. apply v4_get_linode_by_id_state in H. subst.
    apply posted_sent_GET.
Qed.

Lemma v4_boot_raises_once_found (E : env) (fuel : nat) (name : value)
    (kwargs : gmap string value) (st : state) (instance : value) (st1 : state) :
  @get_linode (LinodeAPIv4.api E)
    (<["name" := name]> {["linode_id" := kwarg kwargs "linode_id"]}) st
  = (Ret instance, st1) ->
  exists e, LinodeAPIv4.boot E fuel name kwargs st = (Raise e, st1).
Proof.
  intros Hget. unfold LinodeAPIv4.boot.
  rewrite (bind_Ret _ _ _ _ _ Hget). cbv zeta.
  unfold bind, lift, ret, raise.
  destruct (py_get instance "id" VNone) as [id | e |] eqn:Hid;
    [| eauto | destruct instance; discriminate].
  destruct (py_get instance "label" VNone) as [label | e |] eqn:Hlabel;
    [| eauto | destruct instance; discriminate].
  destruct (truthy _); [| eauto].
  destruct instance; try discriminate Hid. simpl.
  destruct (assoc "status" _) as [status |]; eauto.
  destruct (py_eq status (VStr "running")); eauto.
Qed.

Lemma v4_boot_no_result (E : env) (fuel : nat) (name : value)
    (kwargs : gmap string value) (st st' : state) (v : value) :
  LinodeAPIv4.boot E fuel name kwargs st <> (Ret v, st').
Proof.
  destruct (@get_linode (LinodeAPIv4.api E)
              (<["name" := name]> {["linode_id" := kwarg kwargs "linode_id"]}) st)
    as [[instance | e |] st1] eqn:Hget.
  - destruct (v4_boot_raises_once_found E fuel name kwargs st _ _ Hget) as [e He].
    rewrite He. discriminate.
  - unfold LinodeAPIv4.boot. rewrite (bind_Raise _ _ _ _ _ Hget). discriminate.
  - unfold LinodeAPIv4.boot. rewrite (bind_OutOfFuel _ _ _ _ Hget). discriminate.
Qed.

(** X6.  [boot] of API v4 never boots.  Whatever its arguments and whatever
    the provider answers, it returns no result and sends no POST request;
    once the instance has been looked up it raises, and nothing more is
    sent: either the instance is found running and the call is refused, or
    the request is built with a keyword argument that [_query] does not
    have. *)
Theorem v4_boot_never_boots (E : env) (fuel : nat) (name : value)
    (kwargs : gmap string value) (st : state) :
  (forall v, fst (LinodeAPIv4.boot E fuel name kwargs st) <> Ret v)
  /\ posted (trace (snd (LinodeAPIv4.boot E fuel name kwargs st)))
     = posted (trace st)
  /\ (forall instance st1,
        @get_linode (LinodeAPIv4.api E)
          (<["name" := name]> {["linode_id" := kwarg kwargs "linode_id"]}) st
        = (Ret instance, st1) ->
        exists e, LinodeAPIv4.boot E fuel name kwargs st = (Raise e, st1)).
Proof.
  pose proof (v4_boot_raises_once_found E fuel name kwargs st) as Hfound.
  split; [| split; [| exact Hfound]];
    destruct (@get_linode (LinodeAPIv4.api E)
                (<["name" := name]> {["linode_id" := kwarg kwargs "linode_id"]}) st)
      as [[instance | e |] st1] eqn:Hget;
    pose proof (v4_get_linode_posted _ _ _ _ _ Hget) as Hposted;
    try (destruct (Hfound _ _ eq_refl) as [e' He]; rewrite He);
    try (unfold LinodeAPIv4.boot; rewrite (bind_Raise _ _ _ _ _ Hget));
    try (unfold LinodeAPIv4.boot; rewrite (bind_OutOfFuel _ _ _ _ Hget));
    simpl; solve [discriminate | exact Hposted].
Qed.

Lemma v4_boot_never_boots_witness :
  @get_linode (LinodeAPIv4.api (Stub.env_v4 25600 "offline"))
    (<["name" := VStr "web-01"]> {["linode_id" := kwarg ∅ "linode_id"]}) Stub.st0
  = (Ret (Stub.instance_json "offline"),
     sent Stub.st0 (EvRest GET (Lit "/linode/instances") None))
  /\ exists e,
       LinodeAPIv4.boot (Stub.env_v4 25600 "offline") 3 (VStr "web-01") ∅ Stub.st0
       = (Raise e, sent Stub.st0 (EvRest GET (Lit "/linode/instances") None)).
Proof.
  assert (H : @get_linode (LinodeAPIv4.api (Stub.env_v4 25600 "offline"))
                (<["name" := VStr "web-01"]> {["linode_id" := kwarg ∅ "linode_id"]})
                Stub.st0
              = (Ret (Stub.instance_json "offline"),
                 sent Stub.st0 (EvRest GET (Lit "/linode/instances") None)))
    by reflexivity.
  split; [exact H |].
  exact (proj2 (proj2 (v4_boot_never_boots (Stub.env_v4 25600 "offline") 3
                         (VStr "web-01") ∅ Stub.st0)) _ _ H).
Defined.

Lemma bind_Ret_inv {A B} (c : M A) (k : A -> M B) (st st' : state) (b : B) :
  bind c k st = (Ret b, st') ->
  exists a st1, c st = (Ret a, st1) /\ k a st1 = (Ret b, st').
Proof.
  unfold bind. destruct (c st) as [[a | e |] st1]; try discriminate.
  intros H. eauto.
Qed.

(** X7.  [create] of API v4 never reports a created instance: for a name
    that passes validation it returns no result, whatever the profile and
    whatever the provider answers, because every path leads through
    [boot]. *)
Theorem v4_create_never_completes (E : env) (fuel : nat) (vm_ : vm)
    (st : state) :
  _validate_name (vm_name vm_) = true ->
  forall v, fst (LinodeAPIv4.create E fuel vm_ st) <> Ret v.
Proof.
  intros Hname v. unfold LinodeAPIv4.create. rewrite Hname. cbn [negb].
  destruct (bind _ _ st) as [o st'] eqn:Hc. simpl. intros ->.
  apply bind_Ret_inv in Hc as (? & ? & _ & Hc).
  apply bind_Ret_inv in Hc as (? & ? & _ & Hc).
  apply bind_Ret_inv in Hc as (? & ? & _ & Hc).
  apply bind_Ret_inv in Hc as (? & ? & _ & Hc).
  apply bind_Ret_inv in Hc as (? & ? & Hboot & _).
  exact (v4_boot_no_result _ _ _ _ _ _ _ Hboot).
Qed.

Lemma v4_create_never_completes_witness :
  _validate_name (vm_name (Stub.web01 None None)) = true
  /\ forall v,
       fst (LinodeAPIv4.create (Stub.env_v4 25600 "running") 3 (Stub.web01 None None) Stub.st0)
       <> Ret v.
Proof.
  split; [reflexivity |].
  apply v4_create_never_completes. reflexivity.
Defined.

(** ** [_query] of API v3: the error envelope and the rate limit *)

Lemma collect_errors_spec (errors msgs : list value) :
  error_messages errors = Some msgs ->
  forall error_list : list value,
    LinodeAPIv3.collect_errors errors error_list
    = if existsb (fun m => py_eq m (VStr "Authentication failed")) msgs
      then raise_msg SaltCloudSystemExit "Linode API Key is expired or invalid"
      else Ret (error_list ++ msgs).
Proof.
  revert msgs. induction errors as [| error rest IH]; intros msgs Hmsgs error_list.
  - injection Hmsgs as <-. simpl. rewrite app_nil_r. reflexivity.
  - simpl in Hmsgs. simpl.
    destruct (py_item error "ERRORMESSAGE") as [msg | |]; try discriminate.
    destruct (error_messages rest) as [msgs' |]; try discriminate.
    injection Hmsgs as <-. simpl.
    destruct (py_eq msg (VStr "Authentication failed")); [reflexivity |].
    rewrite (IH msgs' eq_refl). simpl.
    destruct (existsb _ msgs'); [reflexivity |].
    rewrite <- app_assoc. reflexivity.
Qed.

(** X8.  The error envelope of API v3.  When the answer carries an
    [ERRORARRAY] whose entries all have a message: if one of the messages is
    "Authentication failed" the check raises [SaltCloudSystemExit] for an
    invalid key; otherwise, an empty array is no error, and a non-empty one
    raises [SaltCloudException] carrying all the messages, in order, joined
    by ", " (or [TypeError] from the join when a message is not a
    string). *)
Theorem v3_error_envelope (fields : list (string * value))
    (errors msgs : list value) :
  assoc "ERRORARRAY" fields = Some (VList errors) ->
  error_messages errors = Some msgs ->
  LinodeAPIv3.check_errors (VDict fields)
  = if existsb (fun m => py_eq m (VStr "Authentication failed")) msgs
    then raise_msg SaltCloudSystemExit "Linode API Key is expired or invalid"
    else match msgs with
         | [] => Ret tt
         | _ :: _ =>
             match all_strings msgs with
             | Some ss => Raise (LinodeAPIv3.api_errors (join ", " ss))
             | None => raise_msg TypeError "sequence item: expected str instance"
             end
         end.
Proof.
  intros Harray Hmsgs. unfold LinodeAPIv3.check_errors. simpl.
  unfold has_key. rewrite Harray. simpl.
  destruct errors as [| error rest].
  - injection Hmsgs as <-. reflexivity.
  - cbn [truthy]. simpl py_iter. cbn [obind].
    rewrite (collect_errors_spec _ _ Hmsgs []). simpl app.
    destruct msgs as [| msg msgs'].
    + simpl in Hmsgs.
      destruct (py_item error "ERRORMESSAGE"); try discriminate.
      destruct (error_messages rest); discriminate.
    + destruct (existsb _ (msg :: msgs')); [reflexivity |].
      simpl. destruct msg; try reflexivity.
      destruct (all_strings msgs'); reflexivity.
Qed.

Lemma v3_error_envelope_witness :
  LinodeAPIv3.check_errors
    (VDict [ ("ERRORARRAY",
              VList [ VDict [("ERRORCODE", VInt 5); ("ERRORMESSAGE", VStr "Object not found")];
                      VDict [("ERRORCODE", VInt 8); ("ERRORMESSAGE", VStr "Validation failed")] ]);
             ("DATA", VDict []) ])
  = Raise (LinodeAPIv3.api_errors "Object not found, Validation failed").
Proof.
  exact (v3_error_envelope
           [ ("ERRORARRAY",
              VList [ VDict [("ERRORCODE", VInt 5); ("ERRORMESSAGE", VStr "Object not found")];
                      VDict [("ERRORCODE", VInt 8); ("ERRORMESSAGE", VStr "Validation failed")] ]);
             ("DATA", VDict []) ]
           [ VDict [("ERRORCODE", VInt 5); ("ERRORMESSAGE", VStr "Object not found")];
             VDict [("ERRORCODE", VInt 8); ("ERRORMESSAGE", VStr "Validation failed")] ]
           [ VStr "Object not found"; VStr "Validation failed" ]
           eq_refl eq_refl).
Defined.

Lemma v3_query_unfold (E : env) (action command : string)
    (args : list (string * value)) (st : state) :
  0 <= ratelimit_sleep E ->
  LinodeAPIv3._query E action command args st
  = (result <- LinodeAPIv3.request E (rpc_args action command args) ;;
     dict <- lift (py_item result "dict") ;;
     lift (LinodeAPIv3.check_errors dict) ;;
     t' <- LinodeAPIv3.now E ;;
     LinodeAPIv3.set_LASTCALL t' ;;
     lift (py_item result "status") ;;
     lift (py_item result "dict")) (paced E st).
Proof.
  intros Hsleep. unfold LinodeAPIv3._query, paced. fold (rpc_args action command args).
  unfold bind at 1. unfold LinodeAPIv3.now at 1. cbv beta iota.
  unfold bind at 1. unfold LinodeAPIv3.get_LASTCALL at 1. cbv beta iota.
  unfold bind at 1.
  destruct (LASTCALL st >=? clock E (trace st)); [| reflexivity].
  destruct (Z.ltb_spec (ratelimit_sleep E) 0) as [Hneg | _]; [lia |].
  reflexivity.
Qed.

(** X9.  The rate limit of API v3.  With a non-negative [ratelimit_sleep],
    [_query] first pauses for that many seconds when the time of the last
    call is not in the past, then sends one request with the [api_action]
    set.  When the answer passes the error check it returns the decoded
    answer and records the time after the request as the time of the last
    call; when the error check raises, the exception goes to the caller and
    the recorded time stays as it was. *)
Theorem v3_query_rate_limit (E : env) (action command : string)
    (args : list (string * value)) (st : state) (result dict : value) :
  0 <= ratelimit_sleep E ->
  http_query E (trace (paced E st)) (rpc_args action command args) = Ret result ->
  py_item result "dict" = Ret dict ->
  (forall status,
      LinodeAPIv3.check_errors dict = Ret tt ->
      py_item result "status" = Ret status ->
      LinodeAPIv3._query E action command args st
      = (Ret dict,
         State (trace (paced E st) ++ [EvRpc (rpc_args action command args)])
               (clock E (trace (paced E st)
                         ++ [EvRpc (rpc_args action command args)]))))
  /\ (forall e,
        LinodeAPIv3.check_errors dict = Raise e ->
        LinodeAPIv3._query E action command args st
        = (Raise e,
           State (trace (paced E st) ++ [EvRpc (rpc_args action command args)])
                 (LASTCALL st))).
Proof.
  intros Hsleep Hresult Hdict.
  assert (Hlast : LASTCALL (paced E st) = LASTCALL st).
  { unfold paced. destruct (_ >=? _); reflexivity. }
  split.
  - intros status Hcheck Hstatus. rewrite v3_query_unfold by exact Hsleep.
    unfold bind, LinodeAPIv3.request, LinodeAPIv3.now, LinodeAPIv3.set_LASTCALL,
      lift.
    rewrite Hresult, Hdict, Hcheck, Hstatus. reflexivity.
  - intros e Hcheck. rewrite v3_query_unfold by exact Hsleep.
    unfold bind, LinodeAPIv3.request, lift.
    rewrite Hresult, Hdict, Hcheck, Hlast. reflexivity.
Qed.

Lemma v3_query_rate_limit_witness :
  paced Stub.env_v3 (State [] 5) = State [EvSleep 0] 5
  /\ LinodeAPIv3._query Stub.env_v3 "linode" "list" [] (State [] 5)
     = (Ret (VDict [("ERRORARRAY", VList []); ("DATA", VList [])]),
        State [EvSleep 0; EvRpc [("api_action", VStr "linode.list")]] 3).
Proof.
  split; [reflexivity |].
  refine (proj1 (v3_query_rate_limit Stub.env_v3 "linode" "list" [] (State [] 5)
                   (VDict [ ("dict", VDict [("ERRORARRAY", VList []); ("DATA", VList [])]);
                            ("status", VInt 200) ])
                   (VDict [("ERRORARRAY", VList []); ("DATA", VList [])])
                   _ eq_refl eq_refl) (VInt 200) eq_refl eq_refl).
  vm_compute. discriminate.
Defined.

(** ** [destroy]: what is announced, and when *)

Lemma fired_app (t1 t2 : list event) : fired (t1 ++ t2) = fired t1 ++ fired t2.
Proof.
  induction t1 as [| e t1 IH]; [reflexivity |].
  destruct e; simpl; rewrite ?IH; reflexivity.
Qed.

Lemma deleted_app (t1 t2 : list event) : deleted (t1 ++ t2) = deleted t1 ++ deleted t2.
Proof.
  induction t1 as [| e t1 IH]; [reflexivity |].
  destruct e as [[] ? ? | | | |]; simpl; rewrite ?IH; reflexivity.
Qed.

Lemma quiet_bind {A B} (c : M A) (k : A -> M B) :
  quiet c -> (forall a, quiet (k a)) -> quiet (bind c k).
Proof.
  intros Hc Hk st. unfold bind. specialize (Hc st).
  destruct (c st) as [[a | e |] st1]; simpl in *; [| exact Hc ..].
  rewrite (Hk a st1). exact Hc.
Qed.

Lemma quiet_lift {A} (o : outcome A) : quiet (lift o).
Proof. intros st. unfold lift. destruct o; reflexivity. Qed.

Lemma quiet_ret {A} (a : A) : quiet (ret a).
Proof. intros st. reflexivity. Qed.

Lemma quiet_raise {A} (e : exn) : quiet (raise e : M A).
Proof. intros st. reflexivity. Qed.

Lemma quiet_v4_query (E : env) (path : text) (m : http_method)
    (data : option value) : quiet (LinodeAPIv4._query E path m data).
Proof.
  intros st. destruct (LinodeAPIv4._query E path m data st) as [r st'] eqn:Hq.
  apply v4_query_state in Hq. subst st'. simpl. rewrite fired_app. simpl.
  apply app_nil_r.
Qed.

Lemma quiet_v4_get_linode_by_name (E : env) (name : value) :
  quiet (LinodeAPIv4._get_linode_by_name E name).
Proof.
  intros st. destruct (LinodeAPIv4._get_linode_by_name E name st) as [r st'] eqn:Hq.
  apply v4_get_linode_by_name_state in Hq. subst st'. simpl. rewrite fired_app.
  simpl. apply app_nil_r.
Qed.

Lemma quiet_v3_query (E : env) (action command : string)
    (args : list (string * value)) : quiet (LinodeAPIv3._query E action command args).
Proof.
  unfold LinodeAPIv3._query.
  set (args' := if _ : bool then _ else args). clearbody args'.
  assert (Hsleep : quiet (A := unit)
            (if ratelimit_sleep E <? 0
             then raise (Exn ValueError [Lit "sleep length must be non-negative"])
             else sleep (ratelimit_sleep E * 1000))).
  { destruct (_ <? _); [apply quiet_raise |].
    intros st. simpl. rewrite fired_app. simpl. apply app_nil_r. }
  apply quiet_bind; [intros st; reflexivity | intros t].
  apply quiet_bind; [intros st; reflexivity | intros last].
  apply quiet_bind.
  { destruct (last >=? t); [exact Hsleep | apply quiet_ret]. }
  intros _. apply quiet_bind.
  { intros st. unfold LinodeAPIv3.request. simpl. rewrite fired_app. simpl.
    apply app_nil_r. }
  intros result. apply quiet_bind; [apply quiet_lift | intros dict].
  apply quiet_bind; [apply quiet_lift | intros _].
  apply quiet_bind; [intros st; reflexivity | intros t'].
  apply quiet_bind; [intros st; reflexivity | intros _].
  apply quiet_bind; [apply quiet_lift | intros _].
  apply quiet_lift.
Qed.

Lemma quiet_v3_get_linode_id_from_name (E : env) (name : value) :
  quiet (LinodeAPIv3._get_linode_id_from_name E name).
Proof.
  unfold LinodeAPIv3._get_linode_id_from_name, LinodeAPIv3._get_linode_by_name.
  apply quiet_bind; [| intros node; apply quiet_lift].
  apply quiet_bind; [apply quiet_v3_query | intros result].
  apply quiet_bind; [apply quiet_lift | intros data].
  apply quiet_bind; [apply quiet_lift | intros nodes].
  apply quiet_bind; [apply quiet_lift | intros found].
  destruct found; [apply quiet_ret | apply quiet_raise].
Qed.

(** X10.  [destroy] of API v4 announces before it acts.  When the cache
    collaborator fires no event of its own, every run of [destroy] fires
    exactly one event, "destroyed instance", however the run ends; the
    event is fired before the instance is looked up, so a run whose look-up
    raises (an unknown name) has announced a destruction and has sent no
    DELETE request.  A run that returns, returns [None]. *)
Theorem v4_destroy_announces_before_acting (E : env) (update_cachedir : bool)
    (delete_minion_cachedir : value -> M unit) (name : value) (st : state) :
  quiet (delete_minion_cachedir name) ->
  fired (trace (snd (LinodeAPIv4.destroy E update_cachedir
                       delete_minion_cachedir name st)))
  = fired (trace st) ++ ["destroyed instance"]
  /\ (forall v,
        fst (LinodeAPIv4.destroy E update_cachedir delete_minion_cachedir name st)
        = Ret v -> v = VNone)
  /\ (forall st1 e st2,
        (if update_cachedir then delete_minion_cachedir name else ret tt)
          (sent st (EvFire "destroyed instance"
                      (Format "salt/cloud/{0}/destroyed" [Val name])
                      [("name", name)]))
        = (Ret tt, st1) ->
        LinodeAPIv4._get_linode_by_name E name st1 = (Raise e, st2) ->
        LinodeAPIv4.destroy E update_cachedir delete_minion_cachedir name st
        = (Raise e, st2)
        /\ deleted (trace st2) = deleted (trace st1)).
Proof.
  intros Hevict.
  set (announced := sent st (EvFire "destroyed instance"
                               (Format "salt/cloud/{0}/destroyed" [Val name])
                               [("name", name)])).
  assert (Hrest : quiet
            ((if update_cachedir then delete_minion_cachedir name else ret tt) ;;
             instance <- LinodeAPIv4._get_linode_by_name E name ;;
             linode_id <- lift (py_get instance "id" VNone) ;;
             LinodeAPIv4._query E (Format "/linode/instances/{}" [Val linode_id])
               DELETE None ;;
             ret VNone)).
  { apply quiet_bind;
      [destruct update_cachedir; [exact Hevict | apply quiet_ret] | intros _].
    apply quiet_bind; [apply quiet_v4_get_linode_by_name | intros instance].
    apply quiet_bind; [apply quiet_lift | intros linode_id].
    apply quiet_bind; [apply quiet_v4_query | intros _; apply quiet_ret]. }
  split; [| split].
  - unfold LinodeAPIv4.destroy. unfold bind at 1. unfold fire_event, emit.
    cbv beta iota. rewrite (Hrest _). simpl. rewrite fired_app. reflexivity.
  - destruct (LinodeAPIv4.destroy _ _ _ _ st) as [o st'] eqn:Hd. simpl.
    intros v ->. unfold LinodeAPIv4.destroy in Hd.
    apply bind_Ret_inv in Hd as (? & ? & _ & Hd).
    apply bind_Ret_inv in Hd as (? & ? & _ & Hd).
    apply bind_Ret_inv in Hd as (? & ? & _ & Hd).
    apply bind_Ret_inv in Hd as (? & ? & _ & Hd).
    apply bind_Ret_inv in Hd as (? & ? & _ & Hd).
    injection Hd as <- _. reflexivity.
  - intros st1 e st2 Hcache Hfind. split.
    + unfold LinodeAPIv4.destroy. unfold bind at 1. unfold fire_event, emit.
      cbv beta iota. fold (sent st (EvFire "destroyed instance"
                               (Format "salt/cloud/{0}/destroyed" [Val name])
                               [("name", name)])).
      rewrite (bind_Ret _ _ _ _ _ Hcache).
      apply (bind_Raise _ _ _ _ _ Hfind).
    + apply v4_get_linode_by_name_state in Hfind. subst st2. simpl.
      rewrite deleted_app. simpl. apply app_nil_r.
Qed.

Lemma v4_destroy_announces_before_acting_witness :
  quiet (Cases.evict (VStr "db-01"))
  /\ fired (trace (snd (LinodeAPIv4.destroy (Stub.env_v4 25600 "running") true
                          Cases.evict (VStr "db-01") Stub.st0)))
     = ["destroyed instance"]
  /\ LinodeAPIv4.destroy (Stub.env_v4 25600 "running") true Cases.evict
       (VStr "db-01") Stub.st0
     = (Raise (Exn SaltCloudNotFound
                 [Format "The specified name, {0}, could not be found."
                    [Val (VStr "db-01")]]),
        State [ EvFire "destroyed instance"
                  (Format "salt/cloud/{0}/destroyed" [Val (VStr "db-01")])
                  [("name", VStr "db-01")];
                EvRest GET (Lit "/linode/instances") None ] 0).
Proof.
  assert (Hq : quiet (Cases.evict (VStr "db-01"))) by (intros st; reflexivity).
  destruct (v4_destroy_announces_before_acting (Stub.env_v4 25600 "running") true
              Cases.evict (VStr "db-01") Stub.st0 Hq) as (Hfired & _ & Hraise).
  split; [exact Hq |]. split; [exact Hfired |].
  exact (proj1 (Hraise _ _ _ eq_refl eq_refl)).
Defined.

(** X11.  [destroy] of API v3 announces in two steps.  When the cache
    collaborator fires no event of its own, every run fires "destroying
    instance" first and at most "destroyed instance" after it; a run that
    returns has fired both, and a run in which the look-up of the name or
    the delete request raises ends with that exception and has fired only
    the first. *)
Theorem v3_destroy_announces_in_two_steps (E : env) (update_cachedir : bool)
    (delete_minion_cachedir : value -> M unit) (name : value) (st : state) :
  quiet (delete_minion_cachedir name) ->
  (exists tail,
      fired (trace (snd (LinodeAPIv3.destroy E update_cachedir
                           delete_minion_cachedir name st)))
      = fired (trace st) ++ "destroying instance" :: tail
      /\ (tail = [] \/ tail = ["destroyed instance"]))
  /\ (forall v,
        fst (LinodeAPIv3.destroy E update_cachedir delete_minion_cachedir name st)
        = Ret v ->
        fired (trace (snd (LinodeAPIv3.destroy E update_cachedir
                             delete_minion_cachedir name st)))
        = fired (trace st) ++ ["destroying instance"; "destroyed instance"])
  /\ (forall e st1,
        LinodeAPIv3._get_linode_id_from_name E name
          (sent st (EvFire "destroying instance"
                      (Format "salt/cloud/{0}/destroying" [Val name])
                      [("name", name)]))
        = (Raise e, st1) ->
        LinodeAPIv3.destroy E update_cachedir delete_minion_cachedir name st
        = (Raise e, st1)
        /\ fired (trace st1) = fired (trace st) ++ ["destroying instance"])
  /\ (forall linode_id st1 e st2,
        LinodeAPIv3._get_linode_id_from_name E name
          (sent st (EvFire "destroying instance"
                      (Format "salt/cloud/{0}/destroying" [Val name])
                      [("name", name)]))
        = (Ret linode_id, st1) ->
        LinodeAPIv3._query E "linode" "delete"
          [("LinodeID", linode_id); ("skipChecks", VBool true)] st1
        = (Raise e, st2) ->
        LinodeAPIv3.destroy E update_cachedir delete_minion_cachedir name st
        = (Raise e, st2)
        /\ fired (trace st2) = fired (trace st) ++ ["destroying instance"]).
Proof.
  intros Hevict.
  set (announced := sent st (EvFire "destroying instance"
                               (Format "salt/cloud/{0}/destroying" [Val name])
                               [("name", name)])).
  assert (Hannounced : fired (trace announced)
                       = fired (trace st) ++ ["destroying instance"]).
  { unfold announced. simpl. rewrite fired_app. reflexivity. }
  assert (Hstart : forall k : unit -> M value,
             bind (fire_event "destroying instance"
                     (Format "salt/cloud/{0}/destroying" [Val name])
                     [("name", name)]) k st
             = k tt announced) by reflexivity.
  clearbody announced.
  unfold LinodeAPIv3.destroy. rewrite Hstart.
  destruct (LinodeAPIv3._get_linode_id_from_name E name announced)
    as [[linode_id | e |] st1] eqn:Hid;
    pose proof (quiet_v3_get_linode_id_from_name E name announced) as Hq1;
    rewrite Hid in Hq1; simpl in Hq1;
    assert (Hf1 : fired (trace st1) = fired (trace st) ++ ["destroying instance"])
      by (rewrite Hq1; exact Hannounced).
  2: { rewrite (bind_Raise _ _ _ _ _ Hid). simpl.
       split; [exists []; split; [exact Hf1 | left; reflexivity] |].
       split; [discriminate |].
       split; [| discriminate].
       intros e' st' H. inversion H; subst. split; [reflexivity | exact Hf1]. }
  2: { rewrite (bind_OutOfFuel _ _ _ _ Hid). simpl.
       split; [exists []; split; [exact Hf1 | left; reflexivity] |].
       split; [discriminate |].
       split; discriminate. }
  rewrite (bind_Ret _ _ _ _ _ Hid).
  destruct (LinodeAPIv3._query E "linode" "delete"
              [("LinodeID", linode_id); ("skipChecks", VBool true)] st1)
    as [[response | e |] st2] eqn:Hdel;
    pose proof (quiet_v3_query E "linode" "delete"
                  [("LinodeID", linode_id); ("skipChecks", VBool true)] st1) as Hq2;
    rewrite Hdel in Hq2; simpl in Hq2;
    assert (Hf2 : fired (trace st2) = fired (trace st) ++ ["destroying instance"])
      by (rewrite Hq2; exact Hf1).
  2: { rewrite (bind_Raise _ _ _ _ _ Hdel). simpl.
       split; [exists []; split; [exact Hf2 | left; reflexivity] |].
       split; [discriminate |].
       split; [discriminate |].
       intros l st' e' st'' H. inversion H; subst. rewrite Hdel.
       intros H'. inversion H'; subst. split; [reflexivity | exact Hf2]. }
  2: { rewrite (bind_OutOfFuel _ _ _ _ Hdel). simpl.
       split; [exists []; split; [exact Hf2 | left; reflexivity] |].
       split; [discriminate |].
       split; [discriminate |].
       intros l st' e' st'' H. inversion H; subst. rewrite Hdel. discriminate. }
  rewrite (bind_Ret _ _ _ _ _ Hdel).
  assert (Hend : fired (trace (snd
             ((fire_event "destroyed instance"
                 (Format "salt/cloud/{0}/destroyed" [Val name]) [("name", name)] ;;
               (if update_cachedir then delete_minion_cachedir name else ret tt) ;;
               ret response) st2)))
           = fired (trace st) ++ ["destroying instance"; "destroyed instance"]).
  { unfold bind at 1. unfold fire_event, emit. cbv beta iota.
    assert (Hrest : quiet
              ((if update_cachedir then delete_minion_cachedir name else ret tt) ;;
               ret response)).
    { apply quiet_bind;
        [destruct update_cachedir; [exact Hevict | apply quiet_ret] |
         intros _; apply quiet_ret]. }
    rewrite (Hrest _). simpl. rewrite fired_app, Hf2.
    rewrite <- app_assoc. reflexivity. }
  rewrite Hend.
  split; [eexists; split; [reflexivity | right; reflexivity] |].
  split; [intros _ _; reflexivity |].
  split; [discriminate |].
  intros l st' e' st'' H. inversion H; subst. rewrite Hdel. discriminate.
Qed.

Lemma v3_destroy_announces_in_two_steps_witness :
  quiet (Cases.evict (VStr "web-01"))
  /\ fired (trace (snd (LinodeAPIv3.destroy (Cases.env_catalog 1 0) true
                          Cases.evict (VStr "web-01") Stub.st0)))
     = ["destroying instance"; "destroyed instance"]
  /\ exists st1,
       LinodeAPIv3.destroy (Cases.env_catalog 1 0) true Cases.evict
         (VStr "db-01") Stub.st0
       = (Raise (Exn SaltCloudNotFound
                   [Format "The specified name, {0}, could not be found."
                      [Val (VStr "db-01")]]), st1)
       /\ fired (trace st1) = ["destroying instance"].
Proof.
  assert (Hq : forall name, quiet (Cases.evict name)) by (intros name st; reflexivity).
  split; [apply Hq |]. split.
  - destruct (v3_destroy_announces_in_two_steps (Cases.env_catalog 1 0) true
                Cases.evict (VStr "web-01") Stub.st0 (Hq _)) as (_ & Hret & _).
    exact (Hret (VDict [("ERRORARRAY", VList []); ("DATA", VDict [("LinodeID", VInt 1)])])
             eq_refl).
  - destruct (v3_destroy_announces_in_two_steps (Cases.env_catalog 1 0) true
                Cases.evict (VStr "db-01") Stub.st0 (Hq _)) as (_ & _ & Hraise & _).
    eexists. exact (Hraise _ _ eq_refl).
Defined.

(** ** [_wait_for_job] when the job finishes *)

Lemma wait_for_job_loop_step (E : env) (linode_id job_id : value) (interval : Z)
    (rest : nat) (st st1 : state) (response : value) (finished : bool) :
  LinodeAPIv3._query E "linode" "job.list" [("LinodeID", linode_id)] st
    = (Ret response, st1) ->
  job_finished response job_id = Ret finished ->
  LinodeAPIv3.wait_for_job_loop E (S rest) linode_id job_id interval st
  = if finished then (Ret true, st1)
    else LinodeAPIv3.wait_for_job_loop E rest linode_id job_id interval
           (sent st1 (EvSleep (interval * 1000))).
Proof.
  intros Hq Hfinished. cbn [LinodeAPIv3.wait_for_job_loop].
  rewrite (bind_Ret _ _ _ _ _ Hq).
  unfold job_finished in Hfinished. unfold bind at 1. unfold lift at 1.
  destruct (py_item response "DATA") as [jobs_result | |]; try discriminate.
  cbn [obind] in Hfinished. unfold bind at 1. unfold lift at 1.
  destruct (py_first jobs_result) as [job | |]; try discriminate.
  cbn [obind] in Hfinished. unfold bind at 1. unfold lift at 1.
  destruct (py_item job "JOBID") as [jobid | |]; try discriminate.
  cbn [obind] in Hfinished.
  destruct (py_eq jobid job_id).
  - unfold bind at 1. unfold bind at 1. unfold lift at 1.
    destruct (py_item job "HOST_SUCCESS") as [host_success | |]; try discriminate.
    cbn [obind] in Hfinished. injection Hfinished as <-. unfold ret at 1.
    cbv beta iota.
    destruct (py_eq host_success (VInt 1)); reflexivity.
  - injection Hfinished as <-. reflexivity.
Qed.

Lemma wait_for_job_loop_finishes (E : env) (linode_id job_id : value)
    (n : nat) (st st' : state) :
  job_finishes E linode_id job_id n st st' ->
  forall iterations : nat,
    ((n < iterations)%nat ->
     LinodeAPIv3.wait_for_job_loop E iterations linode_id job_id 5 st
     = (Ret true, st'))
    /\ ((iterations <= n)%nat ->
        exists st'',
          LinodeAPIv3.wait_for_job_loop E iterations linode_id job_id 5 st
          = (Ret false, st'')).
Proof.
  induction 1 as [st response st' Hq Hdone
                 | n st response st1 st' Hq Hdone _ IH];
    intros iterations.
  - split.
    + intros Hlt. destruct iterations as [| rest]; [lia |].
      rewrite (wait_for_job_loop_step _ _ _ _ _ _ _ _ _ Hq Hdone). reflexivity.
    + intros Hle. assert (iterations = O) as -> by lia. eexists. reflexivity.
  - split.
    + intros Hlt. destruct iterations as [| rest]; [lia |].
      rewrite (wait_for_job_loop_step _ _ _ _ _ _ _ _ _ Hq Hdone).
      apply (IH rest). lia.
    + intros Hle. destruct iterations as [| rest]; [eexists; reflexivity |].
      rewrite (wait_for_job_loop_step _ _ _ _ _ _ _ _ _ Hq Hdone).
      apply (IH rest). lia.
Qed.

(** X12.  [_wait_for_job] probes the job list [int(timeout / 5)] times, with
    a pause of 5 s after each probe that finds the job unfinished.  When the
    job is finished at probe number [n] (counting from 0), the wait returns
    [True] in the state of that probe if [n] is below the number of probes,
    and returns [False] otherwise: it never raises for a job that is late. *)
Theorem wait_for_job_returns_when_job_finishes (E : env)
    (linode_id job_id : value) (timeout : Z) (n : nat) (st st' : state) :
  job_finishes E linode_id job_id n st st' ->
  (Z.of_nat n < Z.quot timeout 5 ->
   LinodeAPIv3._wait_for_job E linode_id job_id timeout st = (Ret true, st'))
  /\ (Z.quot timeout 5 <= Z.of_nat n ->
      exists st'',
        LinodeAPIv3._wait_for_job E linode_id job_id timeout st
        = (Ret false, st'')).
Proof.
  intros Hjob. unfold LinodeAPIv3._wait_for_job. cbv zeta.
  destruct (wait_for_job_loop_finishes _ _ _ _ _ _ Hjob
              (Z.to_nat (Z.quot timeout 5))) as [Hin Hout].
  split; intros H; [apply Hin | apply Hout]; lia.
Qed.

Lemma wait_for_job_returns_when_job_finishes_witness :
  exists st',
    job_finishes (Cases.env_catalog 2 2) (VInt 1) (VInt 7) 1 Stub.st0 st'
    /\ LinodeAPIv3._wait_for_job (Cases.env_catalog 2 2) (VInt 1) (VInt 7) 300
         Stub.st0 = (Ret true, st')
    /\ exists st'',
         LinodeAPIv3._wait_for_job (Cases.env_catalog 2 2) (VInt 1) (VInt 7) 5
           Stub.st0 = (Ret false, st'').
Proof.
  assert (Hjob : job_finishes (Cases.env_catalog 2 2) (VInt 1) (VInt 7) 1 Stub.st0
                   (State [ EvRpc [ ("LinodeID", VInt 1);
                                    ("api_action", VStr "linode.job.list") ];
                            EvSleep 5000;
                            EvRpc [ ("LinodeID", VInt 1);
                                    ("api_action", VStr "linode.job.list") ] ] 4)).
  { eapply job_finishes_later; [reflexivity | reflexivity |].
    eapply job_finishes_now; reflexivity. }
  eexists. split; [exact Hjob |]. split.
  - apply (proj1 (wait_for_job_returns_when_job_finishes _ _ _ 300 _ _ _ Hjob)).
    vm_compute. reflexivity.
  - apply (proj2 (wait_for_job_returns_when_job_finishes _ _ _ 5 _ _ _ Hjob)).
    vm_compute. discriminate.
Defined.

(** ** [start] and [stop] of API v3 report the job *)

Lemma wait_for_job_300 (E : env) (linode_id job_id : value) (n : nat)
    (st st' : state) :
  job_finishes E linode_id job_id n st st' ->
  exists st'',
    LinodeAPIv3._wait_for_job E linode_id job_id 300 st
    = (Ret (n <? 60)%nat, st'')
    /\ ((n < 60)%nat -> st'' = st').
Proof.
  intros Hjob. unfold LinodeAPIv3._wait_for_job. cbv zeta.
  change (Z.to_nat (Z.quot 300 5)) with 60%nat.
  destruct (wait_for_job_loop_finishes _ _ _ _ _ _ Hjob 60) as [Hin Hout].
  destruct (Nat.ltb_spec n 60) as [Hlt | Hge].
  - exists st'. split; [apply Hin; exact Hlt | reflexivity].
  - destruct (Hout Hge) as [st'' Hloop]. exists st''. split; [exact Hloop | lia].
Qed.

(** X13.  [start] and [stop] of API v3 report how the job ended.  For an
    instance that is found and is not already in the wanted state, once the
    boot (or shutdown) request is answered with a job id: when that job is
    finished at probe number [n] of the job list, the call returns the
    success dictionary in the state of that probe if [n < 60], and the
    dictionary with [success: False] otherwise.  A late job is a returned
    value, not an exception. *)
Theorem v3_start_stop_report_the_job (E : env) (name : value) (st : state)
    (node_id : value) (st1 : state) (node : value) (st2 : state)
    (status answer : value) (st3 : state) (response job_id : value)
    (n : nat) (st' : state) :
  LinodeAPIv3._get_linode_id_from_name E name st = (Ret node_id, st1) ->
  @get_linode (LinodeAPIv3.api E) {["linode_id" := node_id]} st1
  = (Ret node, st2) ->
  py_item node "STATUS" = Ret status ->
  py_item answer "DATA" = Ret response ->
  py_item response "JobID" = Ret job_id ->
  job_finishes E node_id job_id n st3 st' ->
  (py_eq status (VInt 1) = false ->
   LinodeAPIv3._query E "linode" "boot" [("LinodeID", node_id)] st2
   = (Ret answer, st3) ->
   exists st'',
     LinodeAPIv3.start E name st
     = (Ret (if (n <? 60)%nat
             then VDict [ ("state", VStr "Running"); ("action", VStr "start");
                          ("success", VBool true) ]
             else VDict [("action", VStr "start"); ("success", VBool false)]),
        st'')
     /\ ((n < 60)%nat -> st'' = st'))
  /\ (py_eq status (VInt 2) = false ->
      LinodeAPIv3._query E "linode" "shutdown" [("LinodeID", node_id)] st2
      = (Ret answer, st3) ->
      exists st'',
        LinodeAPIv3.stop E name st
        = (Ret (if (n <? 60)%nat
                then VDict [ ("state", VStr "Stopped"); ("action", VStr "stop");
                             ("success", VBool true) ]
                else VDict [("action", VStr "stop"); ("success", VBool false)]),
           st'')
        /\ ((n < 60)%nat -> st'' = st')).
Proof.
  intros Hid Hnode Hstatus Hdata Hjobid Hjob.
  destruct (wait_for_job_300 _ _ _ _ _ _ Hjob) as (st'' & Hwait & Hst).
  split; intros Hne Hquery; exists st''; (split; [| exact Hst]).
  - unfold LinodeAPIv3.start.
    rewrite (bind_Ret _ _ _ _ _ Hid), (bind_Ret _ _ _ _ _ Hnode).
    unfold bind at 1. unfold lift at 1. rewrite Hstatus. cbv beta iota.
    rewrite Hne. rewrite (bind_Ret _ _ _ _ _ Hquery).
    unfold bind at 1. unfold lift at 1. rewrite Hdata. cbv beta iota.
    unfold bind at 1. unfold lift at 1. rewrite Hjobid. cbv beta iota.
    rewrite (bind_Ret _ _ _ _ _ Hwait).
    destruct (n <? 60)%nat; reflexivity.
  - unfold LinodeAPIv3.stop.
    rewrite (bind_Ret _ _ _ _ _ Hid), (bind_Ret _ _ _ _ _ Hnode).
    unfold bind at 1. unfold lift at 1. rewrite Hstatus. cbv beta iota.
    rewrite Hne. rewrite (bind_Ret _ _ _ _ _ Hquery).
    unfold bind at 1. unfold lift at 1. rewrite Hdata. cbv beta iota.
    unfold bind at 1. unfold lift at 1. rewrite Hjobid. cbv beta iota.
    rewrite (bind_Ret _ _ _ _ _ Hwait).
    destruct (n <? 60)%nat; reflexivity.
Qed.

Lemma v3_start_stop_report_the_job_witness :
  exists st'',
    LinodeAPIv3.start (Cases.env_catalog 2 5) (VStr "web-01") Stub.st0
    = (Ret (VDict [ ("state", VStr "Running"); ("action", VStr "start");
                    ("success", VBool true) ]), st'').
Proof.
  pose (list1 := EvRpc [("api_action", VStr "linode.list")]).
  pose (list2 := EvRpc [("LinodeID", VInt 1); ("api_action", VStr "linode.list")]).
  pose (boot := EvRpc [("LinodeID", VInt 1); ("api_action", VStr "linode.boot")]).
  pose (jobs := EvRpc [("LinodeID", VInt 1); ("api_action", VStr "linode.job.list")]).
  assert (Hjob : job_finishes (Cases.env_catalog 2 5) (VInt 1) (VInt 7) 0
                   (State [list1; EvSleep 0; list2; EvSleep 0; boot] 6)
                   (State [list1; EvSleep 0; list2; EvSleep 0; boot; EvSleep 0; jobs] 8)).
  { eapply job_finishes_now; reflexivity. }
  destruct (v3_start_stop_report_the_job (Cases.env_catalog 2 5) (VStr "web-01")
              Stub.st0 (VInt 1) (State [list1] 2) (Cases.node 2)
              (State [list1; EvSleep 0; list2] 4) (VInt 2)
              (VDict [("ERRORARRAY", VList []); ("DATA", VDict [("JobID", VInt 7)])])
              (State [list1; EvSleep 0; list2; EvSleep 0; boot] 6)
              (VDict [("JobID", VInt 7)]) (VInt 7) 0 _
              eq_refl eq_refl eq_refl eq_refl eq_refl Hjob) as [Hstart _].
  destruct (Hstart eq_refl eq_refl) as (st'' & H & _).
  exists st''. exact H.
Defined.

(** ** The running check of [boot] of API v3 *)

Lemma growing_bind {A B} (c : M A) (k : A -> M B) :
  growing c -> (forall a, growing (k a)) -> growing (bind c k).
Proof.
  intros Hc Hk st. unfold bind. destruct (Hc st) as [t Ht].
  destruct (c st) as [[a | e |] st1]; simpl in *; [| exists t; exact Ht ..].
  destruct (Hk a st1) as [t' Ht']. exists (t ++ t').
  rewrite Ht', Ht, app_assoc. reflexivity.
Qed.

Lemma growing_after {A B} (c : M A) (k : A -> M B) (st : state) :
  (forall a, growing (k a)) ->
  exists t, trace (snd (bind c k st)) = trace (snd (c st)) ++ t.
Proof.
  intros Hk. unfold bind.
  destruct (c st) as [[a | e |] st1]; simpl;
    [apply Hk | exists []; symmetry; apply app_nil_r ..].
Qed.

Lemma growing_same {A} (c : M A) :
  (forall st, trace (snd (c st)) = trace st) -> growing c.
Proof. intros H st. exists []. rewrite H. symmetry. apply app_nil_r. Qed.

Lemma growing_lift {A} (o : outcome A) : growing (lift o).
Proof. apply growing_same. intros st. unfold lift. destruct o; reflexivity. Qed.

Lemma growing_ret {A} (a : A) : growing (ret a).
Proof. apply growing_same. reflexivity. Qed.

Lemma growing_raise {A} (e : exn) : growing (raise e : M A).
Proof. apply growing_same. reflexivity. Qed.

Lemma growing_emit (e : event) : growing (emit e).
Proof. intros st. exists [e]. reflexivity. Qed.

Lemma growing_v3_query (E : env) (action command : string)
    (args : list (string * value)) :
  growing (LinodeAPIv3._query E action command args).
Proof.
  unfold LinodeAPIv3._query.
  set (args' := if _ : bool then _ else args). clearbody args'.
  apply growing_bind; [apply growing_same; reflexivity | intros t].
  apply growing_bind; [apply growing_same; reflexivity | intros last].
  apply growing_bind.
  { destruct (last >=? t); [| apply growing_ret].
    destruct (_ <? _); [apply growing_raise | apply growing_emit]. }
  intros _. apply growing_bind.
  { intros st. exists [EvRpc args']. reflexivity. }
  intros result. apply growing_bind; [apply growing_lift | intros dict].
  apply growing_bind; [apply growing_lift | intros _].
  apply growing_bind; [apply growing_same; reflexivity | intros t'].
  apply growing_bind; [apply growing_same; reflexivity | intros _].
  apply growing_bind; [apply growing_lift | intros _].
  apply growing_lift.
Qed.

Lemma growing_wait_for_job_loop (E : env) (linode_id job_id : value)
    (interval : Z) (iterations : nat) :
  growing (LinodeAPIv3.wait_for_job_loop E iterations linode_id job_id interval).
Proof.
  induction iterations as [| rest IH]; [apply growing_ret |].
  cbn [LinodeAPIv3.wait_for_job_loop].
  apply growing_bind; [apply growing_v3_query | intros response].
  apply growing_bind; [apply growing_lift | intros jobs_result].
  apply growing_bind; [apply growing_lift | intros job].
  apply growing_bind; [apply growing_lift | intros jobid].
  apply growing_bind.
  { destruct (py_eq jobid job_id); [| apply growing_ret].
    apply growing_bind; [apply growing_lift | intros hs; apply growing_ret]. }
  intros [|]; [apply growing_ret |].
  apply growing_bind; [apply growing_emit | intros _; exact IH].
Qed.

Lemma v3_query_sends (E : env) (action command : string)
    (args : list (string * value)) (st : state) :
  0 <= ratelimit_sleep E ->
  trace (snd (LinodeAPIv3._query E action command args st))
  = trace (paced E st) ++ [EvRpc (rpc_args action command args)].
Proof.
  intros Hsleep. rewrite v3_query_unfold by exact Hsleep.
  unfold bind at 1. unfold LinodeAPIv3.request at 1. cbv beta iota.
  destruct (http_query E _ _) as [result | e |]; try reflexivity.
  unfold bind, lift, LinodeAPIv3.now, LinodeAPIv3.set_LASTCALL.
  destruct (py_item result "dict") as [dict | |]; try reflexivity.
  destruct (LinodeAPIv3.check_errors dict) as [[] | |]; try reflexivity.
  destruct (py_item result "status"); reflexivity.
Qed.

(** X14.  The running check of [boot] of API v3 compares the status of the
    instance with the text "1".  With [linode_id] and [config_id] given and
    [check_running] left at its default: an instance whose [STATUS] is that
    text is refused before anything is sent to boot it, while an instance
    whose [STATUS] is an integer, 1 for a running instance included, passes
    the check, and the boot request is sent. *)
Theorem v3_boot_check_compares_with_text (E : env) (name : value)
    (kwargs : gmap string value) (st : state) (node : value) (st1 : state)
    (status : value) :
  0 <= ratelimit_sleep E ->
  is_None (kwarg kwargs "linode_id") = false ->
  is_None (kwarg kwargs "config_id") = false ->
  kwargs !! "check_running" = None ->
  @get_linode (LinodeAPIv3.api E) {["linode_id" := kwarg kwargs "linode_id"]} st
  = (Ret node, st1) ->
  py_item node "STATUS" = Ret status ->
  (status = VStr "1" ->
   LinodeAPIv3.boot E name kwargs st
   = (Raise (LinodeAPIv3.cannot_boot E (kwarg kwargs "linode_id")), st1))
  /\ (forall z, status = VInt z ->
      In (EvRpc (rpc_args "linode" "boot"
                   [ ("LinodeID", kwarg kwargs "linode_id");
                     ("ConfigID", kwarg kwargs "config_id") ]))
         (trace (snd (LinodeAPIv3.boot E name kwargs st)))).
Proof.
  intros Hsleep Hid Hconfig Hcheck Hnode Hstatus.
  unfold LinodeAPIv3.boot. rewrite Hid, Hconfig, Hcheck. cbv zeta.
  split.
  - intros ->. unfold bind at 1. unfold ret at 1. cbv beta iota.
    cbn [fst snd truthy].
    unfold bind at 1. rewrite (bind_Ret _ _ _ _ _ Hnode).
    unfold bind, lift. rewrite Hstatus. reflexivity.
  - intros z ->. unfold bind at 1. unfold ret at 1. cbv beta iota.
    cbn [fst snd truthy].
    unfold bind at 1. rewrite (bind_Ret _ _ _ _ _ Hnode).
    unfold bind at 1. unfold lift at 1. rewrite Hstatus. cbv beta iota.
    change (py_eq (VInt z) (VStr "1")) with false. cbv beta iota.
    unfold ret at 1. cbv beta iota.
    match goal with
    | |- In _ (trace (snd (bind ?c ?k ?s))) =>
        destruct (growing_after c k s) as [t Ht]
    end.
    { intros response.
      apply growing_bind; [apply growing_lift | intros data].
      apply growing_bind; [apply growing_lift | intros boot_job_id].
      apply growing_bind;
        [apply growing_wait_for_job_loop |
         intros [|]; apply growing_ret]. }
    rewrite Ht, v3_query_sends by exact Hsleep.
    apply in_or_app. left. apply in_or_app. right. left. reflexivity.
Qed.

Lemma v3_boot_check_compares_with_text_witness :
  py_item (Cases.node 1) "STATUS" = Ret (VInt 1)
  /\ In (EvRpc [ ("LinodeID", VInt 1); ("ConfigID", VInt 5);
                 ("api_action", VStr "linode.boot") ])
        (trace (snd (LinodeAPIv3.boot (Cases.env_catalog 1 0) (VStr "web-01")
                       (<["config_id" := VInt 5]> {["linode_id" := VInt 1]})
                       Stub.st0))).
Proof.
  split; [reflexivity |].
  refine (proj2 (v3_boot_check_compares_with_text (Cases.env_catalog 1 0)
                   (VStr "web-01")
                   (<["config_id" := VInt 5]> {["linode_id" := VInt 1]})
                   Stub.st0 (Cases.node 1)
                   (State [EvRpc [ ("LinodeID", VInt 1);
                                   ("api_action", VStr "linode.list") ]] 2)
                   (VInt 1) _ eq_refl eq_refl eq_refl eq_refl eq_refl)
            1 eq_refl).
  vm_compute. discriminate.
Defined.

(** ** [start], [stop] and [reboot] of API v4 when the instance gets there *)

Lemma wait_for_linode_status_reaches (E : env) (linode_id status : value)
    (timeout : Z) (n fuel : nat) (st st' : state) (result : value) :
  reaches (LinodeAPIv4._get_linode_by_id E linode_id) status (poll_interval E)
    n st result st' ->
  0 < poll_interval E ->
  poll_interval E <= timeout * 1000 ->
  (n < fuel)%nat ->
  LinodeAPIv4._wait_for_linode_status E fuel linode_id status timeout st
  = (Ret result, st').
Proof.
  intros Hreach Hpos Hle Hfuel.
  unfold LinodeAPIv4._wait_for_linode_status, LinodeAPIv4._wait_for_entity_status,
    LinodeAPIv4._get_poll_interval.
  replace (poll_interval E =? 0) with false by (symmetry; apply Z.eqb_neq; lia).
  cbv zeta.
  eapply wait_loop_reaches; [lia | | eassumption | assumption].
  apply Z.div_le_lower_bound; lia.
Qed.

(** X15.  [start], [stop] and [reboot] of API v4 complete when the instance
    gets to the awaited state.  With a positive poll interval of at most
    120 s and an instance that is found: once the POST request is answered
    with any JSON at all, and the instance is seen in the awaited state at
    probe number [n], [start] and [stop] return their success dictionary and
    [reboot] returns the instance as last seen, in the state of that probe.
    The answer to the POST request is not looked at. *)
Theorem v4_start_stop_reboot_complete (E : env) (fuel : nat) (name : value)
    (st : state) (instance : value) (st1 : state) (linode_id answer : value)
    (st2 : state) (n : nat) (result : value) (st' : state) :
  0 < poll_interval E ->
  poll_interval E <= 120000 ->
  (n < fuel)%nat ->
  LinodeAPIv4._get_linode_by_name E name st = (Ret instance, st1) ->
  py_get instance "id" VNone = Ret linode_id ->
  (forall status,
      py_item instance "status" = Ret status ->
      py_eq status (VStr "running") = false ->
      LinodeAPIv4._query E (Format "/linode/instances/{}/boot" [Val linode_id])
        POST None st1 = (Ret answer, st2) ->
      reaches (LinodeAPIv4._get_linode_by_id E linode_id) (VStr "running")
        (poll_interval E) n st2 result st' ->
      LinodeAPIv4.start E fuel name st
      = (Ret (VDict [ ("success", VBool true); ("state", VStr "Running");
                      ("action", VStr "start") ]), st'))
  /\ (forall status,
        py_item instance "status" = Ret status ->
        py_eq status (VStr "offline") = false ->
        LinodeAPIv4._query E
          (Format "/linode/instances/{}/shutdown" [Val linode_id]) POST None st1
        = (Ret answer, st2) ->
        reaches (LinodeAPIv4._get_linode_by_id E linode_id) (VStr "offline")
          (poll_interval E) n st2 result st' ->
        LinodeAPIv4.stop E fuel name st
        = (Ret (VDict [ ("success", VBool true); ("state", VStr "Stopped");
                        ("action", VStr "stop") ]), st'))
  /\ (LinodeAPIv4._query E (Format "/linode/instances/{}/reboot" [Val linode_id])
        POST None st1 = (Ret answer, st2) ->
      reaches (LinodeAPIv4._get_linode_by_id E linode_id) (VStr "running")
        (poll_interval E) n st2 result st' ->
      LinodeAPIv4.reboot E fuel name st = (Ret result, st')).
Proof.
  intros Hpos Hmax Hfuel Hfind Hid.
  assert (Hwait : forall status,
             reaches (LinodeAPIv4._get_linode_by_id E linode_id) status
               (poll_interval E) n st2 result st' ->
             LinodeAPIv4._wait_for_linode_status E fuel linode_id status 120 st2
             = (Ret result, st')).
  { intros status Hreach.
    apply (wait_for_linode_status_reaches E linode_id status 120 n fuel st2 st'
             result Hreach Hpos); [lia | exact Hfuel]. }
  split; [| split].
  - intros status Hstatus Hne Hpost Hreach. unfold LinodeAPIv4.start.
    rewrite (bind_Ret _ _ _ _ _ Hfind).
    unfold bind at 1. unfold lift at 1. rewrite Hid. cbv beta iota.
    unfold bind at 1. unfold lift at 1. rewrite Hstatus. cbv beta iota.
    rewrite Hne. rewrite (bind_Ret _ _ _ _ _ Hpost).
    rewrite (bind_Ret _ _ _ _ _ (Hwait _ Hreach)). reflexivity.
  - intros status Hstatus Hne Hpost Hreach. unfold LinodeAPIv4.stop.
    rewrite (bind_Ret _ _ _ _ _ Hfind).
    unfold bind at 1. unfold lift at 1. rewrite Hid. cbv beta iota.
    unfold bind at 1. unfold lift at 1. rewrite Hstatus. cbv beta iota.
    rewrite Hne. rewrite (bind_Ret _ _ _ _ _ Hpost).
    rewrite (bind_Ret _ _ _ _ _ (Hwait _ Hreach)). reflexivity.
  - intros Hpost Hreach. unfold LinodeAPIv4.reboot.
    rewrite (bind_Ret _ _ _ _ _ Hfind).
    unfold bind at 1. unfold lift at 1. rewrite Hid. cbv beta iota.
    rewrite (bind_Ret _ _ _ _ _ Hpost).
    exact (Hwait _ Hreach).
Qed.

Lemma v4_start_stop_reboot_complete_witness :
  LinodeAPIv4._query Cases.env_slow
    (Format "/linode/instances/{}/boot" [Val (VInt 123)]) POST None
    (State [EvRest GET (Lit "/linode/instances") None] 0)
  = (Ret (VDict [("errors", VList [VDict [("reason", VStr "Not found")]])]),
     State [ EvRest GET (Lit "/linode/instances") None;
             EvRest POST (Format "/linode/instances/{}/boot" [Val (VInt 123)])
               None ] 0)
  /\ LinodeAPIv4.start Cases.env_slow 3 (VStr "web-01") Stub.st0
     = (Ret (VDict [ ("success", VBool true); ("state", VStr "Running");
                     ("action", VStr "start") ]),
        State [ EvRest GET (Lit "/linode/instances") None;
                EvRest POST (Format "/linode/instances/{}/boot" [Val (VInt 123)])
                  None;
                EvRest GET (Format "/linode/instances/{}" [Val (VInt 123)]) None;
                EvSleep 500;
                EvRest GET (Format "/linode/instances/{}" [Val (VInt 123)]) None ]
              0).
Proof.
  pose (list := EvRest GET (Lit "/linode/instances") None).
  pose (boot := EvRest POST (Format "/linode/instances/{}/boot" [Val (VInt 123)])
                  None).
  pose (probe := EvRest GET (Format "/linode/instances/{}" [Val (VInt 123)]) None).
  assert (Hpost : LinodeAPIv4._query Cases.env_slow
                    (Format "/linode/instances/{}/boot" [Val (VInt 123)]) POST None
                    (State [list] 0)
                  = (Ret (VDict [("errors", VList [VDict [("reason", VStr "Not found")]])]),
                     State [list; boot] 0)) by reflexivity.
  split; [exact Hpost |].
  assert (Hreach : reaches (LinodeAPIv4._get_linode_by_id Cases.env_slow (VInt 123))
                     (VStr "running") (poll_interval Cases.env_slow) 1
                     (State [list; boot] 0) (Stub.instance_json "running")
                     (State [list; boot; probe; EvSleep 500; probe] 0)).
  { eapply reaches_later; [reflexivity | reflexivity | reflexivity |].
    eapply reaches_now; reflexivity. }
  refine (proj1 (v4_start_stop_reboot_complete Cases.env_slow 3 (VStr "web-01")
                   Stub.st0 (Stub.instance_json "offline") (State [list] 0)
                   (VInt 123) _ (State [list; boot] 0) 1
                   (Stub.instance_json "running") _ _ _ _ eq_refl eq_refl)
            (VStr "offline") eq_refl eq_refl Hpost Hreach).
  - vm_compute. reflexivity.
  - vm_compute. discriminate.
  - lia.
Defined.

(** ** The entry points of the module *)

Lemma is_function_not_action (call : value) :
  Driver.is_function call = true -> Driver.is_action call = false.
Proof.
  unfold Driver.is_function, Driver.is_action.
  destruct call; try discriminate. simpl.
  intros H. apply String.eqb_eq in H. subst. reflexivity.
Qed.

(** X16.  The entry points check how they were called before they do
    anything.  Called as an action, the listing functions, [clone],
    [create_config], [get_config_id] and [get_linode] raise; called as a
    function, [destroy] raises, and [boot] takes the name from the keyword
    arguments alone, so it raises when they hold neither a name nor an id,
    whatever name was passed; called in any way but as an action, [start]
    and [stop] raise.  In each case the state is unchanged: nothing has
    been sent. *)
Theorem entry_points_check_the_call_mode (E : env) (apiversion : option pystr)
    (update_cachedir : bool) (delete_minion_cachedir : value -> M unit)
    (fuel : nat) (name : value) (kwargs : gmap string value) (call : value)
    (st : state) :
  (Driver.is_action call = true ->
   (exists e, Driver.avail_images E apiversion call st = (Raise e, st))
   /\ (exists e, Driver.avail_locations E apiversion call st = (Raise e, st))
   /\ (exists e, Driver.avail_sizes E apiversion call st = (Raise e, st))
   /\ (exists e, Driver.clone E apiversion kwargs call st = (Raise e, st))
   /\ (exists e, Driver.create_config E apiversion kwargs call st = (Raise e, st))
   /\ (exists e, Driver.get_config_id E apiversion kwargs call st = (Raise e, st))
   /\ (exists e, Driver.get_linode E apiversion kwargs call st = (Raise e, st))
   /\ (exists e, Driver.boot E apiversion fuel VNone kwargs call st = (Raise e, st)))
  /\ (Driver.is_function call = true ->
      (exists e,
          Driver.destroy E apiversion update_cachedir delete_minion_cachedir
            name call st = (Raise e, st))
      /\ (kwarg kwargs "name" = VNone -> kwarg kwargs "linode_id" = VNone ->
          exists e,
            Driver.boot E apiversion fuel name kwargs call st = (Raise e, st)))
  /\ (Driver.is_action call = false ->
      (exists e, Driver.start E apiversion fuel name call st = (Raise e, st))
      /\ (exists e, Driver.stop E apiversion fuel name call st = (Raise e, st))).
Proof.
  split; [| split].
  - intros Hcall.
    unfold Driver.avail_images, Driver.avail_locations, Driver.avail_sizes,
      Driver.clone, Driver.create_config, Driver.get_config_id,
      Driver.get_linode, Driver.boot.
    rewrite Hcall. simpl. repeat split; eexists; reflexivity.
  - intros Hcall. split.
    + unfold Driver.destroy. rewrite Hcall. eexists. reflexivity.
    + intros Hname Hid. unfold Driver.boot.
      rewrite (is_function_not_action _ Hcall), Hcall, andb_false_r.
      cbv zeta. rewrite Hname, Hid. eexists. reflexivity.
  - intros Hcall. unfold Driver.start, Driver.stop. rewrite Hcall.
    split; eexists; reflexivity.
Qed.

Lemma entry_points_check_the_call_mode_witness :
  Driver.is_action (VStr "action") = true
  /\ Driver.is_function (VStr "function") = true
  /\ Driver.is_action VNone = false
  /\ (exists e,
        Driver.get_linode Stub.env_v3 None {["name" := VStr "web-01"]}
          (VStr "action") Stub.st0 = (Raise e, Stub.st0))
  /\ (exists e,
        Driver.boot Stub.env_v3 None 3 (VStr "web-01") {["config_id" := VInt 5]}
          (VStr "function") Stub.st0 = (Raise e, Stub.st0))
  /\ (exists e,
        Driver.start Stub.env_v3 None 3 (VStr "web-01") VNone Stub.st0
        = (Raise e, Stub.st0)).
Proof.
  split; [reflexivity |]. split; [reflexivity |]. split; [reflexivity |].
  split; [| split].
  - destruct (entry_points_check_the_call_mode Stub.env_v3 None false Cases.evict
                3 (VStr "web-01") {["name" := VStr "web-01"]} (VStr "action")
                Stub.st0) as (Haction & _).
    destruct (Haction eq_refl) as (_ & _ & _ & _ & _ & _ & H & _). exact H.
  - destruct (entry_points_check_the_call_mode Stub.env_v3 None false Cases.evict
                3 (VStr "web-01") {["config_id" := VInt 5]} (VStr "function")
                Stub.st0) as (_ & Hfunction & _).
    exact (proj2 (Hfunction eq_refl) eq_refl eq_refl).
  - destruct (entry_points_check_the_call_mode Stub.env_v3 None false Cases.evict
                3 (VStr "web-01") ∅ VNone Stub.st0) as (_ & _ & Hother).
    exact (proj1 (Hother eq_refl)).
Defined.

(** ** [_list_linodes]: one more request for every instance *)

Lemma classify_total (E : env) (addrs : list value) :
  Forall (fun a => exists b, ip_is_private E a = Ret b) addrs ->
  forall public private : list value,
  exists lists, LinodeAPIv4.classify E addrs public private = Ret lists.
Proof.
  induction 1 as [| addr addrs [b Hb] _ IH]; intros public private; simpl.
  - eexists. reflexivity.
  - rewrite Hb. simpl. destruct b; apply IH.
Qed.

Lemma get_ips_listable (E : env) (instance id : value) (st : state) :
  listable E instance ->
  py_item instance "id" = Ret id ->
  exists ips,
    LinodeAPIv4._get_ips E id st = (Ret ips, sent st (address_lookup instance)).
Proof.
  intros (id' & image & label & type & status & Hid & _ & _ & _ & _ & _ & Hask) Hid0.
  rewrite Hid in Hid0. injection Hid0 as ->.
  destruct (Hask (trace st)) as (code & body & ipv4 & addrs & Hreply & Hipv4 & Hiter & Hprivate).
  destruct (classify_total E addrs Hprivate [] []) as [lists Hlists].
  exists lists.
  unfold LinodeAPIv4._get_ips, LinodeAPIv4._get_linode_by_id, LinodeAPIv4._query,
    LinodeAPIv4.request, address_lookup, item_field, sent, bind, lift, ret.
  rewrite Hreply, Hid, Hipv4, Hiter, Hlists. reflexivity.
Qed.

Lemma list_linodes_loop_listable (E : env) (full : bool) (instances : list value) :
  Forall (listable E) instances ->
  forall (acc : pydict) (st : state),
  exists d,
    LinodeAPIv4.list_linodes_loop E full instances acc st
    = (Ret d, State (trace st ++ map address_lookup instances) (LASTCALL st)).
Proof.
  induction 1 as [| instance instances Hfirst _ IH]; intros acc st.
  - exists acc. simpl. rewrite app_nil_r. destruct st; reflexivity.
  - pose proof Hfirst as
      (id & image & label & type & status & Hid & Himage & Hlabel & Htype
       & Hstatus & Hhash & _).
    destruct (get_ips_listable E instance id st Hfirst Hid) as [ips Hips].
    cbn [LinodeAPIv4.list_linodes_loop].
    unfold bind at 1. unfold lift at 1. rewrite Hid. cbv beta iota.
    unfold bind at 1. unfold lift at 1. rewrite Himage. cbv beta iota.
    unfold bind at 1. unfold lift at 1. rewrite Hlabel. cbv beta iota.
    unfold bind at 1. unfold lift at 1. rewrite Htype. cbv beta iota.
    unfold bind at 1. unfold lift at 1. rewrite Hstatus. cbv beta iota.
    rewrite (bind_Ret _ _ _ _ _ Hips). cbv zeta.
    unfold bind at 1. unfold lift at 1. cbv beta iota.
    unfold bind at 1. unfold lift at 1. unfold pydict_store. rewrite Hhash.
    cbv beta iota.
    match goal with
    | |- context [LinodeAPIv4.list_linodes_loop E full instances ?acc' ?st'] =>
        destruct (IH acc' st') as [d Hd]
    end.
    exists d. rewrite Hd. simpl. rewrite <- app_assoc. reflexivity.
Qed.

(** X17.  [_list_linodes] of API v4 asks once for the list and once more
    for every instance on it.  When the list is answered and every instance
    on it has the five fields that are copied, a hashable label, and an
    address list that can be classified, the call returns a dictionary, and
    the requests it has sent are the listing followed by one look-up per
    instance, in the order of the list. *)
Theorem v4_list_linodes_asks_once_per_instance (E : env) (full : bool)
    (st : state) (code : Z) (result data : value) (instances : list value) :
  requests_request E (trace st) GET (Lit "/linode/instances") None
  = Response code (Some result) ->
  py_get result "data" (VList []) = Ret data ->
  py_iter data = Ret instances ->
  Forall (listable E) instances ->
  exists d,
    LinodeAPIv4._list_linodes E full st
    = (Ret d,
       State (trace st ++ EvRest GET (Lit "/linode/instances") None
                          :: map address_lookup instances)
             (LASTCALL st)).
Proof.
  intros Hreply Hdata Hiter Hlistable.
  destruct (list_linodes_loop_listable E full instances Hlistable []
              (sent st (EvRest GET (Lit "/linode/instances") None))) as [d Hd].
  exists d. unfold LinodeAPIv4._list_linodes.
  unfold bind at 1. unfold LinodeAPIv4._query, LinodeAPIv4.request.
  unfold bind at 1. cbv beta iota. rewrite Hreply. unfold ret at 1.
  cbv beta iota.
  unfold bind at 1. unfold lift at 1. rewrite Hdata. cbv beta iota.
  unfold bind at 1. unfold lift at 1. rewrite Hiter. cbv beta iota.
  unfold sent in Hd. rewrite Hd. simpl. rewrite <- app_assoc. reflexivity.
Qed.

Lemma v4_list_linodes_asks_once_per_instance_witness :
  Forall (listable Cases.env_fleet)
    [Cases.server 1 "web-01"; Cases.server 2 "db-01"]
  /\ exists d,
       LinodeAPIv4._list_linodes Cases.env_fleet true Stub.st0
       = (Ret d,
          State [ EvRest GET (Lit "/linode/instances") None;
                  EvRest GET (Format "/linode/instances/{}" [Val (VInt 1)]) None;
                  EvRest GET (Format "/linode/instances/{}" [Val (VInt 2)]) None ]
                0).
Proof.
  assert (Hall : Forall (listable Cases.env_fleet)
                   [Cases.server 1 "web-01"; Cases.server 2 "db-01"]).
  { repeat constructor;
      (eexists _, _, _, _, _;
       repeat (split; [reflexivity |]);
       intros t; eexists _, _, _, _;
       (split; [reflexivity |]); (split; [reflexivity |]);
       (split; [reflexivity |]);
       repeat constructor; eexists; reflexivity). }
  split; [exact Hall |].
  exact (v4_list_linodes_asks_once_per_instance Cases.env_fleet true Stub.st0 200
           (VDict [("data", VList [Cases.server 1 "web-01"; Cases.server 2 "db-01"])])
           (VList [Cases.server 1 "web-01"; Cases.server 2 "db-01"])
           [Cases.server 1 "web-01"; Cases.server 2 "db-01"]
           eq_refl eq_refl eq_refl Hall).
Defined.

(** ** [list_nodes_min] *)

Lemma nodes_min_spec (instances : list value) :
  keyed_by "label" instances ->
  Forall (fun instance =>
            exists id status,
              py_item instance "id" = Ret id
              /\ py_item instance "status" = Ret status) instances ->
  forall acc : pydict, scalar_keys acc ->
  exists d,
    LinodeAPIv4.nodes_min instances acc = Ret d
    /\ scalar_keys d
    /\ forall k, scalar k = true ->
         pydict_get k d
         = match last_with "label" k instances with
           | Some found =>
               Some (VDict [ ("id", item_field "id" found);
                             ("state", item_field "status" found) ])
           | None => pydict_get k acc
           end.
Proof.
  induction 1 as [| instance instances (label & Hlabel & Hscalar) _ IH];
    intros Hfields acc Hacc.
  - exists acc. split; [reflexivity | split; [assumption | reflexivity]].
  - inversion Hfields as [| ? ? (id & status & Hid & Hstatus) Hrest]; subst.
    destruct (IH Hrest (pydict_set label (VDict [("id", id); ("state", status)]) acc))
      as (d & Hrun & Hkeys & Hget).
    { apply pydict_set_scalar_keys; assumption. }
    exists d. split; [| split; [exact Hkeys |]].
    + cbn [LinodeAPIv4.nodes_min]. rewrite Hlabel. cbn [obind].
      rewrite Hid. cbn [obind]. rewrite Hstatus. cbn [obind].
      unfold pydict_store. rewrite (scalar_hashable _ Hscalar). exact Hrun.
    + intros k Hk. rewrite (Hget k Hk). cbn [last_with].
      destruct (last_with "label" k instances); [reflexivity |].
      rewrite pydict_get_set by assumption.
      replace (item_field "label" instance) with label
        by (unfold item_field; rewrite Hlabel; reflexivity).
      destruct (py_eq label k); [| reflexivity].
      unfold item_field. rewrite Hid, Hstatus. reflexivity.
Qed.

(** X18.  [list_nodes_min] of API v4 sends one request and indexes the
    instances by label.  When the list is answered and every instance on it
    has an id, a status and a scalar label, the call returns a dictionary in
    which a label is bound to the id and the status of the last instance of
    the list that carries it, and a label that no instance carries is not
    bound. *)
Theorem v4_list_nodes_min_indexes_by_label (E : env) (st : state) (code : Z)
    (result data : value) (instances : list value) :
  requests_request E (trace st) GET (Lit "/linode/instances") None
  = Response code (Some result) ->
  py_get result "data" (VList []) = Ret data ->
  py_iter data = Ret instances ->
  keyed_by "label" instances ->
  Forall (fun instance =>
            exists id status,
              py_item instance "id" = Ret id
              /\ py_item instance "status" = Ret status) instances ->
  exists d,
    LinodeAPIv4.list_nodes_min E st
    = (Ret d, sent st (EvRest GET (Lit "/linode/instances") None))
    /\ forall k, scalar k = true ->
         pydict_get k d
         = match last_with "label" k instances with
           | Some found =>
               Some (VDict [ ("id", item_field "id" found);
                             ("state", item_field "status" found) ])
           | None => None
           end.
Proof.
  intros Hreply Hdata Hiter Hkeyed Hfields.
  destruct (nodes_min_spec instances Hkeyed Hfields []) as (d & Hrun & _ & Hget);
    [constructor |].
  exists d. split; [| exact Hget].
  unfold LinodeAPIv4.list_nodes_min, LinodeAPIv4._query, LinodeAPIv4.request,
    sent, bind, lift, ret.
  rewrite Hreply, Hdata, Hiter, Hrun. reflexivity.
Qed.

Lemma v4_list_nodes_min_indexes_by_label_witness :
  exists d,
    LinodeAPIv4.list_nodes_min Cases.env_fleet Stub.st0
    = (Ret d, sent Stub.st0 (EvRest GET (Lit "/linode/instances") None))
    /\ pydict_get (VStr "db-01") d
       = Some (VDict [("id", VInt 2); ("state", VStr "running")])
    /\ pydict_get (VStr "mail-01") d = None.
Proof.
  destruct (v4_list_nodes_min_indexes_by_label Cases.env_fleet Stub.st0 200
              (VDict [("data", VList [Cases.server 1 "web-01"; Cases.server 2 "db-01"])])
              (VList [Cases.server 1 "web-01"; Cases.server 2 "db-01"])
              [Cases.server 1 "web-01"; Cases.server 2 "db-01"]
              eq_refl eq_refl eq_refl) as (d & Hrun & Hget).
  - repeat constructor; eexists; (split; reflexivity).
  - repeat constructor; eexists _, _; (split; reflexivity).
  - exists d. split; [exact Hrun |].
    split; [exact (Hget (VStr "db-01") eq_refl) | exact (Hget (VStr "mail-01") eq_refl)].
Defined.

(** ** C2 and C9: what [create] does once the name is accepted *)

Lemma calm_bind {A B} (c : M A) (k : A -> M B) :
  calm c -> (forall a, calm (k a)) -> calm (bind c k).
Proof.
  intros Hc Hk st. unfold bind. destruct (Hc st) as (t & Ht & Hok).
  destruct (c st) as [[a | e |] st1]; simpl in *; [| exists t; auto ..].
  destruct (Hk a st1) as (t' & Ht' & Hok'). exists (t ++ t'). split.
  - rewrite Ht', Ht, app_assoc. reflexivity.
  - rewrite forallb_app, Hok, Hok'. reflexivity.
Qed.

Lemma calm_bind_no_result {A B} (c : M A) (k : A -> M B) :
  calm c -> (forall st a st', c st <> (Ret a, st')) -> calm (bind c k).
Proof.
  intros Hc Hnone st. unfold bind. destruct (Hc st) as (t & Ht & Hok).
  destruct (c st) as [[a | e |] st1] eqn:Hrun; simpl in *;
    [exfalso; exact (Hnone _ _ _ Hrun) | exists t; auto ..].
Qed.

Lemma calm_rest {A B} (c : M A) (k : A -> M B) (st : state) :
  (forall a, calm (k a)) ->
  exists t,
    trace (snd (bind c k st)) = trace (snd (c st)) ++ t
    /\ forallb (fun e => negb (is_announcement e)) t = true.
Proof.
  intros Hk. unfold bind.
  destruct (c st) as [[a | e |] st1]; simpl;
    [apply Hk | exists []; rewrite app_nil_r; auto ..].
Qed.

Lemma calm_same {A} (c : M A) :
  (forall st, trace (snd (c st)) = trace st) -> calm c.
Proof. intros H st. exists []. rewrite H, app_nil_r. auto. Qed.

Lemma calm_one {A} (c : M A) (next : state -> event) :
  (forall st, is_announcement (next st) = false) ->
  (forall st, snd (c st) = sent st (next st)) ->
  calm c.
Proof.
  intros Hquiet Hsent st. exists [next st]. rewrite Hsent. simpl.
  rewrite Hquiet. auto.
Qed.

Lemma calm_lift {A} (o : outcome A) : calm (lift o).
Proof. apply calm_same. intros st. unfold lift. destruct o; reflexivity. Qed.

Lemma calm_ret {A} (a : A) : calm (ret a).
Proof. apply calm_same. reflexivity. Qed.

Lemma calm_raise {A} (e : exn) : calm (raise e : M A).
Proof. apply calm_same. reflexivity. Qed.

Lemma calm_sleep (milliseconds : Z) : calm (sleep milliseconds).
Proof. apply (calm_one _ (fun _ => EvSleep milliseconds)); reflexivity. Qed.

Lemma calm_v4_query (E : env) (path : text) (m : http_method)
    (data : option value) : calm (LinodeAPIv4._query E path m data).
Proof.
  apply (calm_one _ (fun _ => EvRest m path data)); [reflexivity |].
  intros st. destruct (LinodeAPIv4._query E path m data st) as [r st'] eqn:Hq.
  exact (v4_query_state _ _ _ _ _ _ _ Hq).
Qed.

Lemma calm_v4_get_linode_by_name (E : env) (name : value) :
  calm (LinodeAPIv4._get_linode_by_name E name).
Proof.
  apply (calm_one _ (fun _ => EvRest GET (Lit "/linode/instances") None));
    [reflexivity |].
  intros st. destruct (LinodeAPIv4._get_linode_by_name E name st) as [r st'] eqn:Hq.
  exact (v4_get_linode_by_name_state _ _ _ _ _ Hq).
Qed.

Lemma calm_v4_get_linode (E : env) (kwargs : gmap string value) :
  calm (@get_linode (LinodeAPIv4.api E) kwargs).
Proof.
  unfold get_linode. simpl.
  destruct (negb _); [apply calm_v4_query |].
  destruct (negb _); [apply calm_v4_get_linode_by_name | apply calm_raise].
Qed.

Lemma calm_wait_loop (getter : M value) (status : value)
    (entity_name identifier : text) (poll_interval times curr : Z) (fuel : nat) :
  calm getter ->
  calm (LinodeAPIv4.wait_loop fuel getter status entity_name identifier
          poll_interval times curr).
Proof.
  intros Hgetter. induction fuel as [| fuel IH]; [apply calm_lift |].
  cbn [LinodeAPIv4.wait_loop].
  apply calm_bind; [exact Hgetter | intros result].
  apply calm_bind; [apply calm_lift | intros current].
  destruct (py_eq current status); [apply calm_ret |].
  destruct (curr <=? times); [| apply calm_raise].
  apply calm_bind; [| intros _; exact IH].
  destruct (poll_interval <? 0); [apply calm_raise | apply calm_sleep].
Qed.

Lemma calm_wait_for_entity_status (E : env) (fuel : nat) (getter : M value)
    (status : value) (entity_name identifier : text) (timeout : Z) :
  calm getter ->
  calm (LinodeAPIv4._wait_for_entity_status E fuel getter status entity_name
          identifier timeout).
Proof.
  intros Hgetter. unfold LinodeAPIv4._wait_for_entity_status.
  destruct (_ =? 0); [apply calm_raise |].
  apply calm_wait_loop. exact Hgetter.
Qed.

Lemma calm_v4_create_disk (E : env) (fuel : nat) (linode_id size label
    authorized_keys filesystem image root_pass : value) :
  calm (LinodeAPIv4._create_disk E fuel linode_id size label authorized_keys
          filesystem image root_pass).
Proof.
  unfold LinodeAPIv4._create_disk.
  apply calm_bind; [apply calm_v4_query | intros disk].
  apply calm_bind; [apply calm_lift | intros disk_id].
  apply calm_bind; [| intros _; apply calm_ret].
  apply calm_wait_for_entity_status, calm_v4_query.
Qed.

Lemma calm_v4_create_config (E : env) (kwargs : gmap string value) :
  calm (LinodeAPIv4.create_config E kwargs).
Proof.
  unfold LinodeAPIv4.create_config. cbv zeta.
  destruct (_ && _); [apply calm_raise |].
  destruct (existsb _ _); [apply calm_raise |].
  apply calm_bind; [apply calm_lift | intros sda].
  apply calm_bind.
  { destruct (negb _); [| apply calm_ret].
    apply calm_bind; [apply calm_lift | intros n; apply calm_ret]. }
  intros sdb. apply calm_bind; [apply calm_lift | intros sdc].
  apply calm_v4_query.
Qed.

Lemma calm_v4_clone (E : env) (kwargs : gmap string value) :
  calm (LinodeAPIv4.clone E kwargs).
Proof.
  unfold LinodeAPIv4.clone. cbv zeta.
  destruct (existsb _ _); [apply calm_raise | apply calm_v4_query].
Qed.

Lemma calm_v4_boot (E : env) (fuel : nat) (name : value)
    (kwargs : gmap string value) :
  calm (LinodeAPIv4.boot E fuel name kwargs).
Proof.
  unfold LinodeAPIv4.boot.
  apply calm_bind; [apply calm_v4_get_linode | intros instance]. cbv zeta.
  apply calm_bind; [apply calm_lift | intros linode_id].
  apply calm_bind; [apply calm_lift | intros label].
  apply calm_bind.
  { destruct (truthy _); [| apply calm_ret].
    apply calm_bind; [apply calm_lift | intros status].
    destruct (py_eq _ _); [apply calm_raise | apply calm_ret]. }
  intros _. apply calm_bind_no_result; [apply calm_raise | discriminate].
Qed.

Lemma calm_v4_create_declared_disks (E : env) (fuel : nat) (linode_id
    instance_type image pub_ssh_key password : value)
    (swap_size root_disk_size : Z) :
  calm (LinodeAPIv4.create_declared_disks E fuel linode_id instance_type image
          pub_ssh_key password swap_size root_disk_size).
Proof.
  unfold LinodeAPIv4.create_declared_disks, LinodeAPIv4._get_linode_type.
  apply calm_bind; [apply calm_v4_query | intros instance_spec].
  apply calm_bind; [apply calm_lift | intros disk_size_value].
  apply calm_bind; [apply calm_lift | intros disk_size]. cbv zeta.
  destruct (_ >? _); [apply calm_raise |].
  destruct (_ <=? 0); [apply calm_raise |].
  apply calm_bind.
  { destruct (negb _); [| apply calm_ret].
    apply calm_bind; [apply calm_v4_create_disk | intros _; apply calm_ret]. }
  intros _. apply calm_bind; [apply calm_v4_create_disk | intros data_disk].
  apply calm_bind; [apply calm_lift | intros data_disk_id].
  apply calm_bind; [apply calm_ret | intros swap_disk_id].
  apply calm_bind; [apply calm_v4_create_config | intros _; apply calm_ret].
Qed.

Lemma truthy_not_None (v : value) : truthy v = true -> is_None v = false.
Proof. destruct v; simpl; intros H; try discriminate; reflexivity. Qed.

(** The event that [create] fires once it has accepted the name. *)
Lemma v4_create_after_validation (E : env) (fuel : nat) (vm_ : vm) (st : state) :
  _validate_name (vm_name vm_) = true ->
  exists request rest,
    trace (snd (LinodeAPIv4.create E fuel vm_ st))
    = trace st
      ++ EvFire "starting create"
           (Format "salt/cloud/{0}/creating" [Lit (vm_name vm_)])
           (cloud_filter_event E "creating" vm_)
         :: request :: rest
    /\ is_remote_call request = true
    /\ forallb (fun e => negb (is_announcement e)) (request :: rest) = true.
Proof.
  intros Hname. unfold LinodeAPIv4.create. rewrite Hname. cbn [negb]. cbv zeta.
  unfold fire_event. rewrite bind_emit.
  set (st1 := sent st _).
  match goal with
  | |- context [bind ?R ?K st1] => destruct (calm_rest R K st1) as (t2 & Ht2 & Hok2)
  end.
  { intros result.
    apply calm_bind; [apply calm_lift | intros linode_id].
    apply calm_bind.
    { destruct (_get_root_disk_size vm_); [| apply calm_ret].
      destruct (negb _); [apply calm_v4_create_declared_disks | apply calm_ret]. }
    intros _. apply calm_bind_no_result; [apply calm_v4_boot |].
    intros s a s'. apply v4_boot_no_result. }
  rewrite Ht2. clear Ht2.
  destruct (truthy (vm_clonefrom vm_)) eqn:Hclone.
  - match goal with
    | |- context [bind ?c ?k st1] => destruct (calm_rest c k st1) as (t1 & Ht1 & Hok1)
    end.
    { intros clone_linode.
      apply calm_bind; [apply calm_lift | intros source_id].
      apply calm_bind; [apply calm_lift | intros source_region].
      apply calm_bind; [apply calm_lift | intros source_type].
      apply calm_bind; [apply calm_v4_clone | intros result].
      apply calm_bind; [| intros _; apply calm_ret].
      destruct (_ || _); [| apply calm_ret].
      apply calm_bind; [apply calm_lift | intros new_id].
      apply calm_bind; [apply calm_v4_query | intros _; apply calm_ret]. }
    rewrite Ht1. clear Ht1.
    assert (Hfind : snd (@get_linode (LinodeAPIv4.api E)
                           {["name" := vm_clonefrom vm_]} st1)
                    = sent st1 (EvRest GET (Lit "/linode/instances") None)).
    { unfold get_linode. cbn [_get_linode_by_name _get_linode_by_id LinodeAPIv4.api].
      unfold kwarg. rewrite lookup_singleton_ne by discriminate.
      rewrite lookup_singleton_eq. cbn [is_None negb].
      rewrite (truthy_not_None _ Hclone). cbn [negb].
      destruct (LinodeAPIv4._get_linode_by_name E (vm_clonefrom vm_) st1)
        as [r s'] eqn:Hq.
      exact (v4_get_linode_by_name_state _ _ _ _ _ Hq). }
    rewrite Hfind. exists (EvRest GET (Lit "/linode/instances") None), (t1 ++ t2).
    split; [| split; [reflexivity |]].
    + unfold st1, sent. simpl. rewrite <- !app_assoc. reflexivity.
    + simpl. rewrite forallb_app, Hok1, Hok2. reflexivity.
  - match goal with
    | |- context [LinodeAPIv4._query E ?p POST ?d st1] =>
        destruct (LinodeAPIv4._query E p POST d st1) as [r s'] eqn:Hq;
        apply v4_query_state in Hq; subst s';
        exists (EvRest POST p d), t2
    end.
    split; [| split; [reflexivity |]].
    + unfold st1, sent. simpl. rewrite <- !app_assoc. reflexivity.
    + simpl. exact Hok2.
Qed.

Lemma v4_create_valid_no_result (E : env) (fuel : nat) (vm_ : vm) (st : state)
    (v : value) :
  _validate_name (vm_name vm_) = true ->
  fst (LinodeAPIv4.create E fuel vm_ st) <> Ret v.
Proof.
  intros Hname. unfold LinodeAPIv4.create. rewrite Hname. cbn [negb].
  destruct (bind _ _ st) as [o st'] eqn:Hc. simpl. intros ->.
  apply bind_Ret_inv in Hc as (? & ? & _ & Hc).
  apply bind_Ret_inv in Hc as (? & ? & _ & Hc).
  apply bind_Ret_inv in Hc as (? & ? & _ & Hc).
  apply bind_Ret_inv in Hc as (? & ? & _ & Hc).
  apply bind_Ret_inv in Hc as (? & ? & Hboot & _).
  exact (v4_boot_no_result _ _ _ _ _ _ _ Hboot).
Qed.

Lemma trailing_newline_outside_pattern (t : string) :
  ~ lang label_regex (t +:+ String newline "").
Proof.
  intros H. apply label_regex_shape in H.
  pose proof (last_char_snoc t newline) as Hlast.
  destruct (t +:+ String newline "") as [| first [| c rest]]; try discriminate.
  unfold label_shape in H.
  change (last_char (String first (String c rest)))
    with (last_char (String c rest)) in Hlast.
  rewrite Hlast in H. change (alnum newline) with false in H.
  rewrite andb_false_r in H. discriminate.
Qed.

Lemma label_has_two_characters (t : string) :
  lang label_regex t -> (2 <= String.length t)%nat.
Proof.
  intros H. apply label_regex_shape in H.
  destruct t as [| first [| c rest]]; try discriminate. simpl. lia.
Qed.

Lemma length_snoc (t : string) (c : ascii) :
  String.length (t +:+ String c "") = S (String.length t).
Proof.
  induction t as [| a t IH]; norm_append; [reflexivity |].
  simpl. rewrite IH. reflexivity.
Qed.

(** C2.  [create] returns [False], with nothing sent and no event fired, for
    a name that is shorter than 3 or longer than 48 characters or that
    Python's [re.match] does not match against
    [^[a-zA-Z0-9][A-Za-z0-9_-]*[a-zA-Z0-9]$].  But [re.match] lets [$] match
    before a final newline.  A name of at most 48 characters that is a label
    of the pattern followed by a newline is not in the language of the
    pattern (it does not end with a letter or digit), yet [_validate_name]
    returns [True] for it, and [create] goes on: it fires "starting create",
    sends a request to the provider, and does not return [False]. *)
Theorem create_accepts_trailing_newline (E : env) (fuel : nat) (vm_ : vm)
    (st : state) :
  ((String.length (vm_name vm_) < 3)%nat
   \/ (48 < String.length (vm_name vm_))%nat
   \/ ~ re_matches label_regex (vm_name vm_) ->
   LinodeAPIv4.create E fuel vm_ st = (Ret (VBool false), st))
  /\ (forall t : string,
        lang label_regex t ->
        vm_name vm_ = t +:+ String newline "" ->
        (String.length (vm_name vm_) <= 48)%nat ->
        ~ lang label_regex (vm_name vm_)
        /\ _validate_name (vm_name vm_) = true
        /\ (forall v, fst (LinodeAPIv4.create E fuel vm_ st) <> Ret v)
        /\ exists request rest,
             is_remote_call request = true
             /\ trace (snd (LinodeAPIv4.create E fuel vm_ st))
                = trace st
                  ++ EvFire "starting create"
                       (Format "salt/cloud/{0}/creating" [Lit (vm_name vm_)])
                       (cloud_filter_event E "creating" vm_)
                     :: request :: rest).
Proof.
  split.
  - intros Hbad.
    assert (Hv : _validate_name (vm_name vm_) = false).
    { destruct (_validate_name (vm_name vm_)) eqn:Hv; [| reflexivity].
      apply validate_name_spec in Hv as [Hlen Hre].
      destruct Hbad as [H | [H | H]]; [lia | lia | contradiction]. }
    unfold LinodeAPIv4.create. rewrite Hv. reflexivity.
  - intros t Hlabel Hname Hlen.
    assert (Hvalid : _validate_name (vm_name vm_) = true).
    { apply validate_name_spec. split.
      - pose proof (label_has_two_characters t Hlabel) as Htwo.
        rewrite Hname, length_snoc in *. lia.
      - right. exists t. split; assumption. }
    split; [rewrite Hname; apply trailing_newline_outside_pattern |].
    split; [exact Hvalid |].
    split; [intros v; apply v4_create_valid_no_result; exact Hvalid |].
    destruct (v4_create_after_validation E fuel vm_ st Hvalid)
      as (request & rest & Htrace & Hremote & _).
    exists request, rest. split; assumption.
Qed.

Lemma create_accepts_trailing_newline_witness :
  (String.length "ab" < 3)%nat
  /\ LinodeAPIv4.create (Stub.env_v4 25600 "offline") 1
       (VM "ab" VNone VNone VNone VNone VNone VNone None None None None) Stub.st0
     = (Ret (VBool false), Stub.st0)
  /\ lang label_regex "ab1"
  /\ ~ lang label_regex ("ab1" +:+ String newline "")
  /\ _validate_name ("ab1" +:+ String newline "") = true
  /\ (forall v,
        fst (LinodeAPIv4.create (Stub.env_v4 25600 "offline") 1
               (VM ("ab1" +:+ String newline "") VNone (VStr "g6-standard-1")
                   (VStr "linode/centos7") (VStr "eu-west") (VStr "ssh-rsa AAAA")
                   (VStr "F00barbaz") None None None None) Stub.st0) <> Ret v)
  /\ posted (trace (snd (LinodeAPIv4.create (Stub.env_v4 25600 "offline") 1
               (VM ("ab1" +:+ String newline "") VNone (VStr "g6-standard-1")
                   (VStr "linode/centos7") (VStr "eu-west") (VStr "ssh-rsa AAAA")
                   (VStr "F00barbaz") None None None None) Stub.st0)))
     = ["/linode/instances"].
Proof.
  assert (Hshort : (String.length "ab" < 3)%nat) by (simpl; lia).
  assert (Hlabel : lang label_regex "ab1") by (apply accepts_lang; reflexivity).
  split; [exact Hshort |].
  split.
  { apply (proj1 (create_accepts_trailing_newline (Stub.env_v4 25600 "offline") 1
                    (VM "ab" VNone VNone VNone VNone VNone VNone None None None None)
                    Stub.st0)).
    left. exact Hshort. }
  split; [exact Hlabel |].
  destruct (proj2 (create_accepts_trailing_newline (Stub.env_v4 25600 "offline") 1
                     (VM ("ab1" +:+ String newline "") VNone (VStr "g6-standard-1")
                         (VStr "linode/centos7") (VStr "eu-west")
                         (VStr "ssh-rsa AAAA") (VStr "F00barbaz")
                         None None None None) Stub.st0)
              "ab1" Hlabel eq_refl) as (Hout & Hvalid & Hnone & _).
  { simpl. lia. }
  split; [exact Hout |]. split; [exact Hvalid |]. split; [exact Hnone |].
  reflexivity.
Defined.

(** C9.  [create] of API v4 never gets to choose an SSH target.  Whatever
    the profile says about [ssh_interface] and the assignment of a private
    address, and whatever the provider answers, the only thing a run of
    [create] announces is the event "starting create", when the name is
    valid, and nothing when it is not: the event "waiting for ssh", which
    carries the chosen address, is never fired, and the bootstrap, which is
    handed the chosen address, is never called.  A run with a valid name
    returns no result either: it ends in [boot], before the lines that
    choose the address. *)
Theorem create_never_selects_ssh_target (E : env) (fuel : nat) (vm_ : vm)
    (st : state) :
  List.filter is_announcement (trace (snd (LinodeAPIv4.create E fuel vm_ st)))
  = List.filter is_announcement (trace st)
    ++ (if _validate_name (vm_name vm_)
        then [EvFire "starting create"
                (Format "salt/cloud/{0}/creating" [Lit (vm_name vm_)])
                (cloud_filter_event E "creating" vm_)]
        else [])
  /\ (forall result : list (string * value),
        fst (LinodeAPIv4.create E fuel vm_ st) <> Ret (VDict result)).
Proof.
  assert (Hfilter : forall t : list event,
             forallb (fun e => negb (is_announcement e)) t = true ->
             List.filter is_announcement t = []).
  { induction t as [| e t IH]; [reflexivity |]. simpl.
    destruct (is_announcement e); [discriminate | exact IH]. }
  destruct (_validate_name (vm_name vm_)) eqn:Hname.
  - split.
    + destruct (v4_create_after_validation E fuel vm_ st Hname)
        as (request & rest & Htrace & _ & Hcalm).
      remember (request :: rest) as sent_after eqn:Hsent.
      rewrite Htrace, List.filter_app. cbn [List.filter is_announcement].
      rewrite (Hfilter _ Hcalm). reflexivity.
    + intros result. apply v4_create_valid_no_result. exact Hname.
  - unfold LinodeAPIv4.create. rewrite Hname. simpl. split.
    + rewrite app_nil_r. reflexivity.
    + discriminate.
Qed.

(** The runs of [create] on a profile whose [ssh_interface] is
    "private_ips" and on a profile that asks for a private address: the
    instance is created and looked up, and [boot] raises. *)
Example create_stops_in_boot :
  _validate_name (vm_name Stub.private_ssh_profile) = true
  /\ fst (LinodeAPIv4.create (Stub.env_v4 25600 "offline") 3
            Stub.private_ssh_profile Stub.st0)
     = Raise (Exn TypeError
                [Lit "_query() got an unexpected keyword argument 'body'"])
  /\ map is_announcement
       (trace (snd (LinodeAPIv4.create (Stub.env_v4 25600 "offline") 3
                      Stub.private_ssh_profile Stub.st0)))
     = [true; false; false]
  /\ fst (LinodeAPIv4.create (Stub.env_v4 25600 "offline") 3
            Stub.private_ip_profile Stub.st0)
     = Raise (Exn TypeError
                [Lit "_query() got an unexpected keyword argument 'body'"])
  /\ posted (trace (snd (LinodeAPIv4.create (Stub.env_v4 25600 "offline") 3
                           Stub.private_ip_profile Stub.st0)))
     = ["/linode/instances"].
Proof. repeat split; reflexivity. Qed.
